(** * Frequency-response measurement (frequency-response/measure.cc)

    A shallow embedding of the JACK process callback [process] and of the
    reporting loop of [main], followed by the properties of the sweep that
    the specification states about them.

    Samples are IEEE-754 binary32 values and the window is computed in
    binary64, both through the Standard Library's [spec_float] operations
    (round to nearest, ties to even).  Unsigned counters are integers with the
    32-bit wrap-around written out.  Arrays are lists read and updated by
    index.  The functions the program takes from libm and FFTW
    ([std::sin], [std::cos], [std::abs], [std::arg], [fftwf_execute]) are
    parameters of the model. *)

From Stdlib Require Import ZArith QArith Qround Lia Bool.
From Stdlib Require Import Floats.SpecFloat Sorting.Sorted.
From stdpp Require Import base list.

Open Scope Z_scope.

(** ** Floating-point layer *)

Definition float := spec_float.
Definition double := spec_float.

(** [float]: binary32. *)
Module F32.
Definition prec : Z := 24.
Definition emax : Z := 128.
Definition add : float -> float -> float := SFadd prec emax.
Definition sub : float -> float -> float := SFsub prec emax.
Definition mul : float -> float -> float := SFmul prec emax.
Definition div : float -> float -> float := SFdiv prec emax.
Definition abs : float -> float := SFabs.
Definition ltb : float -> float -> bool := SFltb.
Definition leb : float -> float -> bool := SFleb.
Definition zero : float := S754_zero false.
(** Conversion of an integer to [float]. *)
Definition of_Z (n : Z) : float := binary_normalize prec emax n 0 false.
(** A decimal literal [n / d] with suffix [f], correctly rounded. *)
Definition literal (n d : Z) : float :=
  let '(q, e, l) := SFdiv_core_binary prec emax n 0 d 0 in
  binary_round_aux prec emax false q e l.
(** [(int)x]: the integer part, rounded toward zero.  The conversion is
    undefined in C++ for a NaN, an infinity or a value outside [int]; the
    model gives 0 for the first two and the unbounded integer otherwise. *)
Definition to_int (x : float) : Z :=
  match x with
  | S754_finite s m e =>
      cond_Zopp s (if 0 <=? e then Zpos m * 2 ^ e else Zpos m / 2 ^ (- e))
  | _ => 0
  end.
End F32.

(** [double]: binary64. *)
Module F64.
Definition prec : Z := 53.
Definition emax : Z := 1024.
Definition add : double -> double -> double := SFadd prec emax.
Definition sub : double -> double -> double := SFsub prec emax.
Definition mul : double -> double -> double := SFmul prec emax.
Definition div : double -> double -> double := SFdiv prec emax.
Definition of_Z (n : Z) : double := binary_normalize prec emax n 0 false.
(** Widening of a [float]: the same value in binary64 form. *)
Definition of_float (x : float) : double :=
  match x with
  | S754_finite s m e => binary_normalize prec emax (cond_Zopp s (Zpos m)) e s
  | _ => x
  end.
(** Narrowing to [float], rounded to nearest. *)
Definition to_float (x : double) : float :=
  match x with
  | S754_finite s m e =>
      binary_normalize F32.prec F32.emax (cond_Zopp s (Zpos m)) e s
  | _ => x
  end.
(** A decimal literal [n / d], correctly rounded. *)
Definition literal (n d : Z) : double :=
  let '(q, e, l) := SFdiv_core_binary prec emax n 0 d 0 in
  binary_round_aux prec emax false q e l.
(** [std::ceil] followed by the conversion to an unsigned integer. *)
Definition ceil_to_unsigned (x : double) : Z :=
  match x with
  | S754_finite s m e =>
      if 0 <=? e then cond_Zopp s (Zpos m * 2 ^ e)
      else - ((- cond_Zopp s (Zpos m)) / 2 ^ (- e))
  | _ => 0
  end.
End F64.

(** [std::complex<float>]. *)
Definition cfloat : Type := float * float.
Definition czero : cfloat := (F32.zero, F32.zero).

(** ** Constants of the program *)

Definition fft_size : Z := 2048.
Definition fft_nbins : Z := fft_size / 2 + 1.

(** [1e-2f]. *)
Definition silence_threshold : float := F32.literal 1 100.

(** [~0u], the value of [current_bin] before the first bin. *)
Definition no_bin : Z := 2 ^ 32 - 1.

(** Unsigned 32-bit increment. *)
Definition incr32 (n : Z) : Z := (n + 1) mod 2 ^ 32.

(** [M_PI]. *)
Definition M_PI : double := S754_finite false 7074237752028440 (-51).

(** ** The measurement context *)

Record Measure_Context := {
  fft_in : list float;
  fft_out : list cfloat;
  current_bin : Z;
  fft_in_fill : Z;
  oscillator_phase : float;
  response : list cfloat;
  silence_frames_count : Z;
  silence_frames_needed : Z
}.

Definition with_silence_frames_count (ctx : Measure_Context) (n : Z) :=
  {| fft_in := fft_in ctx; fft_out := fft_out ctx;
     current_bin := current_bin ctx; fft_in_fill := fft_in_fill ctx;
     oscillator_phase := oscillator_phase ctx; response := response ctx;
     silence_frames_count := n;
     silence_frames_needed := silence_frames_needed ctx |}.

Definition with_transform (ctx : Measure_Context)
    (buf : list float) (out resp : list cfloat) :=
  {| fft_in := buf; fft_out := out;
     current_bin := current_bin ctx; fft_in_fill := fft_in_fill ctx;
     oscillator_phase := oscillator_phase ctx; response := resp;
     silence_frames_count := silence_frames_count ctx;
     silence_frames_needed := silence_frames_needed ctx |}.

Definition with_next_bin (ctx : Measure_Context) :=
  {| fft_in := fft_in ctx; fft_out := fft_out ctx;
     current_bin := incr32 (current_bin ctx); fft_in_fill := 0;
     oscillator_phase := F32.zero; response := response ctx;
     silence_frames_count := silence_frames_count ctx;
     silence_frames_needed := silence_frames_needed ctx |}.

Definition with_oscillator_phase (ctx : Measure_Context) (p : float) :=
  {| fft_in := fft_in ctx; fft_out := fft_out ctx;
     current_bin := current_bin ctx; fft_in_fill := fft_in_fill ctx;
     oscillator_phase := p; response := response ctx;
     silence_frames_count := silence_frames_count ctx;
     silence_frames_needed := silence_frames_needed ctx |}.

Definition with_capture (ctx : Measure_Context) (buf : list float) (fill : Z) :=
  {| fft_in := buf; fft_out := fft_out ctx;
     current_bin := current_bin ctx; fft_in_fill := fill;
     oscillator_phase := oscillator_phase ctx; response := response ctx;
     silence_frames_count := silence_frames_count ctx;
     silence_frames_needed := silence_frames_needed ctx |}.

(** What one call of [process] leaves behind: the context, the output
    buffer, whether [measure_finished] was stored, and (for the statements
    about the response table) the slot of [response] that the call stored
    into, if any. *)
Record Callback := {
  cb_ctx : Measure_Context;
  cb_output : list float;
  cb_finished : bool;
  cb_stored : option Z
}.

(** ** The silence detector (measure.cc, lines 51-53) *)

Definition is_silent (x : float) : bool :=
  F32.ltb (F32.abs x) silence_threshold.

Definition silence_step (count : Z) (x : float) : Z :=
  if is_silent x then incr32 count else 0.

Definition silence_loop (count : Z) (input : list float) : Z :=
  fold_left silence_step input count.

(** ** The window (lines 62-66) *)

Section Window.
(** [std::cos] on [double]. *)
Variable cos : double -> double.

Definition window_coefficient (i : Z) : double :=
  let k := F64.div (F64.of_Z i) (F64.of_Z (fft_size - 1)) in
  F64.add
    (F64.sub (F64.literal 42 100)
       (F64.mul (F64.literal 5 10)
          (cos (F64.mul (F64.mul (F64.of_Z 2) M_PI) k))))
    (F64.mul (F64.literal 8 100)
       (cos (F64.mul (F64.mul (F64.of_Z 4) M_PI) k))).

(** [fft_in[i] *= w]: the product is formed in [double] and stored back as
    [float]. *)
Definition window_sample (i : Z) (x : float) : float :=
  F64.to_float (F64.mul (F64.of_float x) (window_coefficient i)).

(** The loop [for (i = 0; i < fft_size; ++i)], with [n] iterations left. *)
Fixpoint window_loop (n : nat) (i : Z) (buf : list float) : list float :=
  match n with
  | O => buf
  | S n' =>
      window_loop n' (i + 1) (alter (window_sample i) (Z.to_nat i) buf)
  end.

Definition apply_window (buf : list float) : list float :=
  window_loop (Z.to_nat fft_size) 0 buf.
End Window.

(** ** The oscillator (lines 80-85) *)

Section Oscillator.
(** [std::sin] on [float]. *)
Variable sinf : float -> float.

Definition oscillator_freq (bin : Z) : float :=
  F32.div (F32.of_Z bin) (F32.of_Z fft_size).

Definition phase_step (freq phase : float) : float :=
  let phase := F32.add phase freq in
  F32.sub phase (F32.of_Z (F32.to_int phase)).

(** The loop [for (i = 0; i < nframes && fft_in_fill < fft_size; ++i)], with
    [n] frames left; the fill count does not change inside it. *)
Fixpoint oscillator_loop (fill : Z) (freq : float) (n : nat) (i : nat)
    (phase : float) (output : list float) : float * list float :=
  match n with
  | O => (phase, output)
  | S n' =>
      if fill <? fft_size then
        oscillator_loop fill freq n' (S i) (phase_step freq phase)
          (<[i := sinf phase]> output)
      else (phase, output)
  end.
End Oscillator.

(** ** The capture (lines 87-91) *)

Fixpoint record_loop (buf : list float) (fill : Z) (input : list float)
    : list float * Z :=
  match input with
  | [] => (buf, fill)
  | x :: rest =>
      if fill <? fft_size then
        record_loop (<[Z.to_nat fill := x]> buf) (incr32 fill) rest
      else (buf, fill)
  end.

(** ** The callback (lines 40-94) *)

Section Process.
Variable cos : double -> double.
Variable sinf : float -> float.
(** Coefficient [k] of the forward real-to-complex transform that the FFTW
    plan computes from the capture buffer. *)
Variable transform : list float -> Z -> cfloat.

(** [fftwf_execute]: the plan fills the [fft_nbins] slots of [fft_out] and
    leaves [fft_in] as it is. *)
Definition fftwf_execute (buf : list float) : list cfloat :=
  map (fun k : nat => transform buf (Z.of_nat k)) (seq 0 (Z.to_nat fft_nbins)).

(** Lines 61-69. *)
Definition transform_due (ctx : Measure_Context) : bool :=
  negb (current_bin ctx =? no_bin) && (fft_in_fill ctx =? fft_size).

Definition store_response (ctx : Measure_Context) : Measure_Context :=
  let buf := apply_window cos (fft_in ctx) in
  let out := fftwf_execute buf in
  let bin := Z.to_nat (current_bin ctx) in
  with_transform ctx buf out
    (match out !! bin with
     | Some c => <[bin := c]> (response ctx)
     | None => response ctx
     end).

(** Lines 71-91, after the transform. *)
Definition sweep (ctx : Measure_Context) (input output : list float)
    (stored : option Z) : Callback :=
  let change_bin :=
    (current_bin ctx =? no_bin) || (fft_in_fill ctx =? fft_size) in
  if change_bin && (silence_frames_count ctx <? silence_frames_needed ctx)
  then {| cb_ctx := ctx; cb_output := output;
          cb_finished := false; cb_stored := stored |}
  else
    let ctx := if change_bin then with_next_bin ctx else ctx in
    let '(phase, output) :=
      oscillator_loop sinf (fft_in_fill ctx)
        (oscillator_freq (current_bin ctx)) (length input) 0
        (oscillator_phase ctx) output in
    let ctx := with_oscillator_phase ctx phase in
    let record_input := negb change_bin in
    let ctx :=
      if record_input then
        let '(buf, fill) := record_loop (fft_in ctx) (fft_in_fill ctx) input in
        with_capture ctx buf fill
      else ctx in
    {| cb_ctx := ctx; cb_output := output;
       cb_finished := false; cb_stored := stored |}.

(** [process]: [measure_started] is the value loaded from the start flag,
    [input] the input port's buffer; [nframes] is its length. *)
Definition process (measure_started : bool) (ctx : Measure_Context)
    (input : list float) : Callback :=
  let output := replicate (length input) F32.zero in
  if negb measure_started then
    {| cb_ctx := ctx; cb_output := output;
       cb_finished := false; cb_stored := None |}
  else
    let ctx :=
      with_silence_frames_count ctx
        (silence_loop (silence_frames_count ctx) input) in
    if current_bin ctx =? fft_nbins then
      {| cb_ctx := ctx; cb_output := output;
         cb_finished := true; cb_stored := None |}
    else if transform_due ctx then
      sweep (store_response ctx) input output (Some (current_bin ctx))
    else sweep ctx input output None.

(** A series of calls, one per buffer. *)
Definition run (measure_started : bool) (ctx : Measure_Context)
    (buffers : list (list float)) : Measure_Context :=
  fold_left (fun c b => cb_ctx (process measure_started c b)) buffers ctx.

(** The slots of [response] stored into during a series of calls, in
    order. *)
Fixpoint stores (measure_started : bool) (ctx : Measure_Context)
    (buffers : list (list float)) : list Z :=
  match buffers with
  | [] => []
  | b :: rest =>
      let r := process measure_started ctx b in
      match cb_stored r with
      | Some bin => bin :: stores measure_started (cb_ctx r) rest
      | None => stores measure_started (cb_ctx r) rest
      end
  end.
End Process.


(** ** The control thread (lines 124-190) *)

(** Line 136: [ctx.silence_frames_needed = std::ceil(10e-3 * sample_rate)],
    where [sample_rate] is the [float] made from the rate JACK reports. *)
Definition main_silence_frames_needed (jack_sample_rate : Z) : Z :=
  let sample_rate := F32.of_Z jack_sample_rate in
  F64.ceil_to_unsigned
    (F64.mul (F64.literal 10 1000) (F64.of_float sample_rate)).

(** The context when [jack_activate] is called: the members' initial values,
    the arrays of [setup_fft] (whose contents FFTW leaves unspecified; the
    response table is value-initialised) and line 136. *)
Definition initial_context (mem_in : list float) (mem_out : list cfloat)
    (jack_sample_rate : Z) : Measure_Context :=
  {| fft_in := mem_in; fft_out := mem_out;
     current_bin := no_bin; fft_in_fill := 0;
     oscillator_phase := F32.zero;
     response := replicate (Z.to_nat fft_nbins) czero;
     silence_frames_count := 0;
     silence_frames_needed := main_silence_frames_needed jack_sample_rate |}.

(** One line of [response.dat]: the three numbers printed by
    [fprintf(fh, "%f %f %f\n", freq, amp, phase)]. *)
Record Line := { freq : float; amp : float; phase : float }.

Section Report.
(** [std::abs] and [std::arg] on [std::complex<float>]. *)
Variable cabs : cfloat -> float.
Variable carg : cfloat -> float.

Definition report_line (fs : float) (resp : list cfloat) (i : Z) : Line :=
  let c := default czero (resp !! Z.to_nat i) in
  {| freq := F32.mul (F32.of_Z i) (F32.div fs (F32.of_Z fft_size));
     amp := F32.div (cabs c) (F32.of_Z fft_size);
     phase := carg c |}.

(** The loop of lines 175-180, with [n] bins left; [file] is what has been
    printed so far. *)
Fixpoint report_loop (fs : float) (resp : list cfloat) (n : nat) (i : Z)
    (file : list Line) : list Line :=
  match n with
  | O => file
  | S n' => report_loop fs resp n' (i + 1) (file ++ [report_line fs resp i])
  end.

Definition report (jack_sample_rate : Z) (resp : list cfloat) : list Line :=
  let fs := F32.of_Z jack_sample_rate in
  report_loop fs resp (Z.to_nat fft_nbins) 0 [].
End Report.

(** ** Definitions used by the statements *)

(** A sample the silence detector counts as loud. *)
Definition loud (x : float) : Prop := is_silent x = false.

(** The largest integer not above [x]. *)
Definition floor (x : float) : Z :=
  match x with
  | S754_finite s m e =>
      if 0 <=? e then cond_Zopp s (Zpos m) * 2 ^ e
      else cond_Zopp s (Zpos m) / 2 ^ (- e)
  | _ => 0
  end.

(** The [float] of value [k / fft_size]. *)
Definition phase_of (k : Z) : float :=
  binary_normalize F32.prec F32.emax k (- 11) false.

(** A phase in [0, 1) on the grid of the oscillator. *)
Definition normalized_phase (p : float) : Prop :=
  exists k, 0 <= k < fft_size /\ p = phase_of k.

(** [ceil(0.010 * sample_rate)] over the rationals. *)
Definition spec_silence_frames_needed (sample_rate : Z) : Z :=
  Qceiling (Qmult (10 # 1000) (inject_Z sample_rate)).

(** The zeroed output buffer of a call. *)
Definition silence (input : list float) : list float :=
  replicate (length input) F32.zero.

(** [change_bin] of line 71. *)
Definition change_pending (ctx : Measure_Context) : bool :=
  (current_bin ctx =? no_bin) || (fft_in_fill ctx =? fft_size).

(** ** Inputs and stand-ins of the examples *)

(** The library functions are parameters of every statement.  Where an
    example has to run the callback on numbers, it uses these stand-ins:
    cosine and sine by their power series, evaluated in fixed point with 48
    fractional bits and rounded once, and a transform that computes bin 0
    (the sum of the samples) and leaves the other bins zero. *)
Module Example.

Definition scale : Z := 48.

(** [pi * 2 ^ scale]. *)
Definition pi_fixed : Z := 884279719003555.

(** [x * 2 ^ scale], to the integer below. *)
Definition to_fixed (x : spec_float) : Z :=
  match x with
  | S754_finite s m e =>
      let k := e + scale in
      cond_Zopp s (if 0 <=? k then Zpos m * 2 ^ k else Z.shiftr (Zpos m) (- k))
  | _ => 0
  end.

(** [(-1) ^ n / (2 n)!] and [(-1) ^ n / (2 n + 1)!], in fixed point. *)
Definition cos_coefficients : list Z :=
  [281474976710656; (-140737488355328); 11728124029611; (-390937467654); 6981026208; (-77566958); 587628; (-3229); 13; 0; 0].
Definition sin_coefficients : list Z :=
  [281474976710656; (-46912496118443); 2345624805922; (-55848209665); 775669579; (-7051542); 45202; (-215)].

(** Horner evaluation of a polynomial in [x2], in fixed point. *)
Definition horner (coefficients : list Z) (x2 : Z) : Z :=
  fold_right (fun c acc => c + Z.shiftr (acc * x2) scale) 0 coefficients.

(** Cosine on [[0, pi / 2]], in fixed point. *)
Definition cos_fixed (r : Z) : Z :=
  horner cos_coefficients (Z.shiftr (r * r) scale).

(** The argument is first brought into [[0, pi]], then into [[0, pi / 2]]. *)
Definition cos (x : double) : double :=
  let r := Z.abs (to_fixed x) mod (2 * pi_fixed) in
  let r := if pi_fixed <? r then 2 * pi_fixed - r else r in
  let c := if pi_fixed <? 2 * r then - cos_fixed (pi_fixed - r)
           else cos_fixed r in
  binary_normalize F64.prec F64.emax c (- scale) false.

(** For arguments in [[-1, 1]], which is where the oscillator stays. *)
Definition sinf (x : float) : float :=
  let r := to_fixed x in
  binary_normalize F32.prec F32.emax
    (Z.shiftr (r * horner sin_coefficients (Z.shiftr (r * r) scale)) scale)
    (- scale) false.

Definition transform (buf : list float) (k : Z) : cfloat :=
  if k =? 0 then (fold_left F32.add buf F32.zero, F32.zero) else czero.

(** [std::abs] by its definition, and [std::arg] of a coefficient on the
    non-negative real axis, which is all the examples print. *)
Definition cabs (c : cfloat) : float :=
  SFsqrt F32.prec F32.emax
    (F32.add (F32.mul (fst c) (fst c)) (F32.mul (snd c) (snd c))).

Definition carg (c : cfloat) : float := F32.zero.

(** [0.5f], a loud sample, and two quiet ones. *)
Definition loud_sample : float := F32.literal 5 10.
Definition quiet_sample : float := F32.literal 1 1000.
Definition quieter_sample : float := F32.literal 2 1000.

Definition buffer (n : Z) (x : float) : list float := replicate (Z.to_nat n) x.

(** The context at the start signal, at 48 kHz. *)
Definition start : Measure_Context :=
  initial_context (buffer fft_size F32.zero)
    (replicate (Z.to_nat fft_nbins) czero) 48000.

(** A context in the middle of the capture of bin 3, and one whose capture
    of bin 0 is complete. *)
Definition capturing : Measure_Context :=
  {| fft_in := buffer fft_size F32.zero;
     fft_out := replicate (Z.to_nat fft_nbins) czero;
     current_bin := 3; fft_in_fill := 100;
     oscillator_phase := F32.zero;
     response := replicate (Z.to_nat fft_nbins) czero;
     silence_frames_count := 0; silence_frames_needed := 480 |}.

Definition captured : Measure_Context :=
  {| fft_in := buffer fft_size loud_sample;
     fft_out := replicate (Z.to_nat fft_nbins) czero;
     current_bin := 0; fft_in_fill := fft_size;
     oscillator_phase := F32.zero;
     response := replicate (Z.to_nat fft_nbins) czero;
     silence_frames_count := 0; silence_frames_needed := 480 |}.

(** One stream of 6144 quiet frames, delivered in buffers of 1024 frames
    and in buffers of 2048 frames. *)
Definition in_buffers_of_1024 : list (list float) :=
  [buffer 1024 quiet_sample; buffer 1024 quiet_sample;
   buffer 1024 quieter_sample; buffer 1024 quieter_sample;
   buffer 1024 quieter_sample; buffer 1024 quieter_sample].

Definition in_buffers_of_2048 : list (list float) :=
  [buffer 2048 quiet_sample; buffer 2048 quieter_sample;
   buffer 2048 quieter_sample].

End Example.

(** ** Definitions used by the statements about the whole sweep *)

(** The contexts the callback is written for: a bin index that is [~0u] or
    at most [fft_nbins], a fill count within the capture buffer, arrays of
    the sizes [setup_fft] allocates, a counter in 32 bits, a phase in
    [0, 1) on the grid of the oscillator. *)
Definition well_formed (ctx : Measure_Context) : Prop :=
  (current_bin ctx = no_bin \/ 0 <= current_bin ctx <= fft_nbins) /\
  0 <= fft_in_fill ctx <= fft_size /\
  length (fft_in ctx) = Z.to_nat fft_size /\
  length (response ctx) = Z.to_nat fft_nbins /\
  0 <= silence_frames_count ctx < 2 ^ 32 /\
  normalized_phase (oscillator_phase ctx).

(** Lines 153-156 of [main]: the count printed as [Progress %u/%u] by the
    polling loop, which prints nothing before the first bin. *)
Definition progress (ctx : Measure_Context) : option Z :=
  if current_bin ctx =? no_bin then None
  else Some (incr32 (current_bin ctx)).

(** The number of bins begun so far. *)
Definition bins_begun (ctx : Measure_Context) : Z :=
  match progress ctx with Some n => n | None => 0 end.

(** A sample the silence detector counts as quiet. *)
Definition quiet (x : float) : Prop := is_silent x = true.

(** The calls spent on one bin once it is selected: the calls of the
    capture, the last of which completes it, the calls that then find the
    gate closed, and the call that changes bin. *)
Record Round := {
  round_capture : list (list float);
  round_last : list float;
  round_waiting : list (list float);
  round_next : list float
}.

Definition round_buffers (r : Round) : list (list float) :=
  ((round_capture r ++ [round_last r]) ++ round_waiting r) ++ [round_next r].

(** The frames that the capture of the round keeps. *)
Definition round_frames (r : Round) : list float :=
  take (Z.to_nat fft_size) (concat (round_capture r) ++ round_last r).

(** The calls of a round do what the round says when the silence counter is
    [count] at its start: the capture completes in the last capture call,
    the gate is closed at the end of each waiting call and open at the end
    of the call that changes bin. *)
Definition round_on_time (needed count : Z) (r : Round) : Prop :=
  Z.of_nat (length (concat (round_capture r))) < fft_size
  <= Z.of_nat (length (concat (round_capture r) ++ round_last r)) /\
  (forall i, (i < length (round_waiting r))%nat ->
     silence_loop count
       (concat ((round_capture r ++ [round_last r])
                ++ take (S i) (round_waiting r)))
     < needed) /\
  needed <= silence_loop count (concat (round_buffers r)).

Fixpoint sweep_on_time (needed count : Z) (rounds : list Round) : Prop :=
  match rounds with
  | [] => True
  | r :: rest =>
      round_on_time needed count r /\
      sweep_on_time needed (silence_loop count (concat (round_buffers r))) rest
  end.

(** The slots that the rounds of a sweep store into, in order, when the
    first round is that of bin [bin]: each round stores once per waiting
    call and once in the call that changes bin. *)
Fixpoint round_stores (bin : Z) (rounds : list Round) : list Z :=
  match rounds with
  | [] => []
  | r :: rest =>
      replicate (S (length (round_waiting r))) bin
      ++ round_stores (bin + 1) rest
  end.

(** The round of a bin when every call brings the same buffer, long enough
    to fill the capture in one call. *)
Definition same_buffer_round (b : list float) : Round :=
  {| round_capture := []; round_last := b;
     round_waiting := []; round_next := b |}.


(** ** Inputs of the examples about the whole sweep *)

Module Sweep_example.

(** A context in which bin 3 has just been selected, and one at the end of
    the sweep. *)
Definition selected : Measure_Context :=
  {| fft_in := Example.buffer fft_size F32.zero;
     fft_out := replicate (Z.to_nat fft_nbins) czero;
     current_bin := 3; fft_in_fill := 0;
     oscillator_phase := F32.zero;
     response := replicate (Z.to_nat fft_nbins) czero;
     silence_frames_count := 480; silence_frames_needed := 480 |}.

Definition finished : Measure_Context :=
  {| fft_in := Example.buffer fft_size F32.zero;
     fft_out := replicate (Z.to_nat fft_nbins) czero;
     current_bin := fft_nbins; fft_in_fill := 0;
     oscillator_phase := F32.zero;
     response := replicate (Z.to_nat fft_nbins) czero;
     silence_frames_count := 0; silence_frames_needed := 480 |}.

(** The calls of one bin: 2100 loud frames in two buffers, one more loud
    frame while the capture is complete, then 480 quiet frames. *)
Definition round : Round :=
  {| round_capture := [Example.buffer 1000 Example.loud_sample];
     round_last := Example.buffer 1100 Example.loud_sample;
     round_waiting := [[Example.loud_sample]];
     round_next := Example.buffer 480 F32.zero |}.

End Sweep_example.

(** ** Definitions used by the proofs about rounding *)

(** The state of [shr] after [k] steps, started without round or sticky bit. *)
Definition shr_state (m : Z) (k : nat) : shr_record :=
  match k with
  | O => {| shr_m := m; shr_r := false; shr_s := false |}
  | S k' =>
      {| shr_m := m / 2 ^ Z.of_nat k;
         shr_r := Z.odd (m / 2 ^ Z.of_nat k');
         shr_s := negb (m mod 2 ^ Z.of_nat k' =? 0) |}
  end.

(** Quotient of [m] by [2 ^ n], rounded to nearest, ties to even. *)
Definition rne (m n : Z) : Z :=
  let q := m / 2 ^ n in
  let rem := m mod 2 ^ n in
  if rem <? 2 ^ (n - 1) then q
  else if 2 ^ (n - 1) <? rem then q + 1
  else if Z.even q then q else q + 1.

(** The float of sign [s] and value [c * 2 ^ e], for [c] of at most [prec]
    digits, in canonical form. *)
Definition canonical_float (prec : Z) (s : bool) (c e : Z) : spec_float :=
  let k := prec - Zdigits2 c in
  S754_finite s (Z.to_pos (c * 2 ^ k)) (e - k).

(** * Rounding and exact operations of [spec_float] *)

Lemma digits2_pos_size (p : positive) : digits2_pos p = Pos.size p.
Proof. induction p as [p IH|p IH|]; simpl; congruence. Qed.

Lemma Zdigits2_log2 (p : positive) : Zdigits2 (Zpos p) = Z.log2 (Zpos p) + 1.
Proof.
  unfold Zdigits2. rewrite digits2_pos_size.
  destruct p as [p|p|]; simpl; try reflexivity; lia.
Qed.

Lemma Zdigits2_bounds (p : positive) :
  2 ^ (Zdigits2 (Zpos p) - 1) <= Zpos p < 2 ^ Zdigits2 (Zpos p).
Proof.
  rewrite Zdigits2_log2.
  replace (Z.log2 (Z.pos p) + 1 - 1) with (Z.log2 (Z.pos p)) by lia.
  replace (Z.log2 (Z.pos p) + 1) with (Z.succ (Z.log2 (Z.pos p))) by lia.
  apply Z.log2_spec. lia.
Qed.

Lemma Zdigits2_unique (p : positive) (d : Z) :
  2 ^ (d - 1) <= Zpos p < 2 ^ d -> Zdigits2 (Zpos p) = d.
Proof.
  intros H. rewrite Zdigits2_log2.
  assert (0 <= d - 1).
  { destruct (Z.le_gt_cases 0 (d - 1)) as [|Hn]; [assumption|].
    exfalso. assert (d <= 0) by lia.
    destruct (Z.eq_dec d 0) as [->|]; [simpl in H; lia|].
    rewrite (Z.pow_neg_r 2 d) in H by lia. lia. }
  rewrite (Z.log2_unique (Zpos p) (d - 1)); [lia|assumption|].
  replace (Z.succ (d - 1)) with d by lia. exact H.
Qed.

Lemma iter_pos_nat {A} (f : A -> A) (p : positive) (x : A) :
  SpecFloat.iter_pos f p x = Nat.iter (Pos.to_nat p) f x.
Proof.
  revert x. induction p as [p IH|p IH|]; intros x.
  - cbn [SpecFloat.iter_pos]. rewrite !IH, Pos2Nat.inj_xI.
    rewrite <- Nat.iter_add.
    replace (S (2 * Pos.to_nat p))%nat with (Pos.to_nat p + Pos.to_nat p + 1)%nat by lia.
    rewrite (Nat.iter_add (Pos.to_nat p + Pos.to_nat p) 1). reflexivity.
  - cbn [SpecFloat.iter_pos]. rewrite !IH, Pos2Nat.inj_xO, <- Nat.iter_add.
    f_equal. lia.
  - reflexivity.
Qed.

Lemma shr_1_nonneg (m : Z) (r s : bool) :
  0 <= m ->
  shr_1 {| shr_m := m; shr_r := r; shr_s := s |}
  = {| shr_m := m / 2; shr_r := Z.odd m; shr_s := r || s |}.
Proof.
  intros Hm. rewrite <- Z.div2_div.
  destruct m as [|[p|p|]|p]; try reflexivity; lia.
Qed.


Lemma shr_iter (m : Z) (k : nat) :
  0 <= m ->
  Nat.iter k shr_1 {| shr_m := m; shr_r := false; shr_s := false |}
  = shr_state m k.
Proof.
  intros Hm. induction k as [|k IH]; [reflexivity|].
  rewrite Nat.iter_succ, IH.
  destruct k as [|k].
  - simpl shr_state. rewrite shr_1_nonneg by assumption.
    change (2 ^ Z.of_nat 0) with 1. change (2 ^ Z.of_nat 1) with 2.
    rewrite Z.div_1_r, Z.mod_1_r. reflexivity.
  - unfold shr_state.
    assert (H2 : 0 < 2 ^ Z.of_nat k) by (apply Z.pow_pos_nonneg; lia).
    assert (H2' : 0 < 2 ^ Z.of_nat (S k)) by (apply Z.pow_pos_nonneg; lia).
    rewrite shr_1_nonneg by (apply Z.div_pos; lia).
    f_equal.
    + rewrite Z.div_div by lia.
      f_equal. rewrite (Nat2Z.inj_succ (S k)), Z.pow_succ_r by lia. lia.
    + assert (E : m mod 2 ^ Z.of_nat (S k)
                  = m mod 2 ^ Z.of_nat k + 2 ^ Z.of_nat k * ((m / 2 ^ Z.of_nat k) mod 2)).
      { rewrite (Nat2Z.inj_succ k), Z.pow_succ_r by lia.
        rewrite (Z.mul_comm 2). apply Z.rem_mul_r; lia. }
      pose proof (Z.mod_pos_bound m (2 ^ Z.of_nat k) H2) as Hb.
      rewrite Zmod_odd in E.
      destruct (Z.odd (m / 2 ^ Z.of_nat k));
      destruct (Z.eqb_spec (m mod 2 ^ Z.of_nat k) 0) as [E0|E0];
      destruct (Z.eqb_spec (m mod 2 ^ Z.of_nat (S k)) 0) as [E2|E2];
      simpl; try reflexivity; exfalso; lia.
Qed.


Lemma round_shr_state (m : Z) (k : nat) :
  0 <= m ->
  let st := shr_state m (S k) in
  round_nearest_even (shr_m st) (loc_of_shr_record st) = rne m (Z.of_nat (S k)).
Proof.
  intros Hm st. unfold st, shr_state, rne.
  cbn [shr_m shr_r shr_s loc_of_shr_record].
  replace (Z.of_nat (S k) - 1) with (Z.of_nat k) by lia.
  assert (H2 : 0 < 2 ^ Z.of_nat k) by (apply Z.pow_pos_nonneg; lia).
  assert (E : m mod 2 ^ Z.of_nat (S k)
              = m mod 2 ^ Z.of_nat k + 2 ^ Z.of_nat k * ((m / 2 ^ Z.of_nat k) mod 2)).
  { rewrite (Nat2Z.inj_succ k), Z.pow_succ_r by lia.
    rewrite (Z.mul_comm 2). apply Z.rem_mul_r; lia. }
  pose proof (Z.mod_pos_bound m (2 ^ Z.of_nat k) H2) as Hb.
  rewrite Zmod_odd in E.
  destruct (Z.odd (m / 2 ^ Z.of_nat k));
    destruct (Z.eqb_spec (m mod 2 ^ Z.of_nat k) 0) as [E0|E0];
    destruct (Z.ltb_spec (m mod 2 ^ Z.of_nat (S k)) (2 ^ Z.of_nat k));
    destruct (Z.ltb_spec (2 ^ Z.of_nat k) (m mod 2 ^ Z.of_nat (S k)));
    cbn [negb round_nearest_even]; try reflexivity; try (exfalso; lia).
Qed.

Lemma rne_exact (m n : Z) :
  0 < n -> m mod 2 ^ n = 0 -> rne m n = m / 2 ^ n.
Proof.
  intros Hn H. unfold rne. rewrite H.
  assert (0 < 2 ^ (n - 1)) by (apply Z.pow_pos_nonneg; lia).
  destruct (Z.ltb_spec 0 (2 ^ (n - 1))); [reflexivity|lia].
Qed.

Lemma rne_bounds (m n : Z) :
  0 < n -> 0 <= m ->
  m / 2 ^ n <= rne m n <= m / 2 ^ n + 1 /\
  2 * Z.abs (rne m n * 2 ^ n - m) <= 2 ^ n.
Proof.
  intros Hn Hm. unfold rne.
  assert (H2 : 0 < 2 ^ (n - 1)) by (apply Z.pow_pos_nonneg; lia).
  assert (E2 : 2 ^ n = 2 * 2 ^ (n - 1)).
  { replace n with (Z.succ (n - 1)) at 1 by lia. apply Z.pow_succ_r. lia. }
  pose proof (Z.div_mod m (2 ^ n) ltac:(lia)) as Hdm.
  pose proof (Z.mod_pos_bound m (2 ^ n) ltac:(lia)) as Hb.
  destruct (Z.ltb_spec (m mod 2 ^ n) (2 ^ (n - 1)));
    [|destruct (Z.ltb_spec (2 ^ (n - 1)) (m mod 2 ^ n));
      [|destruct (Z.even (m / 2 ^ n))]]; nia.
Qed.

Section Rounding.
Variables prec emax : Z.
Hypothesis Hprec : 0 < prec.

#[local] Abbreviation emin := (SpecFloat.emin prec emax).
#[local] Abbreviation fexp := (SpecFloat.fexp prec emax).
#[local] Abbreviation canon := (canonical_float prec).

Lemma fexp_normal (e : Z) : emin <= e - prec -> fexp e = e - prec.
Proof. unfold SpecFloat.fexp. lia. Qed.

(** [binary_round_aux] on a mantissa with more digits than the format
    keeps, away from underflow and overflow. *)
Lemma binary_round_aux_normal (sx : bool) (mx : positive) (ex : Z) :
  let n := Zdigits2 (Zpos mx) - prec in
  0 < n -> emin <= ex + n -> ex + n + 1 <= emax - prec ->
  binary_round_aux prec emax sx (Zpos mx) ex loc_Exact
  = if rne (Zpos mx) n <? 2 ^ prec
    then S754_finite sx (Z.to_pos (rne (Zpos mx) n)) (ex + n)
    else S754_finite sx (Z.to_pos (2 ^ (prec - 1))) (ex + n + 1).
Proof.
  intros n Hn Hmin Hmax.
  pose proof (Zdigits2_bounds mx) as Hd.
  assert (Hq : 2 ^ (prec - 1) <= Zpos mx / 2 ^ n < 2 ^ prec).
  { assert (0 < 2 ^ n) by (apply Z.pow_pos_nonneg; lia).
    split.
    - apply Z.div_le_lower_bound; [lia|].
      rewrite <- Z.pow_add_r by lia.
      replace (n + (prec - 1)) with (Zdigits2 (Zpos mx) - 1) by lia. lia.
    - apply Z.div_lt_upper_bound; [lia|].
      rewrite <- Z.pow_add_r by lia.
      replace (n + prec) with (Zdigits2 (Zpos mx)) by lia. lia. }
  pose proof (rne_bounds (Zpos mx) n Hn ltac:(lia)) as [HR _].
  assert (Hp1 : 0 < 2 ^ (prec - 1)) by (apply Z.pow_pos_nonneg; lia).
  unfold binary_round_aux.
  assert (E1 : shr_fexp prec emax (Zpos mx) ex loc_Exact
               = (shr_state (Zpos mx) (Z.to_nat n), ex + n)).
  { unfold shr_fexp. rewrite fexp_normal by lia.
    replace (Zdigits2 (Zpos mx) + ex - prec - ex) with n by lia.
    unfold shr. destruct n as [|p|p] eqn:En; try lia.
    rewrite iter_pos_nat. cbn [shr_record_of_loc].
    rewrite shr_iter by lia. reflexivity. }
  rewrite E1.
  destruct (Z.to_nat n) as [|k] eqn:Ek; [lia|].
  rewrite round_shr_state by lia.
  replace (Z.of_nat (S k)) with n by lia.
  set (R := rne (Zpos mx) n) in *.
  destruct (Z.ltb_spec R (2 ^ prec)) as [HRlt|HRge].
  - assert (HRd : Zdigits2 R = prec).
    { destruct R as [|r|r] eqn:ER; try lia.
      apply Zdigits2_unique. lia. }
    assert (E2 : shr_fexp prec emax R (ex + n) loc_Exact
                 = ({| shr_m := R; shr_r := false; shr_s := false |}, ex + n)).
    { unfold shr_fexp. rewrite HRd, fexp_normal by lia.
      replace (prec + (ex + n) - prec - (ex + n)) with 0 by lia. reflexivity. }
    rewrite E2. cbn [shr_m].
    destruct R as [|r|r] eqn:ER; try lia.
    destruct (Z.leb_spec (ex + n) (emax - prec)); [reflexivity|lia].
  - assert (ER : R = 2 ^ prec) by lia.
    assert (HRd : Zdigits2 R = prec + 1).
    { rewrite ER. destruct (2 ^ prec) as [|r|r] eqn:E2p.
      - pose proof (Z.pow_pos_nonneg 2 prec); lia.
      - apply Zdigits2_unique. rewrite <- E2p.
        replace (prec + 1 - 1) with prec by lia.
        rewrite Z.pow_add_r by lia. lia.
      - pose proof (Z.pow_pos_nonneg 2 prec); lia. }
    assert (E2 : shr_fexp prec emax R (ex + n) loc_Exact
                 = (shr_state R 1, ex + n + 1)).
    { unfold shr_fexp. rewrite HRd, fexp_normal by lia.
      replace (prec + 1 + (ex + n) - prec - (ex + n)) with 1 by lia.
      unfold shr. cbn [SpecFloat.iter_pos shr_record_of_loc].
      rewrite shr_1_nonneg by lia. unfold shr_state.
      change (2 ^ Z.of_nat 1) with 2. change (2 ^ Z.of_nat 0) with 1.
      rewrite Z.div_1_r, Z.mod_1_r.
      replace (Z.odd R) with false; [reflexivity|].
      rewrite ER. replace prec with (Z.succ (prec - 1)) by lia.
      rewrite Z.pow_succ_r by lia. now rewrite Z.odd_mul. }
    rewrite E2. unfold shr_state. cbn [shr_m].
    change (2 ^ Z.of_nat 1) with 2.
    assert (EH : R / 2 = 2 ^ (prec - 1)).
    { rewrite ER. replace prec with (Z.succ (prec - 1)) at 1 by lia.
      rewrite Z.pow_succ_r by lia. rewrite Z.mul_comm. apply Z.div_mul. lia. }
    rewrite EH.
    destruct (2 ^ (prec - 1)) as [|r|r] eqn:E2p; try lia.
    destruct (Z.leb_spec (ex + n + 1) (emax - prec)); [reflexivity|lia].
Qed.

(** [binary_round_aux] on a mantissa that already has [prec] digits. *)
Lemma binary_round_aux_fits (sx : bool) (mx : positive) (ex : Z) :
  Zdigits2 (Zpos mx) = prec -> emin <= ex -> ex <= emax - prec ->
  binary_round_aux prec emax sx (Zpos mx) ex loc_Exact = S754_finite sx mx ex.
Proof.
  intros Hd Hmin Hmax. unfold binary_round_aux.
  assert (E : shr_fexp prec emax (Zpos mx) ex loc_Exact
              = ({| shr_m := Zpos mx; shr_r := false; shr_s := false |}, ex)).
  { unfold shr_fexp. rewrite Hd, fexp_normal by lia.
    replace (prec + ex - prec - ex) with 0 by lia. reflexivity. }
  rewrite E. cbn [shr_m loc_of_shr_record round_nearest_even].
  rewrite E. cbn [shr_m].
  destruct (Z.leb_spec ex (emax - prec)); [reflexivity|lia].
Qed.


Lemma Zdigits2_mul_pow2 (c t : Z) :
  0 < c -> 0 <= t -> Zdigits2 (c * 2 ^ t) = Zdigits2 c + t.
Proof.
  intros Hc Ht.
  assert (0 < 2 ^ t) by (apply Z.pow_pos_nonneg; lia).
  destruct c as [|c|c]; try lia.
  pose proof (Zdigits2_bounds c) as Hb.
  destruct (Zpos c * 2 ^ t) as [|p|p] eqn:E; try lia.
  apply Zdigits2_unique. rewrite <- E.
  assert (0 < Zdigits2 (Zpos c)) by (simpl; lia).
  replace (Zdigits2 (Zpos c) + t - 1) with (Zdigits2 (Zpos c) - 1 + t) by lia.
  rewrite !Z.pow_add_r by lia. nia.
Qed.

Lemma Zdigits2_pos (c : Z) : 0 < c -> 0 < Zdigits2 c.
Proof. destruct c; simpl; lia. Qed.

Lemma canon_shift (s : bool) (c e t : Z) :
  0 < c -> 0 <= t -> Zdigits2 c + t <= prec ->
  canon s (c * 2 ^ t) e = canon s c (e + t).
Proof.
  intros Hc Ht Hd. unfold canonical_float.
  rewrite Zdigits2_mul_pow2 by lia.
  f_equal; [|lia].
  f_equal. rewrite <- Z.mul_assoc, <- Z.pow_add_r by lia.
  f_equal. f_equal. lia.
Qed.

(** Rounding leaves a representable value as it is. *)
Lemma binary_round_aux_exact (sx : bool) (mx : positive) (ex c t : Z) :
  Zpos mx = c * 2 ^ t -> 0 < c -> 0 <= t ->
  Zdigits2 c <= prec -> prec <= Zdigits2 c + t ->
  emin <= ex + (Zdigits2 c + t - prec) ->
  ex + (Zdigits2 c + t - prec) + 1 <= emax - prec ->
  binary_round_aux prec emax sx (Zpos mx) ex loc_Exact = canon sx c (ex + t).
Proof.
  intros E Hc Ht Hd1 Hd2 Hmin Hmax.
  assert (Hdm : Zdigits2 (Zpos mx) = Zdigits2 c + t).
  { rewrite E. now apply Zdigits2_mul_pow2. }
  unfold canonical_float.
  destruct (Z.eq_dec (Zdigits2 c + t) prec) as [Heq|Hne].
  - rewrite binary_round_aux_fits by lia.
    f_equal; [|lia].
    replace (prec - Zdigits2 c) with t by lia. rewrite <- E. reflexivity.
  - rewrite binary_round_aux_normal by lia.
    rewrite Hdm. set (n := Zdigits2 c + t - prec).
    assert (Hn : 0 < n) by (unfold n; lia).
    assert (Hsplit : Zpos mx = c * 2 ^ (prec - Zdigits2 c) * 2 ^ n).
    { rewrite E, <- Z.mul_assoc, <- Z.pow_add_r by lia.
      f_equal. f_equal. unfold n. lia. }
    assert (H2n : 0 < 2 ^ n) by (apply Z.pow_pos_nonneg; lia).
    rewrite rne_exact; [|assumption|rewrite Hsplit; apply Z.mod_mul; lia].
    replace (Zpos mx / 2 ^ n) with (c * 2 ^ (prec - Zdigits2 c))
      by (rewrite Hsplit, Z.div_mul; lia).
    assert (Hlt : c * 2 ^ (prec - Zdigits2 c) < 2 ^ prec).
    { destruct c as [|c'|c']; try lia.
      pose proof (Zdigits2_bounds c') as Hb.
      replace prec with (Zdigits2 (Zpos c') + (prec - Zdigits2 (Zpos c'))) at 2 by lia.
      pose proof (Zdigits2_pos (Zpos c') ltac:(lia)).
      rewrite Z.pow_add_r by lia.
      assert (0 < 2 ^ (prec - Zdigits2 (Zpos c'))) by (apply Z.pow_pos_nonneg; lia).
      nia. }
    destruct (Z.ltb_spec (c * 2 ^ (prec - Zdigits2 c)) (2 ^ prec)); [|lia].
    f_equal. unfold n. lia.
Qed.

Lemma pos_iter_xO (m d : positive) :
  Zpos (Pos.iter xO m d) = Zpos m * 2 ^ Zpos d.
Proof.
  rewrite <- Pos2Z.inj_pow, <- Pos2Z.inj_mul. f_equal.
  revert m. induction d as [|d IH] using Pos.peano_ind; intros m.
  - simpl. lia.
  - rewrite Pos.iter_succ, Pos.pow_succ_r, IH. lia.
Qed.

Lemma shl_align_fst (mx : positive) (ex ez : Z) :
  ez <= ex -> Zpos (fst (shl_align mx ex ez)) = Zpos mx * 2 ^ (ex - ez).
Proof.
  intros H. unfold shl_align.
  destruct (ez - ex) as [|d|d] eqn:E; try lia; cbn [fst].
  - replace (ex - ez) with 0 by lia. lia.
  - rewrite pos_iter_xO. f_equal. f_equal. lia.
Qed.

Lemma shl_align_snd (mx : positive) (ex ez : Z) :
  ez <= ex -> snd (shl_align mx ex ez) = ez.
Proof.
  intros H. unfold shl_align.
  destruct (ez - ex) as [|d|d] eqn:E; try lia; cbn [snd]; lia.
Qed.

Lemma shl_align_ge (mx : positive) (ex ez : Z) :
  ex <= ez -> shl_align mx ex ez = (mx, ex).
Proof.
  intros H. unfold shl_align.
  destruct (ez - ex) as [|d|d] eqn:E; try lia; reflexivity.
Qed.

Lemma binary_round_exact (sx : bool) (mx : positive) (ex c t : Z) :
  Zpos mx = c * 2 ^ t -> 0 < c -> 0 <= t -> Zdigits2 c <= prec ->
  emin <= Zdigits2 c + t + ex - prec ->
  Zdigits2 c + t + ex + 1 <= emax ->
  binary_round prec emax sx mx ex = canon sx c (ex + t).
Proof.
  intros E Hc Ht Hd Hmin Hmax.
  assert (Hdm : Zdigits2 (Zpos mx) = Zdigits2 c + t).
  { rewrite E. now apply Zdigits2_mul_pow2. }
  unfold binary_round.
  change (Zpos (digits2_pos mx)) with (Zdigits2 (Zpos mx)).
  rewrite Hdm, fexp_normal by lia.
  destruct (Z.le_gt_cases prec (Zdigits2 c + t)) as [Hge|Hlt].
  - rewrite shl_align_ge by lia.
    apply binary_round_aux_exact; try assumption; lia.
  - set (fe := Zdigits2 c + t + ex - prec).
    rewrite (surjective_pairing (shl_align mx ex fe)).
    rewrite shl_align_snd by (unfold fe; lia).
    pose proof (shl_align_fst mx ex fe ltac:(unfold fe; lia)) as Hf.
    remember (fst (shl_align mx ex fe)) as mz eqn:Emz.
    rewrite (binary_round_aux_exact sx mz fe c (t + (ex - fe))).
    + f_equal. unfold fe. lia.
    + rewrite Hf, E, <- Z.mul_assoc, <- Z.pow_add_r by (unfold fe; lia).
      reflexivity.
    + assumption.
    + unfold fe. lia.
    + assumption.
    + unfold fe. lia.
    + unfold fe. lia.
    + unfold fe. lia.
Qed.

Lemma canon_mantissa (c : Z) :
  0 < c -> Zdigits2 c <= prec ->
  2 ^ (prec - 1) <= c * 2 ^ (prec - Zdigits2 c) < 2 ^ prec.
Proof.
  intros Hc Hd. destruct c as [|c'|c']; try lia.
  pose proof (Zdigits2_bounds c') as Hb.
  pose proof (Zdigits2_pos (Zpos c') ltac:(lia)) as Hp.
  assert (0 < 2 ^ (prec - Zdigits2 (Zpos c'))) by (apply Z.pow_pos_nonneg; lia).
  split.
  - replace (prec - 1) with (Zdigits2 (Zpos c') - 1 + (prec - Zdigits2 (Zpos c'))) by lia.
    rewrite Z.pow_add_r by lia. nia.
  - replace prec with (Zdigits2 (Zpos c') + (prec - Zdigits2 (Zpos c'))) at 2 by lia.
    rewrite Z.pow_add_r by lia. nia.
Qed.

Lemma canon_mantissa_pos (c : Z) :
  0 < c -> Zdigits2 c <= prec ->
  Zpos (Z.to_pos (c * 2 ^ (prec - Zdigits2 c))) = c * 2 ^ (prec - Zdigits2 c).
Proof.
  intros Hc Hd. pose proof (canon_mantissa c Hc Hd).
  assert (0 < 2 ^ (prec - 1)) by (apply Z.pow_pos_nonneg; lia).
  rewrite Z2Pos.id; lia.
Qed.

(** An integer of at most [prec] digits converts without rounding. *)
Lemma binary_normalize_exact (c e : Z) :
  0 < c -> Zdigits2 c <= prec ->
  emin <= Zdigits2 c + e - prec -> Zdigits2 c + e + 1 <= emax ->
  binary_normalize prec emax c e false = canon false c e.
Proof.
  intros Hc Hd Hmin Hmax. destruct c as [|c'|c']; try lia.
  unfold binary_normalize.
  rewrite (binary_round_exact false c' e (Zpos c') 0); try lia.
  f_equal. lia.
Qed.

(** Sums and differences of two floats on a common grid are exact when the
    result fits. *)
Lemma SFadd_canon (a b e : Z) :
  0 < a -> 0 < b -> Zdigits2 a <= prec -> Zdigits2 b <= prec ->
  Zdigits2 (a + b) <= prec ->
  emin <= e - prec -> Zdigits2 (a + b) + e + 1 <= emax ->
  SFadd prec emax (canon false a e) (canon false b e) = canon false (a + b) e.
Proof.
  intros Ha Hb Hda Hdb Hdab Hmin Hmax. unfold canonical_float at 1 2. unfold SFadd.
  set (ka := prec - Zdigits2 a). set (kb := prec - Zdigits2 b).
  set (ez := Z.min (e - ka) (e - kb)).
  rewrite !shl_align_fst by (unfold ez; lia).
  rewrite !canon_mantissa_pos by assumption.
  fold ka kb. cbn [cond_Zopp].
  assert (Hsum : a * 2 ^ ka * 2 ^ (e - ka - ez) + b * 2 ^ kb * 2 ^ (e - kb - ez)
                 = (a + b) * 2 ^ (e - ez)).
  { rewrite <- !Z.mul_assoc, <- !Z.pow_add_r by (unfold ka, kb, ez; lia).
    replace (ka + (e - ka - ez)) with (e - ez) by lia.
    replace (kb + (e - kb - ez)) with (e - ez) by lia. lia. }
  rewrite Hsum.
  assert (0 < 2 ^ (e - ez)) by (apply Z.pow_pos_nonneg; unfold ez, ka, kb; lia).
  assert (0 < (a + b) * 2 ^ (e - ez)) by (apply Z.mul_pos_pos; lia).
  destruct ((a + b) * 2 ^ (e - ez)) as [|m|m] eqn:Em; try lia.
  unfold binary_normalize.
  pose proof (Zdigits2_pos (a + b) ltac:(lia)).
  rewrite (binary_round_exact false m ez (a + b) (e - ez));
    try assumption; try (unfold ez, ka, kb; lia).
  - f_equal. lia.
  - symmetry; exact Em.
Qed.

Lemma SFsub_canon (a b e : Z) :
  0 < b -> b < a -> Zdigits2 a <= prec -> Zdigits2 b <= prec ->
  emin <= e - prec -> Zdigits2 a + e + 1 <= emax ->
  SFsub prec emax (canon false a e) (canon false b e) = canon false (a - b) e.
Proof.
  intros Hb Hab Hda Hdb Hmin Hmax. unfold canonical_float at 1 2. unfold SFsub.
  set (ka := prec - Zdigits2 a). set (kb := prec - Zdigits2 b).
  set (ez := Z.min (e - ka) (e - kb)).
  rewrite !shl_align_fst by (unfold ez; lia).
  rewrite !canon_mantissa_pos by (assumption || lia).
  fold ka kb. cbn [cond_Zopp].
  assert (Hsum : a * 2 ^ ka * 2 ^ (e - ka - ez) - b * 2 ^ kb * 2 ^ (e - kb - ez)
                 = (a - b) * 2 ^ (e - ez)).
  { rewrite <- !Z.mul_assoc, <- !Z.pow_add_r by (unfold ka, kb, ez; lia).
    replace (ka + (e - ka - ez)) with (e - ez) by lia.
    replace (kb + (e - kb - ez)) with (e - ez) by lia. lia. }
  rewrite Hsum.
  assert (0 < 2 ^ (e - ez)) by (apply Z.pow_pos_nonneg; unfold ez, ka, kb; lia).
  assert (0 < (a - b) * 2 ^ (e - ez)) by (apply Z.mul_pos_pos; lia).
  destruct ((a - b) * 2 ^ (e - ez)) as [|m|m] eqn:Em; try lia.
  unfold binary_normalize.
  assert (Hle : Zdigits2 (a - b) <= Zdigits2 a).
  { destruct a as [|a'|a']; try lia. destruct (Z.pos a' - b) as [|d|d] eqn:Ed; try lia.
    rewrite !Zdigits2_log2. pose proof (Z.log2_le_mono (Zpos d) (Zpos a')). lia. }
  pose proof (Zdigits2_pos (a - b) ltac:(lia)).
  rewrite (binary_round_exact false m ez (a - b) (e - ez));
    try assumption; try (unfold ez, ka, kb; lia).
  - f_equal. lia.
  - symmetry; exact Em.
Qed.

Lemma SFsub_same (s : bool) (m : positive) (e : Z) :
  SFsub prec emax (S754_finite s m e) (S754_finite s m e) = S754_zero false.
Proof.
  unfold SFsub. rewrite Z.min_id, shl_align_ge by lia. cbn [fst].
  rewrite Z.sub_diag. reflexivity.
Qed.

(** A product is exact when it fits the format. *)
Lemma SFmul_canon (sa sb : bool) (a b ea eb z t : Z) :
  0 < a -> 0 < b -> Zdigits2 a <= prec -> Zdigits2 b <= prec ->
  a * b = z * 2 ^ t -> 0 < z -> 0 <= t -> Zdigits2 z <= prec ->
  emin <= ea + eb + Zdigits2 z + t - prec ->
  ea + eb + Zdigits2 z + t + 1 <= emax ->
  SFmul prec emax (canon sa a ea) (canon sb b eb)
  = canon (xorb sa sb) z (ea + eb + t).
Proof.
  intros Ha Hb Hda Hdb E Hz Ht Hdz Hmin Hmax. unfold canonical_float at 1 2. unfold SFmul.
  set (ka := prec - Zdigits2 a). set (kb := prec - Zdigits2 b).
  pose proof (canon_mantissa a Ha Hda) as Hma.
  pose proof (canon_mantissa b Hb Hdb) as Hmb.
  fold ka in Hma. fold kb in Hmb.
  assert (Hp1 : 0 < 2 ^ (prec - 1)) by (apply Z.pow_pos_nonneg; lia).
  assert (Hprod : Zpos (Z.to_pos (a * 2 ^ ka) * Z.to_pos (b * 2 ^ kb))
                  = z * 2 ^ (t + (ka + kb))).
  { rewrite Pos2Z.inj_mul, !Z2Pos.id by lia.
    rewrite !Z.pow_add_r by (unfold ka, kb; lia).
    replace (a * 2 ^ ka * (b * 2 ^ kb)) with (a * b * (2 ^ ka * 2 ^ kb)) by ring.
    rewrite E. ring. }
  assert (Hdp : prec <= Zdigits2 z + (t + (ka + kb))).
  { rewrite <- Zdigits2_mul_pow2 by (unfold ka, kb; lia).
    rewrite <- Hprod.
    pose proof (Zdigits2_bounds (Z.to_pos (a * 2 ^ ka) * Z.to_pos (b * 2 ^ kb))) as Hb2.
    rewrite Pos2Z.inj_mul, !Z2Pos.id in Hb2 by lia.
    rewrite Pos2Z.inj_mul, !Z2Pos.id by lia.
    set (d := Zdigits2 (a * 2 ^ ka * (b * 2 ^ kb))) in *.
    destruct (Z.le_gt_cases prec d) as [|Hlt]; [assumption|exfalso].
    assert (2 ^ d <= 2 ^ (prec - 1 + (prec - 1))).
    { destruct (Z.le_gt_cases 0 d).
      - apply Z.pow_le_mono_r; lia.
      - rewrite (Z.pow_neg_r 2 d) by lia. apply Z.pow_nonneg. lia. }
    rewrite Z.pow_add_r in * by lia.
    assert (2 ^ (prec - 1) * 2 ^ (prec - 1) <= a * 2 ^ ka * (b * 2 ^ kb))
      by (apply Z.mul_le_mono_nonneg; lia).
    lia. }
  rewrite (binary_round_aux_exact (xorb sa sb) _ _ z (t + (ka + kb)));
    try assumption; try (unfold ka, kb; lia).
  f_equal. unfold ka, kb. lia.
Qed.

Lemma div_eucl_div_mod (a b : Z) : Z.div_eucl a b = (a / b, a mod b).
Proof. unfold Z.div, Z.modulo. now destruct (Z.div_eucl a b). Qed.

Lemma new_location_zero (n : Z) : new_location n 0 = loc_Exact.
Proof. unfold new_location. now destruct (Z.even n). Qed.

Lemma shift_by_pos (m s : Z) :
  0 < s ->
  match s with Zpos _ => Z.shiftl m s | Z0 => m | Zneg _ => 0 end = m * 2 ^ s.
Proof.
  intros Hs. destruct s as [|p|p] eqn:E; try lia.
  apply Z.shiftl_mul_pow2. lia.
Qed.

(** Division by a power of two is exact. *)
Lemma SFdiv_canon_pow2 (sa sb : bool) (a ea eb : Z) :
  1 < prec -> 0 < a -> Zdigits2 a <= prec ->
  emin <= ea - eb - prec ->
  Zdigits2 a + (ea - eb) + 1 <= emax ->
  SFdiv prec emax (canon sa a ea) (canon sb 1 eb) = canon (xorb sa sb) a (ea - eb).
Proof.
  intros Hp Ha Hda Hmin Hmax. unfold canonical_float at 1 2. unfold SFdiv.
  pose proof (Zdigits2_pos a Ha) as Hdpos.
  set (ka := prec - Zdigits2 a).
  change (Zdigits2 1) with 1. rewrite Z.mul_1_l.
  pose proof (canon_mantissa a Ha Hda) as Hma. fold ka in Hma.
  assert (Hp1 : 0 < 2 ^ (prec - 1)) by (apply Z.pow_pos_nonneg; lia).
  unfold SFdiv_core_binary.
  assert (Hd1 : Zdigits2 (Zpos (Z.to_pos (a * 2 ^ ka))) = prec).
  { apply Zdigits2_unique. rewrite Z2Pos.id by lia. exact Hma. }
  assert (Hd2 : Zdigits2 (Zpos (Z.to_pos (2 ^ (prec - 1)))) = prec).
  { apply Zdigits2_unique. rewrite Z2Pos.id by lia.
    split; [lia|]. apply Z.pow_lt_mono_r; lia. }
  rewrite Hd1, Hd2.
  replace (prec + (ea - ka) - (prec + (eb - (prec - 1))))
    with (ea - ka - (eb - (prec - 1))) by lia.
  rewrite fexp_normal by (unfold ka; pose proof (Zdigits2_pos a Ha); lia).
  rewrite Z.min_l by lia.
  replace (ea - ka - (eb - (prec - 1)) - (ea - ka - (eb - (prec - 1)) - prec))
    with prec by lia.
  rewrite shift_by_pos by lia.
  rewrite div_eucl_div_mod.
  rewrite !Z2Pos.id by lia.
  assert (E2 : a * 2 ^ ka * 2 ^ prec = (2 * (a * 2 ^ ka)) * 2 ^ (prec - 1)).
  { replace prec with (Z.succ (prec - 1)) at 1 by lia.
    rewrite Z.pow_succ_r by lia. lia. }
  rewrite E2, Z.mod_mul, Z.div_mul, new_location_zero by lia.
  destruct (2 * (a * 2 ^ ka)) as [|m|m] eqn:Em; try lia.
  rewrite (binary_round_aux_exact (xorb sa sb) m _ a (ka + 1));
    try assumption; try (unfold ka; lia).
  - f_equal. unfold ka. lia.
  - rewrite <- Em, Z.pow_add_r by (unfold ka; lia). lia.
Qed.

(** Order of two positive floats with full mantissas, read off their
    values on a common scale. *)
Lemma SFltb_finite (m1 m2 : positive) (e1 e2 e0 : Z) :
  Zdigits2 (Zpos m1) = prec -> Zdigits2 (Zpos m2) = prec ->
  e0 <= e1 -> e0 <= e2 ->
  Zpos m1 * 2 ^ (e1 - e0) < Zpos m2 * 2 ^ (e2 - e0) ->
  SFltb (S754_finite false m1 e1) (S754_finite false m2 e2) = true.
Proof.
  intros Hd1 Hd2 H1 H2 Hlt. unfold SFltb, SFcompare.
  pose proof (Zdigits2_bounds m1) as Hb1. pose proof (Zdigits2_bounds m2) as Hb2.
  rewrite Hd1 in Hb1. rewrite Hd2 in Hb2.
  destruct (Z.compare_spec e1 e2) as [->|Hl|Hg]; [|reflexivity|exfalso].
  - assert (0 < 2 ^ (e2 - e0)) by (apply Z.pow_pos_nonneg; lia).
    assert (Hm : (m1 < m2)%positive) by nia.
    change (Pos.compare_cont Eq m1 m2) with (Pos.compare m1 m2).
    now rewrite (proj2 (Pos.compare_lt_iff m1 m2) Hm).
  - assert (0 < 2 ^ (e2 - e0)) by (apply Z.pow_pos_nonneg; lia).
    assert (E : 2 ^ (e1 - e0) = 2 ^ (e1 - e2) * 2 ^ (e2 - e0)).
    { rewrite <- Z.pow_add_r by lia. f_equal. lia. }
    assert (2 <= 2 ^ (e1 - e2)).
    { change 2 with (2 ^ 1) at 1. apply Z.pow_le_mono_r; lia. }
    assert (Ep : 2 ^ prec = 2 * 2 ^ (prec - 1)).
    { replace prec with (Z.succ (prec - 1)) at 1 by lia. apply Z.pow_succ_r. lia. }
    rewrite E in Hlt. nia.
Qed.
End Rounding.

(** * The oscillator's arithmetic is exact *)

Lemma Zdigits2_le (c p : Z) : 0 < c < 2 ^ p -> Zdigits2 c <= p.
Proof.
  intros [Hc Hlt]. destruct c as [|c'|c']; try lia.
  rewrite Zdigits2_log2.
  assert (0 < p).
  { destruct (Z.le_gt_cases p 0) as [Hp|]; [|assumption].
    destruct (Z.eq_dec p 0) as [->|]; [simpl in Hlt; lia|].
    rewrite Z.pow_neg_r in Hlt; lia. }
  pose proof (proj1 (Z.log2_lt_pow2 (Zpos c') p ltac:(lia)) Hlt). lia.
Qed.

Lemma F32_of_Z_canon (n : Z) :
  0 < n < 2 ^ 24 -> F32.of_Z n = canonical_float 24 false n 0.
Proof.
  intros Hn. pose proof (Zdigits2_le n 24 Hn). pose proof (Zdigits2_pos n ltac:(lia)).
  unfold F32.of_Z.
  apply (binary_normalize_exact F32.prec F32.emax); unfold SpecFloat.emin, F32.prec, F32.emax; lia.
Qed.

Lemma phase_of_canon (k : Z) :
  0 < k < 2 ^ 24 -> phase_of k = canonical_float 24 false k (- 11).
Proof.
  intros Hk. pose proof (Zdigits2_le k 24 Hk). pose proof (Zdigits2_pos k ltac:(lia)).
  unfold phase_of.
  apply (binary_normalize_exact F32.prec F32.emax); unfold SpecFloat.emin, F32.prec, F32.emax; lia.
Qed.

Lemma phase_of_0 : phase_of 0 = F32.zero.
Proof. reflexivity. Qed.

Lemma F32_of_Z_fft_size : F32.of_Z fft_size = canonical_float 24 false 1 11.
Proof. reflexivity. Qed.

(** [bin / fft_size] is computed without rounding. *)
Lemma oscillator_freq_exact (bin : Z) :
  0 <= bin < 2 ^ 24 -> oscillator_freq bin = phase_of bin.
Proof.
  intros Hb. unfold oscillator_freq. rewrite F32_of_Z_fft_size.
  destruct (Z.eq_dec bin 0) as [->|Hne]; [reflexivity|].
  rewrite F32_of_Z_canon, phase_of_canon by lia.
  pose proof (Zdigits2_le bin 24 ltac:(lia)). pose proof (Zdigits2_pos bin ltac:(lia)).
  unfold F32.div.
  rewrite (SFdiv_canon_pow2 F32.prec F32.emax); unfold SpecFloat.emin, F32.prec, F32.emax; try lia.
  reflexivity.
Qed.

Lemma to_int_phase_of (k : Z) :
  0 <= k < 2 ^ 24 -> F32.to_int (phase_of k) = k / fft_size.
Proof.
  intros Hk. destruct (Z.eq_dec k 0) as [->|Hne]; [reflexivity|].
  rewrite phase_of_canon by lia.
  pose proof (Zdigits2_le k 24 ltac:(lia)). pose proof (Zdigits2_pos k ltac:(lia)).
  unfold canonical_float, F32.to_int.
  rewrite (canon_mantissa_pos 24) by lia. cbn [cond_Zopp].
  destruct (Z.leb_spec 0 (- 11 - (24 - Zdigits2 k))); [lia|].
  replace (- (- 11 - (24 - Zdigits2 k))) with (11 + (24 - Zdigits2 k)) by lia.
  rewrite Z.pow_add_r by lia.
  rewrite Z.div_mul_cancel_r; [reflexivity|lia|].
  apply Z.pow_nonzero; lia.
Qed.

(** On a float that is not negative, [(int)] is the floor. *)
Lemma to_int_floor (x : float) :
  match x with S754_finite true _ _ => False | _ => True end ->
  F32.to_int x = floor x.
Proof.
  intros H. destruct x as [s|s| |s m e]; try reflexivity.
  destruct s; [destruct H|].
  unfold F32.to_int, floor. cbn [cond_Zopp].
  destruct (0 <=? e); reflexivity.
Qed.

Lemma phase_of_nonneg (k : Z) :
  0 <= k < 2 ^ 24 ->
  match phase_of k with S754_finite true _ _ => False | _ => True end.
Proof.
  intros Hk. destruct (Z.eq_dec k 0) as [->|Hne]; [exact I|].
  rewrite phase_of_canon by lia. exact I.
Qed.

Lemma F32_add_phase_of (k b : Z) :
  0 <= k -> 0 <= b -> k + b < 2 ^ 24 ->
  F32.add (phase_of k) (phase_of b) = phase_of (k + b).
Proof.
  intros Hk Hb Hkb.
  destruct (Z.eq_dec k 0) as [->|Hk0].
  { rewrite phase_of_0. unfold F32.add, F32.zero.
    destruct (Z.eq_dec b 0) as [->|Hb0]; [reflexivity|].
    rewrite Z.add_0_l, phase_of_canon by lia. reflexivity. }
  destruct (Z.eq_dec b 0) as [->|Hb0].
  { rewrite phase_of_0, Z.add_0_r, phase_of_canon by lia. reflexivity. }
  rewrite !phase_of_canon by lia.
  pose proof (Zdigits2_le k 24 ltac:(lia)). pose proof (Zdigits2_le b 24 ltac:(lia)).
  pose proof (Zdigits2_le (k + b) 24 ltac:(lia)).
  unfold F32.add.
  apply (SFadd_canon F32.prec F32.emax); unfold SpecFloat.emin, F32.prec, F32.emax; lia.
Qed.

Lemma F32_sub_phase_of (j q : Z) :
  0 <= q -> q * fft_size <= j -> j < 2 ^ 24 ->
  F32.sub (phase_of j) (F32.of_Z q) = phase_of (j - q * fft_size).
Proof.
  intros Hq Hqj Hj. unfold fft_size in *.
  destruct (Z.eq_dec q 0) as [->|Hq0].
  { rewrite Z.mul_0_l, Z.sub_0_r. change (F32.of_Z 0) with (S754_zero false).
    destruct (Z.eq_dec j 0) as [->|Hj0]; [reflexivity|].
    rewrite phase_of_canon by lia. reflexivity. }
  assert (Hq13 : q < 2 ^ 13) by lia.
  pose proof (Zdigits2_le q 13 ltac:(lia)). pose proof (Zdigits2_pos q ltac:(lia)).
  rewrite F32_of_Z_canon by lia.
  assert (Eq : canonical_float 24 false q 0
               = canonical_float 24 false (q * 2048) (- 11)).
  { change 2048 with (2 ^ 11). rewrite (canon_shift 24) by lia. reflexivity. }
  rewrite Eq.
  rewrite phase_of_canon by lia.
  destruct (Z.eq_dec j (q * 2048)) as [->|Hne].
  { rewrite Z.sub_diag, phase_of_0. unfold F32.sub, canonical_float.
    rewrite (SFsub_same F32.prec F32.emax). reflexivity. }
  rewrite phase_of_canon by lia.
  pose proof (Zdigits2_le j 24 ltac:(lia)).
  pose proof (Zdigits2_le (q * 2048) 24 ltac:(lia)).
  unfold F32.sub.
  apply (SFsub_canon F32.prec F32.emax); unfold SpecFloat.emin, F32.prec, F32.emax; lia.
Qed.

(** One step of the accumulator on the grid: [k / N] becomes
    [(k + b) mod N / N]. *)
Lemma phase_step_phase_of (k b : Z) :
  0 <= k < fft_size -> 0 <= b < 2 ^ 23 ->
  phase_step (phase_of b) (phase_of k) = phase_of ((k + b) mod fft_size).
Proof.
  intros Hk Hb. unfold fft_size in *. unfold phase_step.
  rewrite F32_add_phase_of by lia.
  rewrite to_int_phase_of by lia.
  pose proof (Z.div_mod (k + b) 2048 ltac:(lia)) as Hdm.
  pose proof (Z.mod_pos_bound (k + b) 2048 ltac:(lia)) as Hm.
  assert (0 <= (k + b) / 2048) by (apply Z.div_pos; lia).
  unfold fft_size.
  rewrite F32_sub_phase_of by (unfold fft_size; lia).
  f_equal. unfold fft_size. lia.
Qed.

(** * Rounded arithmetic of the control thread *)

(** ** The silence window of line 136 *)

Lemma F64_of_float_of_Z (sr : Z) :
  0 < sr < 2 ^ 24 ->
  F64.of_float (F32.of_Z sr) = canonical_float 53 false sr 0.
Proof.
  intros Hsr. rewrite F32_of_Z_canon by assumption.
  pose proof (Zdigits2_le sr 24 Hsr) as Hd.
  pose proof (Zdigits2_pos sr ltac:(lia)) as Hd0.
  pose proof (canon_mantissa 24 sr ltac:(lia) Hd) as Hm.
  unfold canonical_float at 1. unfold F64.of_float. cbn [cond_Zopp].
  rewrite Z2Pos.id by lia.
  rewrite (binary_normalize_exact F64.prec F64.emax);
    unfold SpecFloat.emin, F64.prec, F64.emax; try lia.
  - rewrite (canon_shift 53) by lia. f_equal. lia.
  - rewrite Zdigits2_mul_pow2 by lia. lia.
  - rewrite Zdigits2_mul_pow2 by lia. lia.
  - rewrite Zdigits2_mul_pow2 by lia. lia.
Qed.

Lemma rne_scale (T s h : Z) :
  0 <= T -> 0 <= s -> 0 < h -> rne (T * 2 ^ s) (h + s) = rne T h.
Proof.
  intros HT Hs Hh. unfold rne.
  assert (H2s : 0 < 2 ^ s) by (apply Z.pow_pos_nonneg; lia).
  assert (H2h : 0 < 2 ^ h) by (apply Z.pow_pos_nonneg; lia).
  assert (H2h1 : 0 < 2 ^ (h - 1)) by (apply Z.pow_pos_nonneg; lia).
  rewrite (Z.pow_add_r 2 h s) by lia.
  replace (h + s - 1) with (h - 1 + s) by lia.
  rewrite (Z.pow_add_r 2 (h - 1) s) by lia.
  rewrite Z.div_mul_cancel_r by lia.
  rewrite Z.mul_mod_distr_r by lia.
  destruct (Z.ltb_spec (T mod 2 ^ h) (2 ^ (h - 1)));
    destruct (Z.ltb_spec (T mod 2 ^ h * 2 ^ s) (2 ^ (h - 1) * 2 ^ s)); try nia.
  destruct (Z.ltb_spec (2 ^ (h - 1)) (T mod 2 ^ h));
    destruct (Z.ltb_spec (2 ^ (h - 1) * 2 ^ s) (T mod 2 ^ h * 2 ^ s)); try nia;
    reflexivity.
Qed.

Lemma ceil_unique (R G A : Z) :
  0 < G -> (A - 1) * G < R <= A * G -> - ((- R) / G) = A.
Proof.
  intros HG HR.
  assert (E : (- R) / G = - A).
  { symmetry. apply (Z.div_unique _ _ _ (A * G - R)); lia. }
  lia.
Qed.

Lemma literal_10e_3 :
  F64.literal 10 1000 = S754_finite false 5764607523034235 (-59).
Proof. reflexivity. Qed.

Lemma silence_frames_product (sr : Z) :
  0 < sr < 2 ^ 24 ->
  let T := 5764607523034235 * sr in
  let h := Zdigits2 T - 53 in
  0 <= h <= 24 /\
  exists R,
    T / 2 ^ h <= R <= T / 2 ^ h + 1 /\
    (0 < h -> T mod 2 ^ h < 2 ^ (h - 1) -> R = T / 2 ^ h) /\
    F64.ceil_to_unsigned
      (F64.mul (F64.literal 10 1000) (F64.of_float (F32.of_Z sr)))
    = - ((- R) / 2 ^ (59 - h)).
Proof.
  intros Hsr T h.
  pose proof (Zdigits2_le sr 24 Hsr) as Hd.
  pose proof (Zdigits2_pos sr ltac:(lia)) as Hd0.
  assert (HT : 2 ^ 52 <= T < 2 ^ 77) by (unfold T; lia).
  assert (HdT : 53 <= Zdigits2 T <= 77).
  { destruct T as [|t|t] eqn:ET; try lia.
    pose proof (Zdigits2_bounds t) as Hb.
    split.
    - destruct (Z.le_gt_cases 53 (Zdigits2 (Zpos t))) as [|Hlt]; [assumption|].
      assert (2 ^ Zdigits2 (Zpos t) <= 2 ^ 52).
      { pose proof (Zdigits2_pos (Zpos t) ltac:(lia)).
        apply Z.pow_le_mono_r; lia. }
      lia.
    - apply Zdigits2_le. lia. }
  split; [unfold h; lia|].
  rewrite F64_of_float_of_Z, literal_10e_3 by assumption.
  unfold canonical_float, F64.mul, SFmul.
  set (s := 53 - Zdigits2 sr).
  pose proof (canon_mantissa 53 sr ltac:(lia) ltac:(lia)) as Hm. fold s in Hm.
  assert (H2s : 0 < 2 ^ s) by (apply Z.pow_pos_nonneg; unfold s; lia).
  assert (EP : Zpos (5764607523034235 * Z.to_pos (sr * 2 ^ s)) = T * 2 ^ s).
  { rewrite Pos2Z.inj_mul, Z2Pos.id by lia. unfold T. ring. }
  assert (Hdig : Zdigits2 (Zpos (5764607523034235 * Z.to_pos (sr * 2 ^ s)))
                 = Zdigits2 T + s).
  { rewrite EP. apply Zdigits2_mul_pow2; unfold s; lia. }
  rewrite (binary_round_aux_normal F64.prec F64.emax ltac:(reflexivity));
    rewrite Hdig; unfold SpecFloat.emin, F64.prec, F64.emax;
    try (unfold s; lia).
  replace (Zdigits2 T + s - 53) with (h + s) by (unfold h; lia).
  replace (-59 + (0 - s) + (h + s)) with (h - 59) by lia.
  rewrite EP.
  set (R := rne (T * 2 ^ s) (h + s)).
  assert (H2h : 0 < 2 ^ h) by (apply Z.pow_pos_nonneg; unfold h; lia).
  assert (Hq : T * 2 ^ s / 2 ^ (h + s) = T / 2 ^ h).
  { rewrite Z.pow_add_r by (unfold h, s; lia).
    apply Z.div_mul_cancel_r; lia. }
  assert (Hqb : 2 ^ 52 <= T / 2 ^ h < 2 ^ 53).
  { destruct T as [|t|t] eqn:ET; try lia.
    pose proof (Zdigits2_bounds t) as Hb. fold h in Hb.
    split.
    - apply Z.div_le_lower_bound; [lia|].
      rewrite <- Z.pow_add_r by (unfold h; lia).
      replace (h + 52) with (Zdigits2 (Zpos t) - 1) by (unfold h; lia). lia.
    - apply Z.div_lt_upper_bound; [lia|].
      rewrite <- Z.pow_add_r by (unfold h; lia).
      replace (h + 53) with (Zdigits2 (Zpos t)) by (unfold h; lia). lia. }
  pose proof (rne_bounds (T * 2 ^ s) (h + s) ltac:(unfold h, s; lia) ltac:(lia))
    as [HR _].
  fold R in HR. rewrite Hq in HR.
  exists R. split; [exact HR|]. split.
  - intros Hh Hrem. unfold R. rewrite rne_scale by (unfold s; lia).
    unfold rne. destruct (Z.ltb_spec (T mod 2 ^ h) (2 ^ (h - 1))); [reflexivity|lia].
  - destruct (Z.ltb_spec R (2 ^ 53)) as [Hlt|Hge].
    + unfold F64.ceil_to_unsigned. cbn [cond_Zopp].
      destruct (Z.leb_spec 0 (h - 59)); [unfold h in *; lia|].
      rewrite Z2Pos.id by lia.
      replace (- (h - 59)) with (59 - h) by lia. reflexivity.
    + assert (ER : R = 2 ^ 53) by lia.
      unfold F64.ceil_to_unsigned. cbn [cond_Zopp].
      destruct (Z.leb_spec 0 (h - 59 + 1)); [unfold h in *; lia|].
      rewrite ER.
      replace (- (h - 59 + 1)) with (58 - h) by lia.
      replace (59 - h) with (58 - h + 1) by lia.
      rewrite (Z.pow_add_r 2 (58 - h) 1) by (unfold h; lia).
      change (Z.pos (Z.to_pos (2 ^ (53 - 1)))) with (2 ^ 52).
      change (- 2 ^ 53) with (- 2 ^ 52 * 2 ^ 1).
      rewrite Z.div_mul_cancel_r; [reflexivity| |lia].
      apply Z.pow_nonzero; unfold h; lia.
Qed.

Lemma pow2_split (h : Z) : 0 <= h <= 59 -> 2 ^ (59 - h) * 2 ^ h = 2 ^ 59.
Proof. intros H. rewrite <- Z.pow_add_r by lia. f_equal. lia. Qed.

(** Line 136 computes the ceiling of a hundredth of the rate. *)
Lemma main_silence_frames_needed_exact (sr : Z) :
  0 < sr < 2 ^ 24 -> main_silence_frames_needed sr = (sr + 99) / 100.
Proof.
  intros Hsr. unfold main_silence_frames_needed.
  destruct (silence_frames_product sr Hsr) as (Hh & R & HR & Hdown & ->).
  set (T := 5764607523034235 * sr) in *.
  set (h := Zdigits2 T - 53) in *.
  set (G := 2 ^ (59 - h)). set (H := 2 ^ h) in *.
  assert (HG : 2 ^ 35 <= G).
  { unfold G. apply Z.pow_le_mono_r; lia. }
  assert (HH : 0 < H) by (apply Z.pow_pos_nonneg; lia).
  assert (HGH : G * H = 2 ^ 59) by (apply pow2_split; lia).
  pose proof (Z.div_mod T H ltac:(lia)) as Hdm.
  pose proof (Z.mod_pos_bound T H HH) as Hmod.
  set (q := T / H) in *.
  pose proof (Z.div_mod sr 100 ltac:(lia)) as Hsplit.
  pose proof (Z.mod_pos_bound sr 100 ltac:(lia)) as Hb.
  set (a := sr / 100) in *. set (b := sr mod 100) in *.
  assert (Ha : 0 <= a) by (apply Z.div_pos; lia).
  assert (E100 : 100 * T = (2 ^ 59 + 12) * sr) by (unfold T; lia).
  apply ceil_unique; [lia|].
  destruct (Z.eq_dec b 0) as [Hb0|Hb0].
  - (* the rate is a multiple of 100 *)
    assert (Esr : sr = 100 * a) by lia.
    assert (EA : (sr + 99) / 100 = a).
    { symmetry. apply (Z.div_unique _ _ _ 99); lia. }
    rewrite EA.
    assert (ET : T = G * a * H + 12 * a) by nia.
    assert (HdT : 2 ^ (Zdigits2 T - 1) <= T < 2 ^ Zdigits2 T).
    { destruct T as [|t|t] eqn:Et; try lia. apply Zdigits2_bounds. }
    assert (E2 : 2 ^ Zdigits2 T = 2 ^ 53 * H).
    { unfold H. rewrite <- Z.pow_add_r by lia. f_equal. unfold h. lia. }
    assert (H64 : 64 * a < H) by nia.
    assert (Hh0 : 0 < h).
    { destruct (Z.eq_dec h 0) as [E0|]; [|lia].
      unfold H in H64. rewrite E0 in H64. simpl in H64. lia. }
    assert (Hhalf : H = 2 * 2 ^ (h - 1)).
    { unfold H. replace h with (Z.succ (h - 1)) at 1 by lia.
      apply Z.pow_succ_r. lia. }
    assert (Em : T mod H = 12 * a).
    { symmetry. apply (Z.mod_unique _ _ (G * a)); lia. }
    assert (Eq : q = G * a).
    { unfold q. symmetry. apply (Z.div_unique _ _ _ (12 * a)); lia. }
    rewrite (Hdown Hh0 ltac:(lia)). nia.
  - (* it is not *)
    assert (EA : (sr + 99) / 100 = a + 1).
    { symmetry. apply (Z.div_unique _ _ _ (b - 1)); lia. }
    rewrite EA. replace (a + 1 - 1) with a by lia.
    assert (Hlow : a * G < q).
    { assert (G * H * (100 * a + 1) <= 100 * T) by nia.
      assert (100 * T < 100 * (H * (q + 1))) by nia.
      assert (G * (100 * a + 1) < 100 * (q + 1)) by nia.
      lia. }
    assert (Hup : q < (a + 1) * G).
    { assert (100 * T < 100 * (a + 1) * (G * H)) by nia.
      assert (H * q <= T) by lia.
      nia. }
    lia.
Qed.

Lemma spec_silence_frames_needed_eq (sr : Z) :
  spec_silence_frames_needed sr = (sr + 99) / 100.
Proof.
  unfold spec_silence_frames_needed, Qceiling, Qfloor, Qopp, Qmult, inject_Z.
  cbn [Qnum Qden].
  change (Z.pos (1000 * 1)) with 1000.
  apply ceil_unique; [lia|].
  pose proof (Z.div_mod (sr + 99) 100 ltac:(lia)).
  pose proof (Z.mod_pos_bound (sr + 99) 100 ltac:(lia)). lia.
Qed.

(** * The frequency column *)

Lemma F32_div_fft_size (sr : Z) :
  0 < sr < 2 ^ 24 ->
  F32.div (F32.of_Z sr) (F32.of_Z fft_size) = canonical_float 24 false sr (- 11).
Proof.
  intros Hsr. rewrite F32_of_Z_fft_size, F32_of_Z_canon by assumption.
  pose proof (Zdigits2_le sr 24 Hsr). pose proof (Zdigits2_pos sr ltac:(lia)).
  unfold F32.div.
  rewrite (SFdiv_canon_pow2 F32.prec F32.emax);
    unfold SpecFloat.emin, F32.prec, F32.emax; try lia.
  reflexivity.
Qed.

(** The frequency of line [i], as a float with a full mantissa whose value
    is within half a unit in the last place of [i * sr / 2048]. *)
Lemma report_freq_rounded (sr i : Z) :
  0 < sr < 2 ^ 24 -> 0 < i <= 1024 ->
  let d := Zdigits2 sr in
  let msr := sr * 2 ^ (24 - d) in
  exists m e,
    F32.mul (F32.of_Z i) (F32.div (F32.of_Z sr) (F32.of_Z fft_size))
    = S754_finite false m e /\
    Zdigits2 (Zpos m) = 24 /\
    d - 35 <= e /\
    2 * Z.abs (Zpos m * 2 ^ (e - (d - 35)) - i * msr) <= 2 ^ 10.
Proof.
  intros Hsr Hi d msr.
  pose proof (Zdigits2_le sr 24 Hsr) as Hd. fold d in Hd.
  pose proof (Zdigits2_pos sr ltac:(lia)) as Hd0. fold d in Hd0.
  pose proof (Zdigits2_le i 11 ltac:(lia)) as Hdi.
  pose proof (Zdigits2_pos i ltac:(lia)) as Hdi0.
  pose proof (canon_mantissa 24 sr ltac:(lia) ltac:(lia)) as Hm.
  fold d msr in Hm. change (2 ^ (24 - 1)) with (2 ^ 23) in Hm.
  pose proof (canon_mantissa 24 i ltac:(lia) ltac:(lia)) as Hmi.
  change (2 ^ (24 - 1)) with (2 ^ 23) in Hmi.
  rewrite F32_div_fft_size, F32_of_Z_canon by lia.
  unfold canonical_float, F32.mul, SFmul. fold d msr.
  set (s := 24 - Zdigits2 i) in *.
  assert (H2s : 0 < 2 ^ s) by (apply Z.pow_pos_nonneg; unfold s; lia).
  set (U := i * msr).
  assert (HU : 2 ^ 23 <= U < 2 ^ 34) by (unfold U; nia).
  assert (EP : Zpos (Z.to_pos (i * 2 ^ s) * Z.to_pos msr) = U * 2 ^ s).
  { rewrite Pos2Z.inj_mul, !Z2Pos.id by lia. unfold U. ring. }
  assert (HdU : 24 <= Zdigits2 U <= 34).
  { destruct U as [|u|u] eqn:EU; try lia.
    pose proof (Zdigits2_bounds u) as Hb.
    split.
    - destruct (Z.le_gt_cases 24 (Zdigits2 (Zpos u))) as [|Hlt]; [assumption|].
      assert (2 ^ Zdigits2 (Zpos u) <= 2 ^ 23).
      { pose proof (Zdigits2_pos (Zpos u) ltac:(lia)).
        apply Z.pow_le_mono_r; lia. }
      lia.
    - apply Zdigits2_le. lia. }
  set (t := Zdigits2 U - 24).
  assert (Hdig : Zdigits2 (Zpos (Z.to_pos (i * 2 ^ s) * Z.to_pos msr))
                 = Zdigits2 U + s).
  { rewrite EP. apply Zdigits2_mul_pow2; unfold s; lia. }
  assert (H2t : 0 < 2 ^ t) by (apply Z.pow_pos_nonneg; unfold t; lia).
  assert (Ht10 : 2 ^ t <= 2 ^ 10) by (apply Z.pow_le_mono_r; unfold t; lia).
  assert (Hqb : 2 ^ 23 <= U / 2 ^ t < 2 ^ 24).
  { destruct U as [|u|u] eqn:EU; try lia.
    pose proof (Zdigits2_bounds u) as Hb. fold t in Hb.
    split.
    - apply Z.div_le_lower_bound; [lia|].
      rewrite <- Z.pow_add_r by (unfold t; lia).
      replace (t + 23) with (Zdigits2 (Zpos u) - 1) by (unfold t; lia). lia.
    - apply Z.div_lt_upper_bound; [lia|].
      rewrite <- Z.pow_add_r by (unfold t; lia).
      replace (t + 24) with (Zdigits2 (Zpos u)) by (unfold t; lia). lia. }
  rewrite (binary_round_aux_normal F32.prec F32.emax ltac:(reflexivity));
    rewrite Hdig; unfold SpecFloat.emin, F32.prec, F32.emax;
    try (unfold s; lia).
  replace (Zdigits2 U + s - 24) with (t + s) by (unfold t; lia).
  replace (0 - s + (-11 - (24 - d)) + (t + s)) with (t + (d - 35)) by lia.
  rewrite EP.
  set (R := rne (U * 2 ^ s) (t + s)).
  pose proof (rne_bounds (U * 2 ^ s) (t + s) ltac:(unfold t, s; lia) ltac:(lia))
    as [HR Herr].
  fold R in HR, Herr.
  assert (Hq : U * 2 ^ s / 2 ^ (t + s) = U / 2 ^ t).
  { rewrite Z.pow_add_r by (unfold t, s; lia).
    apply Z.div_mul_cancel_r; lia. }
  rewrite Hq in HR.
  assert (Herr' : 2 * Z.abs (R * 2 ^ t - U) <= 2 ^ t).
  { rewrite Z.pow_add_r in Herr by (unfold t, s; lia).
    replace (R * (2 ^ t * 2 ^ s) - U * 2 ^ s) with ((R * 2 ^ t - U) * 2 ^ s)
      in Herr by ring.
    rewrite Z.abs_mul, (Z.abs_eq (2 ^ s)) in Herr by lia. nia. }
  destruct (Z.ltb_spec R (2 ^ 24)) as [Hlt|Hge].
  - exists (Z.to_pos R), (t + (d - 35)). split; [reflexivity|].
    rewrite Z2Pos.id by lia. split; [|split].
    + destruct R as [|r|r] eqn:ER; try lia. apply Zdigits2_unique. lia.
    + unfold t. lia.
    + replace (t + (d - 35) - (d - 35)) with t by lia. fold U. lia.
  - assert (ER : R = 2 ^ 24) by lia.
    exists (Z.to_pos (2 ^ (24 - 1))), (t + (d - 35) + 1). split; [reflexivity|].
    split; [reflexivity|]. split; [unfold t; lia|].
    replace (t + (d - 35) + 1 - (d - 35)) with (t + 1) by lia.
    rewrite Z.pow_add_r by (unfold t; lia).
    change (Z.pos (Z.to_pos (2 ^ (24 - 1)))) with 8388608.
    change (2 ^ 1) with 2.
    replace (8388608 * (2 ^ t * 2)) with (2 ^ 24 * 2 ^ t)
      by (change (2 ^ 24) with 16777216; ring).
    rewrite <- ER. fold U. lia.
Qed.

Lemma report_freq_increasing (sr i j : Z) :
  0 < sr < 2 ^ 24 -> 0 <= i < j -> j <= 1024 ->
  let step := F32.div (F32.of_Z sr) (F32.of_Z fft_size) in
  F32.ltb (F32.mul (F32.of_Z i) step) (F32.mul (F32.of_Z j) step) = true.
Proof.
  intros Hsr Hij Hj step. unfold step.
  destruct (report_freq_rounded sr j Hsr ltac:(lia))
    as (mj & ej & -> & Hdj & Hej & Herrj).
  destruct (Z.eq_dec i 0) as [->|Hi0].
  - rewrite F32_div_fft_size by assumption. reflexivity.
  - destruct (report_freq_rounded sr i Hsr ltac:(lia))
      as (mi & ei & -> & Hdi & Hei & Herri).
    pose proof (canon_mantissa 24 sr ltac:(lia)
                  (Zdigits2_le sr 24 Hsr)) as Hm.
    change (2 ^ (24 - 1)) with (2 ^ 23) in Hm.
    unfold F32.ltb.
    apply (SFltb_finite 24 ltac:(lia) _ _ _ _ (Zdigits2 sr - 35));
      try assumption.
    change (2 ^ 10) with 1024 in *. change (2 ^ 23) with 8388608 in *.
    nia.
Qed.

Lemma report_freq_nyquist (sr : Z) :
  0 < sr < 2 ^ 24 ->
  let fs := F32.of_Z sr in
  F32.mul (F32.of_Z (fft_nbins - 1)) (F32.div fs (F32.of_Z fft_size))
  = F32.mul (F32.literal 5 10) fs /\
  F32.mul (F32.literal 5 10) fs
  = binary_normalize F32.prec F32.emax sr (- 1) false.
Proof.
  intros Hsr fs. unfold fs.
  pose proof (Zdigits2_le sr 24 Hsr) as Hd.
  pose proof (Zdigits2_pos sr ltac:(lia)) as Hd0.
  assert (E1 : F32.mul (F32.of_Z (fft_nbins - 1))
                 (F32.div (F32.of_Z sr) (F32.of_Z fft_size))
               = canonical_float 24 false sr (- 1)).
  { rewrite F32_div_fft_size by assumption.
    change (F32.of_Z (fft_nbins - 1)) with (canonical_float 24 false 1 10).
    unfold F32.mul.
    apply (SFmul_canon 24 128 ltac:(lia) false false 1 sr 10 (- 11) sr 0);
      unfold SpecFloat.emin; try lia; try reflexivity.
    simpl. lia. }
  assert (E2 : F32.mul (F32.literal 5 10) (F32.of_Z sr)
               = canonical_float 24 false sr (- 1)).
  { rewrite F32_of_Z_canon by assumption.
    change (F32.literal 5 10) with (canonical_float 24 false 1 (- 1)).
    unfold F32.mul.
    apply (SFmul_canon 24 128 ltac:(lia) false false 1 sr (- 1) 0 sr 0);
      unfold SpecFloat.emin; try lia; try reflexivity.
    simpl. lia. }
  rewrite E1, E2. split; [reflexivity|].
  symmetry. apply (binary_normalize_exact F32.prec F32.emax);
    unfold SpecFloat.emin, F32.prec, F32.emax; lia.
Qed.

(** * The loops of the callback *)

Lemma incr32_small (n : Z) : 0 <= n < fft_size -> incr32 n = n + 1.
Proof. intros H. unfold incr32, fft_size in *. apply Z.mod_small. lia. Qed.

Lemma incr32_range (n : Z) : 0 <= incr32 n < 2 ^ 32.
Proof. unfold incr32. apply Z.mod_pos_bound. lia. Qed.

Lemma incr32_neq (n : Z) : incr32 n <> n.
Proof.
  unfold incr32. intros H.
  pose proof (Z.mod_pos_bound (n + 1) (2 ^ 32) ltac:(lia)) as Hb.
  destruct (Z.eq_dec n (2 ^ 32 - 1)) as [->|Hne].
  - revert H. vm_compute. discriminate.
  - rewrite Z.mod_small in H; lia.
Qed.

Lemma incr32_le (n : Z) : 0 <= n -> incr32 n <= n + 1.
Proof.
  intros H. unfold incr32.
  apply Z.mod_le; lia.
Qed.

(** ** Silence detector *)

Lemma silence_loop_app (c : Z) (a b : list float) :
  silence_loop c (a ++ b) = silence_loop (silence_loop c a) b.
Proof. apply fold_left_app. Qed.

Lemma silence_step_nonneg (c : Z) (x : float) : 0 <= silence_step c x.
Proof.
  unfold silence_step. destruct (is_silent x); [|lia].
  apply incr32_range.
Qed.

Lemma silence_loop_nonneg (c : Z) (input : list float) :
  0 <= c -> 0 <= silence_loop c input.
Proof.
  revert c. induction input as [|x rest IH]; intros c Hc; [exact Hc|].
  apply IH, silence_step_nonneg.
Qed.

Lemma silence_loop_loud (c : Z) (input : list float) :
  Forall loud input ->
  silence_loop c input = match input with [] => c | _ => 0 end.
Proof.
  intros H. revert c. induction H as [|x rest Hx Hrest IH]; intros c; [reflexivity|].
  cbn [silence_loop fold_left]. unfold silence_step at 2. rewrite Hx.
  fold (silence_loop 0 rest). rewrite IH. now destruct rest.
Qed.

(** The counter never exceeds the run of quiet samples that ends the
    stream. *)
Lemma silence_loop_quiet_suffix (stream : list float) :
  exists pre quiet,
    stream = pre ++ quiet /\
    Forall (fun x => is_silent x = true) quiet /\
    silence_loop 0 stream <= Z.of_nat (length quiet).
Proof.
  induction stream as [|x stream IH] using rev_ind.
  - exists [], []. repeat split; [constructor|reflexivity].
  - destruct IH as (pre & quiet & E & Hq & Hle).
    rewrite silence_loop_app. cbn [silence_loop fold_left].
    unfold silence_step. destruct (is_silent x) eqn:Hx.
    + exists pre, (quiet ++ [x]). split; [|split].
      * rewrite E. now rewrite <- app_assoc.
      * apply Forall_app. split; [assumption|]. now constructor.
      * rewrite length_app. cbn [length].
        pose proof (incr32_le (silence_loop 0 stream)
                      (silence_loop_nonneg 0 stream ltac:(lia))).
        unfold silence_loop in *. lia.
    + exists (stream ++ [x]), []. repeat split.
      * now rewrite app_nil_r.
      * constructor.
      * reflexivity.
Qed.

(** ** Window *)

Lemma window_loop_length (cos : double -> double) (n : nat) (i : Z)
    (buf : list float) :
  length (window_loop cos n i buf) = length buf.
Proof.
  revert i buf. induction n as [|n IH]; intros i buf; [reflexivity|].
  cbn [window_loop]. rewrite IH. apply length_alter.
Qed.

Lemma window_loop_lookup (cos : double -> double) (n : nat) (i : nat)
    (buf : list float) (j : nat) :
  window_loop cos n (Z.of_nat i) buf !! j
  = if decide (i <= j < i + n)%nat
    then window_sample cos (Z.of_nat j) <$> buf !! j
    else buf !! j.
Proof.
  revert i buf. induction n as [|n IH]; intros i buf.
  - cbn [window_loop]. destruct (decide (i <= j < i + 0)%nat); [lia|reflexivity].
  - cbn [window_loop]. replace (Z.of_nat i + 1) with (Z.of_nat (S i)) by lia.
    rewrite IH, Nat2Z.id.
    destruct (decide (S i <= j < S i + n)%nat) as [H1|H1];
      destruct (decide (i <= j < i + S n)%nat) as [H2|H2]; try lia.
    + rewrite list_lookup_alter_ne by lia. reflexivity.
    + assert (j = i) by lia. subst j. now rewrite list_lookup_alter_eq.
    + rewrite list_lookup_alter_ne by lia. reflexivity.
Qed.

(** ** Oscillator *)

Lemma oscillator_loop_stop (sinf : float -> float) (fill : Z) (freq : float)
    (n i : nat) (phase : float) (out : list float) :
  ~ fill < fft_size ->
  oscillator_loop sinf fill freq n i phase out = (phase, out).
Proof.
  intros H. destruct n; [reflexivity|]. cbn [oscillator_loop].
  destruct (Z.ltb_spec fill fft_size); [contradiction|reflexivity].
Qed.

Lemma oscillator_loop_phase (sinf : float -> float) (fill : Z) (freq : float)
    (n i : nat) (phase : float) (out : list float) :
  fill < fft_size ->
  fst (oscillator_loop sinf fill freq n i phase out)
  = Nat.iter n (phase_step freq) phase.
Proof.
  intros H. revert i phase out. induction n as [|n IH]; intros i phase out;
    [reflexivity|].
  cbn [oscillator_loop]. destruct (Z.ltb_spec fill fft_size); [|lia].
  rewrite IH. now rewrite Nat.iter_succ_r.
Qed.

Lemma oscillator_loop_length (sinf : float -> float) (fill : Z) (freq : float)
    (n i : nat) (phase : float) (out : list float) :
  length (snd (oscillator_loop sinf fill freq n i phase out)) = length out.
Proof.
  revert i phase out. induction n as [|n IH]; intros i phase out; [reflexivity|].
  cbn [oscillator_loop]. destruct (fill <? fft_size); [|reflexivity].
  rewrite IH. apply length_insert.
Qed.

Lemma oscillator_loop_lookup (sinf : float -> float) (fill : Z) (freq : float)
    (n i : nat) (phase : float) (out : list float) (j : nat) :
  fill < fft_size ->
  snd (oscillator_loop sinf fill freq n i phase out) !! j
  = if decide (i <= j < i + n /\ j < length out)%nat
    then Some (sinf (Nat.iter (j - i) (phase_step freq) phase))
    else out !! j.
Proof.
  intros H. revert i phase out. induction n as [|n IH]; intros i phase out.
  - cbn [oscillator_loop snd].
    destruct (decide (i <= j < i + 0 /\ j < length out)%nat); [lia|reflexivity].
  - cbn [oscillator_loop]. destruct (Z.ltb_spec fill fft_size); [|lia].
    rewrite IH, length_insert.
    destruct (decide (S i <= j < S i + n /\ j < length out)%nat) as [H1|H1];
      destruct (decide (i <= j < i + S n /\ j < length out)%nat) as [H2|H2];
      try lia.
    + replace (j - i)%nat with (S (j - S i)) by lia.
      now rewrite Nat.iter_succ_r.
    + assert (j = i) by lia. subst j. rewrite Nat.sub_diag.
      rewrite list_lookup_insert_eq by lia. reflexivity.
    + destruct (decide (j = i)) as [->|Hne].
      * rewrite !lookup_ge_None_2 by (rewrite ?length_insert; lia). reflexivity.
      * rewrite list_lookup_insert_ne by lia. reflexivity.
Qed.

(** ** Capture *)

Lemma record_loop_full (buf : list float) (fill : Z) (input : list float) :
  ~ fill < fft_size -> record_loop buf fill input = (buf, fill).
Proof.
  intros H. destruct input; [reflexivity|]. cbn [record_loop].
  destruct (Z.ltb_spec fill fft_size); [contradiction|reflexivity].
Qed.

Lemma record_loop_app (buf : list float) (fill : Z) (a b : list float) :
  record_loop buf fill (a ++ b)
  = record_loop (fst (record_loop buf fill a)) (snd (record_loop buf fill a)) b.
Proof.
  revert buf fill. induction a as [|x a IH]; intros buf fill; [reflexivity|].
  cbn [app record_loop]. destruct (Z.ltb_spec fill fft_size) as [Hlt|Hge].
  - apply IH.
  - cbn [fst snd]. destruct b; [reflexivity|]. cbn [record_loop].
    destruct (Z.ltb_spec fill fft_size); [lia|reflexivity].
Qed.

Lemma record_loop_length (buf : list float) (fill : Z) (input : list float) :
  length (fst (record_loop buf fill input)) = length buf.
Proof.
  revert buf fill. induction input as [|x rest IH]; intros buf fill; [reflexivity|].
  cbn [record_loop]. destruct (fill <? fft_size); [|reflexivity].
  rewrite IH. apply length_insert.
Qed.

Lemma record_loop_fill (buf : list float) (fill : Z) (input : list float) :
  0 <= fill <= fft_size ->
  snd (record_loop buf fill input)
  = Z.min (fill + Z.of_nat (length input)) fft_size.
Proof.
  revert buf fill. induction input as [|x rest IH]; intros buf fill Hf.
  - cbn [record_loop snd length]. lia.
  - cbn [record_loop]. destruct (Z.ltb_spec fill fft_size) as [Hlt|Hge].
    + rewrite incr32_small by lia. rewrite IH by lia. cbn [length]. lia.
    + cbn [snd length]. lia.
Qed.

Lemma record_loop_lookup (buf : list float) (fill : nat) (input : list float)
    (j : nat) :
  Z.of_nat fill <= fft_size ->
  fst (record_loop buf (Z.of_nat fill) input) !! j
  = if decide (fill <= j < fill + length input /\ j < Z.to_nat fft_size
               /\ j < length buf)%nat
    then input !! (j - fill)%nat
    else buf !! j.
Proof.
  assert (HN : fft_size = 2048) by reflexivity.
  revert buf fill. induction input as [|x rest IH]; intros buf fill Hf.
  - cbn [record_loop fst length].
    destruct (decide _) as [H|H]; [lia|reflexivity].
  - cbn [record_loop].
    destruct (Z.ltb_spec (Z.of_nat fill) fft_size) as [Hlt|Hge].
    + rewrite incr32_small by lia.
      replace (Z.of_nat fill + 1) with (Z.of_nat (S fill)) by lia.
      rewrite IH by lia. rewrite length_insert, Nat2Z.id. cbn [length].
      destruct (decide (S fill <= j < S fill + length rest /\ j < Z.to_nat fft_size
                        /\ j < length buf)%nat) as [H1|H1];
        destruct (decide (fill <= j < fill + S (length rest) /\ j < Z.to_nat fft_size
                          /\ j < length buf)%nat) as [H2|H2]; try lia.
      * replace (j - fill)%nat with (S (j - S fill)) by lia. reflexivity.
      * assert (j = fill) by lia. subst j. rewrite Nat.sub_diag.
        rewrite list_lookup_insert_eq by lia. reflexivity.
      * destruct (decide (j = fill)) as [->|Hne].
        -- rewrite !lookup_ge_None_2 by (rewrite ?length_insert; lia). reflexivity.
        -- rewrite list_lookup_insert_ne by lia. reflexivity.
    + cbn [fst]. destruct (decide _) as [H|H]; [lia|reflexivity].
Qed.

(** * The callback, case by case *)

Section Callback_cases.
Variable cos : double -> double.
Variable sinf : float -> float.
Variable transform : list float -> Z -> cfloat.

Ltac unfold_process := unfold process.
Ltac unfold_run := unfold run.
Ltac unfold_store_response := unfold store_response.

#[local] Abbreviation process := (process cos sinf transform).
#[local] Abbreviation run := (run cos sinf transform).
#[local] Abbreviation stores := (stores cos sinf transform).
#[local] Abbreviation store_response := (store_response cos transform).

(** The context after lines 61-69. *)
#[local] Abbreviation after_transform ctx :=
  (if transform_due ctx then store_response ctx else ctx).

Lemma process_not_started (ctx : Measure_Context) (input : list float) :
  process false ctx input
  = {| cb_ctx := ctx; cb_output := silence input;
       cb_finished := false; cb_stored := None |}.
Proof. reflexivity. Qed.

Lemma process_finished (ctx : Measure_Context) (input : list float) :
  current_bin ctx = fft_nbins ->
  process true ctx input
  = {| cb_ctx := with_silence_frames_count ctx
                   (silence_loop (silence_frames_count ctx) input);
       cb_output := silence input;
       cb_finished := true; cb_stored := None |}.
Proof.
  intros H. unfold_process. cbn [negb current_bin with_silence_frames_count].
  rewrite H. reflexivity.
Qed.

Lemma store_response_count (ctx : Measure_Context) (c : Z) :
  store_response (with_silence_frames_count ctx c)
  = with_silence_frames_count (store_response ctx) c.
Proof. reflexivity. Qed.

Lemma transform_due_count (ctx : Measure_Context) (c : Z) :
  transform_due (with_silence_frames_count ctx c) = transform_due ctx.
Proof. reflexivity. Qed.

Lemma process_gated (ctx : Measure_Context) (input : list float) :
  current_bin ctx <> fft_nbins ->
  change_pending ctx = true ->
  silence_loop (silence_frames_count ctx) input < silence_frames_needed ctx ->
  process true ctx input
  = {| cb_ctx := with_silence_frames_count (after_transform ctx)
                   (silence_loop (silence_frames_count ctx) input);
       cb_output := silence input;
       cb_finished := false;
       cb_stored := if transform_due ctx then Some (current_bin ctx) else None |}.
Proof.
  intros Hbin Hch Hgate. unfold_process. unfold change_pending in *.
  cbn [negb current_bin with_silence_frames_count].
  rewrite (proj2 (Z.eqb_neq _ _) Hbin), transform_due_count.
  destruct (transform_due ctx); unfold sweep; try unfold_store_response;
    cbn [current_bin fft_in_fill silence_frames_count silence_frames_needed
         with_transform with_silence_frames_count];
    rewrite Hch, (proj2 (Z.ltb_lt _ _) Hgate); reflexivity.
Qed.

Lemma process_advance (ctx : Measure_Context) (input : list float) :
  current_bin ctx <> fft_nbins ->
  change_pending ctx = true ->
  silence_frames_needed ctx <= silence_loop (silence_frames_count ctx) input ->
  let osc :=
    oscillator_loop sinf 0 (oscillator_freq (incr32 (current_bin ctx)))
      (length input) 0 F32.zero (silence input) in
  process true ctx input
  = {| cb_ctx :=
         {| fft_in := fft_in (after_transform ctx);
            fft_out := fft_out (after_transform ctx);
            current_bin := incr32 (current_bin ctx);
            fft_in_fill := 0;
            oscillator_phase := fst osc;
            response := response (after_transform ctx);
            silence_frames_count :=
              silence_loop (silence_frames_count ctx) input;
            silence_frames_needed := silence_frames_needed ctx |};
       cb_output := snd osc;
       cb_finished := false;
       cb_stored := if transform_due ctx then Some (current_bin ctx) else None |}.
Proof.
  intros Hbin Hch Hgate osc. unfold_process. unfold change_pending in *.
  cbn [negb current_bin with_silence_frames_count].
  rewrite (proj2 (Z.eqb_neq _ _) Hbin), transform_due_count.
  destruct (transform_due ctx); unfold sweep; try unfold_store_response;
    cbn [current_bin fft_in_fill silence_frames_count silence_frames_needed
         with_transform with_silence_frames_count];
    rewrite Hch, (proj2 (Z.ltb_ge _ _) Hgate);
    cbn [andb negb];
    (destruct (oscillator_loop sinf _ _ _ _ _ _) as [p o] eqn:E;
     assert (Eo : osc = (p, o)) by (first [exact E | reflexivity]); rewrite Eo; reflexivity).
Qed.

Lemma process_capture (ctx : Measure_Context) (input : list float) :
  current_bin ctx <> fft_nbins ->
  change_pending ctx = false ->
  let osc :=
    oscillator_loop sinf (fft_in_fill ctx) (oscillator_freq (current_bin ctx))
      (length input) 0 (oscillator_phase ctx) (silence input) in
  let rec := record_loop (fft_in ctx) (fft_in_fill ctx) input in
  process true ctx input
  = {| cb_ctx :=
         {| fft_in := fst rec;
            fft_out := fft_out ctx;
            current_bin := current_bin ctx;
            fft_in_fill := snd rec;
            oscillator_phase := fst osc;
            response := response ctx;
            silence_frames_count :=
              silence_loop (silence_frames_count ctx) input;
            silence_frames_needed := silence_frames_needed ctx |};
       cb_output := snd osc;
       cb_finished := false; cb_stored := None |}.
Proof.
  intros Hbin Hch osc rec. unfold_process.
  cbn [negb current_bin with_silence_frames_count].
  rewrite (proj2 (Z.eqb_neq _ _) Hbin).
  assert (Hdue : transform_due ctx = false).
  { unfold change_pending, transform_due in *.
    destruct (current_bin ctx =? no_bin), (fft_in_fill ctx =? fft_size);
      try discriminate; reflexivity. }
  rewrite transform_due_count, Hdue.
  unfold sweep, change_pending in *.
  cbn [current_bin fft_in_fill silence_frames_count silence_frames_needed
       with_silence_frames_count].
  rewrite Hch.
  cbn [andb negb].
  destruct (oscillator_loop sinf _ _ _ _ _ _) as [p o] eqn:E.
  assert (Eo : osc = (p, o)) by (first [exact E | reflexivity]). rewrite Eo.
  destruct (record_loop _ _ _) as [b f] eqn:E'.
  assert (Er : rec = (b, f)) by (first [exact E' | reflexivity]). rewrite Er.
  reflexivity.
Qed.

Ltac callback_cases ctx input :=
  let Hfin := fresh "Hfin" in
  let Hch := fresh "Hch" in
  let Hgate := fresh "Hgate" in
  destruct (Z.eq_dec (current_bin ctx) fft_nbins) as [Hfin|Hfin];
  [rewrite (process_finished ctx input Hfin)
  |destruct (change_pending ctx) eqn:Hch;
   [destruct (Z.lt_ge_cases (silence_loop (silence_frames_count ctx) input)
                (silence_frames_needed ctx)) as [Hgate|Hgate];
    [rewrite (process_gated ctx input Hfin Hch Hgate)
    |rewrite (process_advance ctx input Hfin Hch Hgate)]
   |rewrite (process_capture ctx input Hfin Hch)]].

Lemma after_transform_bin (ctx : Measure_Context) :
  current_bin (after_transform ctx) = current_bin ctx.
Proof. now destruct (transform_due ctx). Qed.

Lemma after_transform_fill (ctx : Measure_Context) :
  fft_in_fill (after_transform ctx) = fft_in_fill ctx.
Proof. now destruct (transform_due ctx). Qed.

Lemma after_transform_needed (ctx : Measure_Context) :
  silence_frames_needed (after_transform ctx) = silence_frames_needed ctx.
Proof. now destruct (transform_due ctx). Qed.

Lemma process_count (ctx : Measure_Context) (input : list float) :
  silence_frames_count (cb_ctx (process true ctx input))
  = silence_loop (silence_frames_count ctx) input.
Proof. callback_cases ctx input; reflexivity. Qed.

Lemma process_needed (started : bool) (ctx : Measure_Context)
    (input : list float) :
  silence_frames_needed (cb_ctx (process started ctx input))
  = silence_frames_needed ctx.
Proof.
  destruct started; [|reflexivity].
  callback_cases ctx input; cbn [cb_ctx silence_frames_needed with_silence_frames_count];
    try reflexivity.
  apply after_transform_needed.
Qed.

(** The bin moves in one case only: a change is pending and the gate is
    open. *)
Lemma process_bin (ctx : Measure_Context) (input : list float) :
  current_bin (cb_ctx (process true ctx input))
  = if negb (current_bin ctx =? fft_nbins) && change_pending ctx
       && (silence_frames_needed ctx
           <=? silence_loop (silence_frames_count ctx) input)
    then incr32 (current_bin ctx)
    else current_bin ctx.
Proof.
  callback_cases ctx input;
    cbn [cb_ctx current_bin with_silence_frames_count];
    rewrite ?after_transform_bin.
  - rewrite (proj2 (Z.eqb_eq _ _) Hfin). reflexivity.
  - rewrite (proj2 (Z.eqb_neq _ _) Hfin), (proj2 (Z.leb_gt _ _) Hgate).
    reflexivity.
  - rewrite (proj2 (Z.eqb_neq _ _) Hfin), (proj2 (Z.leb_le _ _) Hgate).
    reflexivity.
  - rewrite (proj2 (Z.eqb_neq _ _) Hfin). reflexivity.
Qed.

Lemma run_cons (started : bool) (ctx : Measure_Context) (b : list float)
    (rest : list (list float)) :
  run started ctx (b :: rest) = run started (cb_ctx (process started ctx b)) rest.
Proof. reflexivity. Qed.

Lemma run_snoc (started : bool) (ctx : Measure_Context)
    (done : list (list float)) (b : list float) :
  run started ctx (done ++ [b])
  = cb_ctx (process started (run started ctx done) b).
Proof. unfold_run. now rewrite fold_left_app. Qed.

Lemma run_app (started : bool) (ctx : Measure_Context)
    (a b : list (list float)) :
  run started ctx (a ++ b) = run started (run started ctx a) b.
Proof. unfold_run. apply fold_left_app. Qed.

Lemma stores_app (started : bool) (ctx : Measure_Context)
    (a b : list (list float)) :
  stores started ctx (a ++ b)
  = stores started ctx a ++ stores started (run started ctx a) b.
Proof.
  revert ctx. induction a as [|x a IH]; intros ctx; [reflexivity|].
  cbn [app stores]. rewrite run_cons.
  destruct (cb_stored (process started ctx x)); rewrite IH; reflexivity.
Qed.

Lemma run_needed (started : bool) (ctx : Measure_Context)
    (buffers : list (list float)) :
  silence_frames_needed (run started ctx buffers) = silence_frames_needed ctx.
Proof.
  revert ctx. induction buffers as [|b rest IH]; intros ctx; [reflexivity|].
  rewrite run_cons, IH. apply process_needed.
Qed.

(** The silence counter sees the stream, not the buffers. *)
Lemma run_count (ctx : Measure_Context) (buffers : list (list float)) :
  silence_frames_count (run true ctx buffers)
  = silence_loop (silence_frames_count ctx) (concat buffers).
Proof.
  revert ctx. induction buffers as [|b rest IH]; intros ctx; [reflexivity|].
  rewrite run_cons, IH, process_count. cbn [concat].
  now rewrite silence_loop_app.
Qed.

(** * Before the start signal *)

(** C9.  A call made while the start flag is still clear zeroes the whole
    output buffer and returns at once: the context it leaves (silence
    counter, bin index, capture buffer and fill count, oscillator phase,
    response table) is the context it was given, the finished flag is not
    stored and no response slot is written. *)
Theorem callback_before_start (ctx : Measure_Context) (input : list float) :
  let r := process false ctx input in
  cb_ctx r = ctx /\
  length (cb_output r) = length input /\
  (forall i, (i < length input)%nat -> cb_output r !! i = Some F32.zero) /\
  cb_finished r = false /\
  cb_stored r = None.
Proof.
  rewrite process_not_started. cbn [cb_ctx cb_output cb_finished cb_stored].
  unfold silence. repeat split.
  - apply length_replicate.
  - intros i Hi. now apply lookup_replicate_2.
Qed.

(** * The silence gate *)

Lemma gate_closed_keeps_bin (ctx : Measure_Context) (input : list float) :
  silence_loop (silence_frames_count ctx) input < silence_frames_needed ctx ->
  current_bin (cb_ctx (process true ctx input)) = current_bin ctx.
Proof.
  intros H. rewrite process_bin, (proj2 (Z.leb_gt _ _) H).
  now rewrite andb_false_r.
Qed.

Lemma loud_input_keeps_bin (ctx : Measure_Context)
    (buffers : list (list float)) :
  0 < silence_frames_needed ctx ->
  silence_frames_count ctx < silence_frames_needed ctx
  \/ Forall (fun b => b <> []) buffers ->
  Forall (Forall loud) buffers ->
  current_bin (run true ctx buffers) = current_bin ctx.
Proof.
  revert ctx. induction buffers as [|b rest IH]; intros ctx Hpos Hstart Hloud;
    [reflexivity|].
  apply Forall_cons in Hloud as [Hb Hrest].
  assert (Hgate : silence_loop (silence_frames_count ctx) b
                  < silence_frames_needed ctx).
  { rewrite silence_loop_loud by assumption.
    destruct b; [|assumption].
    destruct Hstart as [|Hne]; [assumption|].
    apply Forall_cons in Hne as [Hne _]. now contradiction Hne. }
  rewrite run_cons, IH.
  - now apply gate_closed_keeps_bin.
  - now rewrite process_needed.
  - left. now rewrite process_count, process_needed.
  - assumption.
Qed.

Lemma bin_change_needs_quiet (ctx : Measure_Context)
    (done : list (list float)) (buf : list float) :
  silence_frames_count ctx = 0 ->
  current_bin (cb_ctx (process true (run true ctx done) buf))
  <> current_bin (run true ctx done) ->
  exists pre quiet,
    concat done ++ buf = pre ++ quiet /\
    Forall (fun x => is_silent x = true) quiet /\
    silence_frames_needed ctx <= Z.of_nat (length quiet).
Proof.
  intros Hc Hbin.
  rewrite process_bin, run_needed, run_count, Hc, <- silence_loop_app in Hbin.
  destruct (silence_frames_needed ctx
            <=? silence_loop 0 (concat done ++ buf)) eqn:Hgate.
  - apply Z.leb_le in Hgate.
    destruct (silence_loop_quiet_suffix (concat done ++ buf))
      as (pre & quiet & E & Hq & Hle).
    exists pre, quiet. repeat split; [assumption|assumption|lia].
  - rewrite andb_false_r in Hbin. now contradiction Hbin.
Qed.

(** C4.  After the start signal the bin index stays where it is for as long
    as every input sample is at or above the silence threshold (the gate of
    line 73 never opens: [silence_frames_needed] is positive, and either it
    was closed when the loud input began or every buffer has at least one
    frame).  A call moves the bin index only when the input stream counted
    since the start ends with at least [silence_frames_needed] consecutive
    samples below the threshold. *)
Theorem loud_input_stalls_the_sweep (ctx : Measure_Context)
    (buffers done : list (list float)) (buf : list float) :
  (0 < silence_frames_needed ctx ->
   silence_frames_count ctx < silence_frames_needed ctx
   \/ Forall (fun b => b <> []) buffers ->
   Forall (Forall loud) buffers ->
   current_bin (run true ctx buffers) = current_bin ctx) /\
  (silence_frames_count ctx = 0 ->
   current_bin (cb_ctx (process true (run true ctx done) buf))
   <> current_bin (run true ctx done) ->
   exists pre quiet,
     concat done ++ buf = pre ++ quiet /\
     Forall (fun x => is_silent x = true) quiet /\
     silence_frames_needed ctx <= Z.of_nat (length quiet)).
Proof.
  split.
  - apply loud_input_keeps_bin.
  - apply bin_change_needs_quiet.
Qed.

(** C5.  [main] sets [silence_frames_needed] to [ceil(0.010 * rate)] (for a
    rate below [2 ^ 24], which [float] holds exactly), no call changes it,
    and it is the one threshold of the gate: whenever a bin change is
    pending, be it before bin 0 ([current_bin] is still [~0u]) or after the
    capture of any bin, the call changes bin exactly when the silence
    counter has reached it. *)
Theorem silence_gate_threshold (rate : Z) (mem_in : list float)
    (mem_out : list cfloat) (started : bool) (ctx : Measure_Context)
    (input : list float) (buffers : list (list float)) :
  (0 < rate < 2 ^ 24 ->
   silence_frames_needed (initial_context mem_in mem_out rate)
   = spec_silence_frames_needed rate) /\
  silence_frames_needed (cb_ctx (process started ctx input))
  = silence_frames_needed ctx /\
  silence_frames_needed (run started ctx buffers) = silence_frames_needed ctx /\
  (current_bin ctx <> fft_nbins ->
   current_bin ctx = no_bin \/ fft_in_fill ctx = fft_size ->
   (current_bin (cb_ctx (process true ctx input)) <> current_bin ctx
    <-> silence_frames_needed ctx
        <= silence_loop (silence_frames_count ctx) input)).
Proof.
  split; [|split; [|split]].
  - intros Hrate. cbn [initial_context silence_frames_needed].
    now rewrite main_silence_frames_needed_exact, spec_silence_frames_needed_eq.
  - apply process_needed.
  - apply run_needed.
  - intros Hfin Hpending.
    assert (Hch : change_pending ctx = true).
    { unfold change_pending. apply orb_true_iff.
      destruct Hpending as [->| ->]; [left|right]; apply Z.eqb_refl. }
    rewrite process_bin, Hch, (proj2 (Z.eqb_neq _ _) Hfin). cbn [negb andb].
    destruct (Z.leb_spec (silence_frames_needed ctx)
                (silence_loop (silence_frames_count ctx) input)) as [Hle|Hgt].
    + split; [intros _; exact Hle|intros _; apply incr32_neq].
    + split; [intros H; now contradiction H|lia].
Qed.

(** * The oscillator *)

Lemma change_pending_false (ctx : Measure_Context) :
  change_pending ctx = false ->
  current_bin ctx <> no_bin /\ fft_in_fill ctx <> fft_size.
Proof.
  unfold change_pending. intros H. apply orb_false_elim in H as [H1 H2].
  now apply Z.eqb_neq in H1, H2.
Qed.

(** What a call that gets past the gate synthesizes: the bin it excites,
    the phase it starts from, the samples and the phase it leaves. *)
Lemma excitation (ctx : Measure_Context) (input : list float) :
  current_bin ctx <> fft_nbins ->
  fft_in_fill ctx <= fft_size ->
  (change_pending ctx = true ->
   silence_frames_needed ctx <= silence_loop (silence_frames_count ctx) input) ->
  let r := process true ctx input in
  let bin := if change_pending ctx then incr32 (current_bin ctx)
             else current_bin ctx in
  let p0 := if change_pending ctx then F32.zero else oscillator_phase ctx in
  let phase_at i := Nat.iter i (phase_step (oscillator_freq bin)) p0 in
  current_bin (cb_ctx r) = bin /\
  length (cb_output r) = length input /\
  (forall i, (i < length input)%nat ->
     cb_output r !! i = Some (sinf (phase_at i))) /\
  oscillator_phase (cb_ctx r) = phase_at (length input).
Proof.
  intros Hfin Hfill Hopen r bin p0 phase_at. subst r bin p0 phase_at.
  destruct (change_pending ctx) eqn:Hch.
  - rewrite (process_advance ctx input Hfin Hch (Hopen eq_refl)).
    cbn [cb_ctx cb_output current_bin oscillator_phase].
    assert (H0 : 0 < fft_size) by reflexivity.
    repeat split.
    + rewrite oscillator_loop_length. apply length_replicate.
    + intros i Hi. rewrite oscillator_loop_lookup by assumption.
      unfold silence. rewrite length_replicate.
      destruct (decide _) as [_|Hn]; [|lia]. now rewrite Nat.sub_0_r.
    + now apply oscillator_loop_phase.
  - rewrite (process_capture ctx input Hfin Hch).
    cbn [cb_ctx cb_output current_bin oscillator_phase].
    destruct (change_pending_false ctx Hch) as [_ Hne].
    assert (H0 : fft_in_fill ctx < fft_size) by lia.
    repeat split.
    + rewrite oscillator_loop_length. apply length_replicate.
    + intros i Hi. rewrite oscillator_loop_lookup by assumption.
      unfold silence. rewrite length_replicate.
      destruct (decide _) as [_|Hn]; [|lia]. now rewrite Nat.sub_0_r.
    + now apply oscillator_loop_phase.
Qed.

Lemma phase_iter_normalized (b : Z) (p : float) (n : nat) :
  0 <= b < 2 ^ 23 -> normalized_phase p ->
  normalized_phase (Nat.iter n (phase_step (phase_of b)) p).
Proof.
  intros Hb Hp. induction n as [|n IH]; [exact Hp|].
  rewrite Nat.iter_succ. destruct IH as (k & Hk & ->).
  exists ((k + b) mod fft_size). split.
  - apply Z.mod_pos_bound. reflexivity.
  - now apply phase_step_phase_of.
Qed.

Lemma normalized_phase_bounds (p : float) :
  normalized_phase p ->
  F32.leb F32.zero p = true /\ F32.ltb p (F32.of_Z 1) = true.
Proof.
  intros (k & Hk & ->). unfold fft_size in Hk.
  destruct (Z.eq_dec k 0) as [->|Hne]; [split; reflexivity|].
  rewrite phase_of_canon by lia. split; [reflexivity|].
  pose proof (Zdigits2_le k 11 ltac:(lia)) as Hd.
  pose proof (Zdigits2_pos k ltac:(lia)) as Hd0.
  pose proof (canon_mantissa 24 k ltac:(lia) ltac:(lia)) as Hm.
  unfold canonical_float. change (F32.of_Z 1) with (S754_finite false 8388608 (-23)).
  unfold F32.ltb.
  apply (SFltb_finite 24 ltac:(lia) _ _ _ _ (- 35)); try lia.
  - apply Zdigits2_unique. rewrite Z2Pos.id by lia. exact Hm.
  - reflexivity.
  - rewrite Z2Pos.id by lia.
    replace (- 11 - (24 - Zdigits2 k) - - 35) with (Zdigits2 k) by lia.
    rewrite <- Z.mul_assoc, <- Z.pow_add_r by lia.
    replace (24 - Zdigits2 k + Zdigits2 k) with 24 by lia.
    change (Z.pos 8388608 * 2 ^ (-23 - -35)) with (2048 * 2 ^ 24). lia.
Qed.

(** On the grid, [(int)phase] is [floor(phase)]: the update is
    [phase += freq; phase -= floor(phase)]. *)
Lemma phase_step_floor (b : Z) (p : float) :
  0 <= b < 2 ^ 23 -> normalized_phase p ->
  phase_step (phase_of b) p
  = let q := F32.add p (phase_of b) in F32.sub q (F32.of_Z (floor q)).
Proof.
  intros Hb (k & Hk & ->). unfold fft_size in Hk. unfold phase_step.
  cbv zeta. rewrite F32_add_phase_of by lia.
  now rewrite to_int_floor by (apply phase_of_nonneg; lia).
Qed.

(** C7.  In a call that gets past the gate, the output samples are
    [sin(phase)] of the successive phases, for the bin the call excites
    (the current bin, or the next one from phase 0 when the call changes
    bin).  The frequency is exactly [bin / N], each sample is followed by
    [phase += bin / N; phase -= floor(phase)], and a phase that starts
    normalized (on the grid [k / N], [0 <= k < N]) is normalized after every
    sample: [0 <= phase < 1]. *)
Theorem oscillator_phase_accumulator (ctx : Measure_Context)
    (input : list float) :
  current_bin ctx <> fft_nbins ->
  fft_in_fill ctx <= fft_size ->
  (change_pending ctx = true ->
   silence_frames_needed ctx <= silence_loop (silence_frames_count ctx) input) ->
  let r := process true ctx input in
  let bin := current_bin (cb_ctx r) in
  let p0 := if change_pending ctx then F32.zero else oscillator_phase ctx in
  let freq := oscillator_freq bin in
  let phase_at i := Nat.iter i (phase_step freq) p0 in
  (forall i, (i < length input)%nat ->
     cb_output r !! i = Some (sinf (phase_at i))) /\
  oscillator_phase (cb_ctx r) = phase_at (length input) /\
  (0 <= bin <= fft_nbins -> normalized_phase p0 ->
   freq = phase_of bin /\
   forall i,
     phase_at (S i)
     = (let q := F32.add (phase_at i) freq in F32.sub q (F32.of_Z (floor q))) /\
     normalized_phase (phase_at i) /\
     F32.leb F32.zero (phase_at i) = true /\
     F32.ltb (phase_at i) (F32.of_Z 1) = true).
Proof.
  intros Hfin Hfill Hopen r bin p0 freq phase_at.
  destruct (excitation ctx input Hfin Hfill Hopen) as (Hbin & _ & Hout & Hph).
  fold r in Hbin, Hout, Hph. rewrite <- Hbin in Hout, Hph.
  split; [exact Hout|]. split; [exact Hph|].
  intros Hb Hp0.
  assert (Hb' : 0 <= bin < 2 ^ 23)
    by (assert (fft_nbins = 1025) by reflexivity; lia).
  assert (Hfreq : freq = phase_of bin) by (apply oscillator_freq_exact; lia).
  split; [exact Hfreq|]. intros i.
  assert (Hn : normalized_phase (phase_at i)).
  { unfold phase_at. rewrite Hfreq. now apply phase_iter_normalized. }
  split; [|split; [exact Hn|now apply normalized_phase_bounds]].
  unfold phase_at at 1. rewrite Nat.iter_succ. fold (phase_at i).
  rewrite Hfreq. now apply phase_step_floor.
Qed.

(** * The transform *)

Lemma apply_window_length (buf : list float) :
  length (apply_window cos buf) = length buf.
Proof. unfold apply_window. apply window_loop_length. Qed.

Lemma apply_window_lookup (buf : list float) (j : nat) :
  apply_window cos buf !! j
  = if decide (j < Z.to_nat fft_size)%nat
    then window_sample cos (Z.of_nat j) <$> buf !! j
    else buf !! j.
Proof.
  unfold apply_window. change 0 with (Z.of_nat 0).
  rewrite window_loop_lookup.
  destruct (decide (0 <= j < 0 + Z.to_nat fft_size)%nat);
    destruct (decide (j < Z.to_nat fft_size)%nat); try lia; reflexivity.
Qed.

Lemma fftwf_execute_length (buf : list float) :
  length (fftwf_execute transform buf) = Z.to_nat fft_nbins.
Proof. unfold fftwf_execute. now rewrite length_map, length_seq. Qed.

Lemma fftwf_execute_lookup (buf : list float) (k : nat) :
  (k < Z.to_nat fft_nbins)%nat ->
  fftwf_execute transform buf !! k = Some (transform buf (Z.of_nat k)).
Proof.
  intros Hk. unfold fftwf_execute.
  rewrite list_lookup_fmap, lookup_seq_lt by assumption. reflexivity.
Qed.

Lemma transform_due_pending (ctx : Measure_Context) :
  transform_due ctx = true ->
  change_pending ctx = true /\ current_bin ctx <> no_bin
  /\ fft_in_fill ctx = fft_size.
Proof.
  unfold transform_due, change_pending. intros H.
  apply andb_true_iff in H as [H1 H2]. rewrite H2, orb_true_r.
  apply negb_true_iff, Z.eqb_neq in H1. apply Z.eqb_eq in H2. auto.
Qed.

(** The fields of the context that lines 61-69 write. *)
Lemma process_transform (ctx : Measure_Context) (input : list float) :
  current_bin ctx <> fft_nbins ->
  let r := process true ctx input in
  fft_in (cb_ctx r) = (if change_pending ctx then fft_in (after_transform ctx)
                       else fst (record_loop (fft_in ctx) (fft_in_fill ctx) input)) /\
  fft_out (cb_ctx r) = fft_out (after_transform ctx) /\
  response (cb_ctx r) = response (after_transform ctx) /\
  cb_stored r = if transform_due ctx then Some (current_bin ctx) else None.
Proof.
  intros Hfin r. subst r.
  destruct (change_pending ctx) eqn:Hch.
  - destruct (Z.lt_ge_cases (silence_loop (silence_frames_count ctx) input)
                (silence_frames_needed ctx)) as [Hgate|Hgate].
    + rewrite (process_gated ctx input Hfin Hch Hgate).
      cbn [cb_ctx cb_stored]. now destruct (transform_due ctx).
    + rewrite (process_advance ctx input Hfin Hch Hgate).
      cbn [cb_ctx cb_stored fft_in fft_out response]. auto.
  - rewrite (process_capture ctx input Hfin Hch).
    cbn [cb_ctx cb_stored fft_in fft_out response].
    assert (Hdue : transform_due ctx = false).
    { destruct (transform_due ctx) eqn:Hdue; [|reflexivity].
      apply transform_due_pending in Hdue as [Hp _]. congruence. }
    rewrite Hdue. auto.
Qed.

(** C8.  Whenever a call runs the transform (a bin is selected and its
    capture buffer holds [fft_size] samples), the plan is executed on the
    windowed buffer: every sample [i] from 0 to [fft_size - 1] has first
    been multiplied in place by
    [0.42 - 0.5 cos(2 pi i / (N - 1)) + 0.08 cos(4 pi i / (N - 1))],
    the other cells of the array are untouched, and the stored response is
    the coefficient of the current bin in that transform.  The formula is
    evaluated in [double] in the order line 65 writes it, with
    [k = i / (double)(N - 1)], and the product with the sample is rounded
    to [float]; its constants are the doubles nearest 0.42, 0.5 and 0.08,
    [N - 1] = 2047, and [M_PI], which is pi to 14 decimal places. *)
Theorem window_before_transform (ctx : Measure_Context) (input : list float) :
  current_bin ctx <> fft_nbins ->
  transform_due ctx = true ->
  let r := process true ctx input in
  let w := apply_window cos (fft_in ctx) in
  fft_in (cb_ctx r) = w /\
  fft_out (cb_ctx r) = fftwf_execute transform w /\
  length w = length (fft_in ctx) /\
  (forall (i : nat) (x : float),
     (i < Z.to_nat fft_size)%nat -> fft_in ctx !! i = Some x ->
     let k := F64.div (F64.of_Z (Z.of_nat i)) (F64.of_Z (fft_size - 1)) in
     let coefficient :=
       F64.add
         (F64.sub (F64.literal 42 100)
            (F64.mul (F64.literal 5 10)
               (cos (F64.mul (F64.mul (F64.of_Z 2) M_PI) k))))
         (F64.mul (F64.literal 8 100)
            (cos (F64.mul (F64.mul (F64.of_Z 4) M_PI) k))) in
     w !! i = Some (F64.to_float (F64.mul (F64.of_float x) coefficient))) /\
  (forall i : nat,
     (Z.to_nat fft_size <= i)%nat -> w !! i = fft_in ctx !! i) /\
  cb_stored r = Some (current_bin ctx) /\
  (0 <= current_bin ctx < fft_nbins ->
   (Z.to_nat (current_bin ctx) < length (response ctx))%nat ->
   response (cb_ctx r) !! Z.to_nat (current_bin ctx)
   = Some (transform w (current_bin ctx))) /\
  (F64.literal 42 100 = S754_finite false 7566047373982433 (- 54) /\
   F64.literal 5 10 = S754_finite false 4503599627370496 (- 53) /\
   F64.literal 8 100 = S754_finite false 5764607523034235 (- 56) /\
   F64.of_Z (fft_size - 1) = S754_finite false 9002801208229888 (- 42) /\
   9002801208229888 = 2047 * 2 ^ 42 /\
   M_PI = S754_finite false 7074237752028440 (- 51) /\
   314159265358979 * 2 ^ 51 < 7074237752028440 * 10 ^ 14
   < 314159265358980 * 2 ^ 51).
Proof.
  intros Hfin Hdue r w.
  destruct (process_transform ctx input Hfin) as (Hin & Hout & Hresp & Hst).
  fold r in Hin, Hout, Hresp, Hst.
  destruct (transform_due_pending ctx Hdue) as (Hch & _ & _).
  rewrite Hch in Hin. rewrite Hdue in Hin, Hout, Hresp, Hst.
  split; [exact Hin|]. split; [exact Hout|].
  split; [apply apply_window_length|].
  split; [|split; [|split; [exact Hst|split]]].
  - intros i x Hi Hx k coefficient. unfold w.
    rewrite apply_window_lookup, Hx.
    destruct (decide _); [reflexivity|lia].
  - intros i Hi. unfold w. rewrite apply_window_lookup.
    destruct (decide _); [lia|reflexivity].
  - intros Hbin Hlen. rewrite Hresp.
    unfold_store_response. cbn [response with_transform].
    fold w. rewrite fftwf_execute_lookup by lia.
    rewrite list_lookup_insert_eq by assumption.
    now rewrite Z2Nat.id by lia.
  - split; [reflexivity|]. split; [reflexivity|]. split; [reflexivity|].
    split; [reflexivity|]. split; [reflexivity|]. split; [reflexivity|].
    lia.
Qed.

(** * What a bin change does to the capture *)

Lemma bin_change_inv (ctx : Measure_Context) (input : list float) :
  current_bin (cb_ctx (process true ctx input)) <> current_bin ctx ->
  current_bin ctx <> fft_nbins /\ change_pending ctx = true /\
  silence_frames_needed ctx <= silence_loop (silence_frames_count ctx) input.
Proof.
  rewrite process_bin. intros H.
  destruct (Z.eqb_spec (current_bin ctx) fft_nbins) as [|Hfin];
    [now contradiction H|].
  destruct (change_pending ctx); [|now contradiction H].
  destruct (Z.leb_spec (silence_frames_needed ctx)
              (silence_loop (silence_frames_count ctx) input));
    [auto|now contradiction H].
Qed.

(** The capture of the call after a bin change: it starts at cell 0. *)
Lemma first_capture (ctx : Measure_Context) (input : list float) :
  0 <= current_bin ctx < fft_nbins ->
  fft_in_fill ctx = 0 ->
  length (fft_in ctx) = Z.to_nat fft_size ->
  let r := process true ctx input in
  current_bin (cb_ctx r) = current_bin ctx /\
  fft_in_fill (cb_ctx r) = Z.min (Z.of_nat (length input)) fft_size /\
  (forall i, (i < length input)%nat -> (i < Z.to_nat fft_size)%nat ->
     fft_in (cb_ctx r) !! i = input !! i).
Proof.
  intros Hbin Hfill Hlen r. subst r.
  assert (HN : fft_nbins = 1025) by reflexivity.
  assert (HS : fft_size = 2048) by reflexivity.
  assert (Hch : change_pending ctx = false).
  { unfold change_pending. rewrite Hfill.
    destruct (Z.eqb_spec (current_bin ctx) no_bin) as [E|]; [|reflexivity].
    unfold no_bin in E. lia. }
  rewrite (process_capture ctx input ltac:(lia) Hch).
  cbn [cb_ctx current_bin fft_in_fill fft_in]. rewrite Hfill.
  repeat split.
  - rewrite record_loop_fill by lia. lia.
  - intros i Hi HiN. change 0 with (Z.of_nat 0).
    rewrite record_loop_lookup by (cbn; lia).
    destruct (decide _) as [_|Hn]; [now rewrite Nat.sub_0_r|lia].
Qed.

(** C10.  In a call that moves the bin index (from the no-bin value to bin
    0, or from a bin to the next), none of the call's input samples reaches
    the capture buffer: the fill count is left at 0 and the buffer holds
    what the transform step left, whatever the input.  The tone of the new
    bin starts in the same call, from phase 0, over the whole output buffer.
    The capture of the new bin starts with the next call, at cell 0. *)
Theorem bin_change_skips_capture (ctx : Measure_Context)
    (input next_input : list float) :
  let r := process true ctx input in
  current_bin (cb_ctx r) <> current_bin ctx ->
  current_bin (cb_ctx r) = incr32 (current_bin ctx) /\
  fft_in_fill (cb_ctx r) = 0 /\
  fft_in (cb_ctx r)
  = (if transform_due ctx then apply_window cos (fft_in ctx) else fft_in ctx) /\
  length (cb_output r) = length input /\
  (forall i, (i < length input)%nat ->
     cb_output r !! i
     = Some (sinf (Nat.iter i
                     (phase_step (oscillator_freq (current_bin (cb_ctx r))))
                     F32.zero))) /\
  (0 <= current_bin (cb_ctx r) < fft_nbins ->
   length (fft_in ctx) = Z.to_nat fft_size ->
   let r' := process true (cb_ctx r) next_input in
   current_bin (cb_ctx r') = current_bin (cb_ctx r) /\
   fft_in_fill (cb_ctx r') = Z.min (Z.of_nat (length next_input)) fft_size /\
   (forall i, (i < length next_input)%nat -> (i < Z.to_nat fft_size)%nat ->
      fft_in (cb_ctx r') !! i = next_input !! i)).
Proof.
  intros r Hmove. destruct (bin_change_inv ctx input Hmove) as (Hfin & Hch & Hgate).
  assert (E : r = process true ctx input) by reflexivity.
  rewrite (process_advance ctx input Hfin Hch Hgate) in E.
  assert (Hfill : fft_in_fill (cb_ctx r) = 0) by now rewrite E.
  assert (Hin : fft_in (cb_ctx r) = fft_in (after_transform ctx)) by now rewrite E.
  split; [now rewrite E|]. split; [exact Hfill|]. split.
  { rewrite Hin. now destruct (transform_due ctx). }
  assert (H0 : 0 < fft_size) by reflexivity.
  split; [|split].
  - rewrite E. cbn [cb_output]. rewrite oscillator_loop_length.
    apply length_replicate.
  - intros i Hi. rewrite E. cbn [cb_output cb_ctx current_bin].
    rewrite oscillator_loop_lookup by assumption.
    unfold silence. rewrite length_replicate.
    destruct (decide _) as [_|Hn]; [|lia]. now rewrite Nat.sub_0_r.
  - intros Hbin Hlen. apply first_capture; [assumption|assumption|].
    rewrite Hin. destruct (transform_due ctx); [|assumption].
    unfold_store_response. cbn [fft_in with_transform].
    now rewrite apply_window_length.
Qed.

(** * Splitting a buffer *)

Lemma silence_length (input : list float) :
  length (silence input) = length input.
Proof. apply length_replicate. Qed.

Lemma oscillator_loop_split (fill : Z) (freq p : float) (a b : list float) :
  fill < fft_size ->
  let o1 := oscillator_loop sinf fill freq (length a) 0 p (silence a) in
  let o2 := oscillator_loop sinf fill freq (length b) 0 (fst o1) (silence b) in
  let o := oscillator_loop sinf fill freq (length (a ++ b)) 0 p
             (silence (a ++ b)) in
  fst o2 = fst o /\ snd o1 ++ snd o2 = snd o.
Proof.
  intros Hfill o1 o2 o. subst o1 o2 o. split.
  - rewrite !oscillator_loop_phase by assumption.
    rewrite length_app, Nat.add_comm. now rewrite Nat.iter_add.
  - apply list_eq. intros j.
    rewrite (oscillator_loop_lookup _ _ _ (length (a ++ b))) by assumption.
    rewrite silence_length, length_app.
    destruct (Nat.lt_ge_cases j (length a)) as [Hj|Hj].
    + rewrite lookup_app_l
        by (rewrite oscillator_loop_length, silence_length; exact Hj).
      rewrite oscillator_loop_lookup by assumption.
      rewrite silence_length.
      destruct (decide _) as [_|Hn]; [|lia].
      destruct (decide _) as [_|Hn]; [reflexivity|lia].
    + rewrite lookup_app_r
        by (rewrite oscillator_loop_length, silence_length; exact Hj).
      rewrite oscillator_loop_length, silence_length.
      rewrite oscillator_loop_lookup by assumption.
      rewrite oscillator_loop_phase by assumption.
      rewrite silence_length.
      destruct (decide (0 <= j - length a < 0 + length b
                        /\ j - length a < length b)%nat) as [H1|H1];
        destruct (decide (0 <= j < 0 + (length a + length b)
                          /\ j < length a + length b)%nat) as [H2|H2]; try lia.
      * rewrite <- Nat.iter_add. do 3 f_equal. lia.
      * rewrite !lookup_ge_None_2
          by (rewrite silence_length, ?length_app; lia).
        reflexivity.
Qed.

Lemma split_in_capture (ctx : Measure_Context) (a b : list float) :
  0 <= current_bin ctx < fft_nbins ->
  0 <= fft_in_fill ctx ->
  fft_in_fill ctx + Z.of_nat (length a) < fft_size ->
  let r1 := process true ctx a in
  let r2 := process true (cb_ctx r1) b in
  let r := process true ctx (a ++ b) in
  cb_ctx r2 = cb_ctx r /\ cb_output r1 ++ cb_output r2 = cb_output r.
Proof.
  intros Hbin Hfill Hroom r1 r2 r. subst r1 r2 r.
  assert (HN : fft_nbins = 1025) by reflexivity.
  assert (HS : fft_size = 2048) by reflexivity.
  assert (Hnb : current_bin ctx <> no_bin) by (unfold no_bin; lia).
  assert (Hch : change_pending ctx = false).
  { unfold change_pending.
    rewrite (proj2 (Z.eqb_neq _ _) Hnb), (proj2 (Z.eqb_neq (fft_in_fill ctx) _));
      [reflexivity|lia]. }
  rewrite (process_capture ctx a ltac:(lia) Hch).
  rewrite (process_capture ctx (a ++ b) ltac:(lia) Hch).
  cbn [cb_ctx cb_output].
  set (ctx1 := {| fft_in := _ |}).
  assert (Hfill1 : snd (record_loop (fft_in ctx) (fft_in_fill ctx) a)
                   = fft_in_fill ctx + Z.of_nat (length a)).
  { rewrite record_loop_fill by lia. lia. }
  assert (Hch1 : change_pending ctx1 = false).
  { unfold change_pending, ctx1. cbn [current_bin fft_in_fill]. rewrite Hfill1.
    rewrite (proj2 (Z.eqb_neq _ _) Hnb), (proj2 (Z.eqb_neq _ fft_size));
      [reflexivity|lia]. }
  rewrite (process_capture ctx1 b ltac:(unfold ctx1; cbn [current_bin]; lia) Hch1).
  cbn [cb_ctx cb_output]. subst ctx1.
  cbn [fft_in fft_out current_bin fft_in_fill oscillator_phase response
       silence_frames_count silence_frames_needed].
  destruct (oscillator_loop_split (fft_in_fill ctx)
              (oscillator_freq (current_bin ctx)) (oscillator_phase ctx) a b
              ltac:(lia)) as [Hph Hout].
  assert (Hosc : forall n p out,
             oscillator_loop sinf
               (snd (record_loop (fft_in ctx) (fft_in_fill ctx) a))
               (oscillator_freq (current_bin ctx)) n 0 p out
             = oscillator_loop sinf (fft_in_fill ctx)
                 (oscillator_freq (current_bin ctx)) n 0 p out).
  { rewrite Hfill1. intros n. generalize 0%nat.
    induction n as [|n IH]; intros i p out; [reflexivity|].
    cbn [oscillator_loop].
    destruct (Z.ltb_spec (fft_in_fill ctx + Z.of_nat (length a)) fft_size);
      [|lia].
    destruct (Z.ltb_spec (fft_in_fill ctx) fft_size); [|lia]. apply IH. }
  rewrite Hosc. split; [|exact Hout].
  rewrite Hph, <- record_loop_app, <- silence_loop_app. reflexivity.
Qed.

(** C1, as the code has it.  Inside the capture of one bin the callback does
    not depend on how the stream is cut: when a bin is selected and the
    capture is still incomplete after the first part, running the callback
    on the two parts of a buffer in turn leaves the same context (capture
    buffer, fill count, phase, silence counter, response table) and the same
    output samples as running it once on the whole buffer.  The silence
    counter after a stream is the same for every way of cutting the stream
    into buffers. *)
Theorem chunking_inside_capture (ctx : Measure_Context) (a b : list float)
    (buffers buffers' : list (list float)) :
  (0 <= current_bin ctx < fft_nbins ->
   0 <= fft_in_fill ctx ->
   fft_in_fill ctx + Z.of_nat (length a) < fft_size ->
   let r1 := process true ctx a in
   let r2 := process true (cb_ctx r1) b in
   let r := process true ctx (a ++ b) in
   cb_ctx r2 = cb_ctx r /\ cb_output r1 ++ cb_output r2 = cb_output r) /\
  (concat buffers = concat buffers' ->
   silence_frames_count (run true ctx buffers)
   = silence_frames_count (run true ctx buffers')).
Proof.
  split.
  - apply split_in_capture.
  - intros E. now rewrite !run_count, E.
Qed.

(** * Waiting for silence with a full capture buffer *)

(** A call that finds the capture complete and the gate closed runs the
    transform and stores the response, and leaves the capture complete: the
    next call is in the same position. *)
Lemma waiting_call (ctx : Measure_Context) (input : list float) :
  0 <= current_bin ctx < fft_nbins ->
  fft_in_fill ctx = fft_size ->
  silence_loop (silence_frames_count ctx) input < silence_frames_needed ctx ->
  process true ctx input
  = {| cb_ctx := with_silence_frames_count (store_response ctx)
                   (silence_loop (silence_frames_count ctx) input);
       cb_output := silence input;
       cb_finished := false;
       cb_stored := Some (current_bin ctx) |}.
Proof.
  intros Hbin Hfill Hgate.
  assert (HN : fft_nbins = 1025) by reflexivity.
  assert (Hdue : transform_due ctx = true).
  { unfold transform_due. rewrite Hfill, Z.eqb_refl, andb_true_r.
    apply negb_true_iff, Z.eqb_neq. unfold no_bin. lia. }
  destruct (transform_due_pending ctx Hdue) as (Hch & _ & _).
  rewrite (process_gated ctx input ltac:(lia) Hch Hgate). now rewrite Hdue.
Qed.

Lemma store_response_slot (ctx : Measure_Context) :
  0 <= current_bin ctx < fft_nbins ->
  (Z.to_nat (current_bin ctx) < length (response ctx))%nat ->
  response (store_response ctx) !! Z.to_nat (current_bin ctx)
  = Some (transform (apply_window cos (fft_in ctx)) (current_bin ctx)).
Proof.
  intros Hbin Hlen. unfold_store_response. cbn [response with_transform].
  rewrite fftwf_execute_lookup by lia.
  rewrite list_lookup_insert_eq by assumption.
  now rewrite Z2Nat.id by lia.
Qed.

Lemma store_response_length (ctx : Measure_Context) :
  length (response (store_response ctx)) = length (response ctx).
Proof.
  unfold_store_response. cbn [response with_transform].
  destruct (_ !! _); [apply length_insert|reflexivity].
Qed.

(** Two calls in a row that find the capture complete and the gate closed:
    each stores into the slot of the current bin, the second from the
    capture windowed twice. *)
Lemma waiting_twice (ctx : Measure_Context) (a b : list float) :
  0 <= current_bin ctx < fft_nbins ->
  fft_in_fill ctx = fft_size ->
  (Z.to_nat (current_bin ctx) < length (response ctx))%nat ->
  silence_loop (silence_frames_count ctx) a < silence_frames_needed ctx ->
  silence_loop (silence_loop (silence_frames_count ctx) a) b
  < silence_frames_needed ctx ->
  stores true ctx [a; b] = [current_bin ctx; current_bin ctx] /\
  response (run true ctx [a]) !! Z.to_nat (current_bin ctx)
  = Some (transform (apply_window cos (fft_in ctx)) (current_bin ctx)) /\
  response (run true ctx [a; b]) !! Z.to_nat (current_bin ctx)
  = Some (transform (apply_window cos (apply_window cos (fft_in ctx)))
            (current_bin ctx)).
Proof.
  intros Hbin Hfill Hlen Ha Hb.
  pose proof (waiting_call ctx a Hbin Hfill Ha) as E1.
  set (ctx' := with_silence_frames_count (store_response ctx)
                 (silence_loop (silence_frames_count ctx) a)) in E1.
  assert (E2 : process true ctx' b
               = {| cb_ctx := with_silence_frames_count (store_response ctx')
                                (silence_loop (silence_frames_count ctx') b);
                    cb_output := silence b; cb_finished := false;
                    cb_stored := Some (current_bin ctx) |}).
  { apply (waiting_call ctx' b); assumption. }
  split; [|split].
  - cbn [stores]. rewrite E1. cbn [cb_stored cb_ctx].
    rewrite E2. reflexivity.
  - unfold_run. cbn [fold_left]. rewrite E1. cbn [cb_ctx].
    unfold ctx'. cbn [response with_silence_frames_count].
    now apply store_response_slot.
  - unfold_run. cbn [fold_left]. rewrite E1. cbn [cb_ctx]. rewrite E2.
    cbn [cb_ctx response with_silence_frames_count].
    apply (store_response_slot ctx'); [assumption|].
    unfold ctx'. cbn [response with_silence_frames_count].
    now rewrite store_response_length.
Qed.

(** The context after the silence that starts bin 0 and one buffer of
    [fft_size] loud samples: the capture of bin 0 is complete, and nothing
    has been stored yet. *)
Lemma capture_of_bin_0_complete :
  let buffers :=
    [Example.buffer 1024 F32.zero; Example.buffer fft_size Example.loud_sample] in
  run true Example.start buffers
  = {| fft_in := Example.buffer fft_size Example.loud_sample;
       fft_out := replicate (Z.to_nat fft_nbins) czero;
       current_bin := 0; fft_in_fill := fft_size;
       oscillator_phase := F32.zero;
       response := replicate (Z.to_nat fft_nbins) czero;
       silence_frames_count := 0; silence_frames_needed := 480 |} /\
  stores true Example.start buffers = [].
Proof. vm_compute. split; reflexivity. Qed.

(** C2, at an input on which the code departs from the claim.  At 48 kHz:
    1024 quiet frames select bin 0, a buffer of 2048 loud frames completes
    its capture, and the input stays loud for two more calls of one frame.
    Both of these calls store into [response[0]]: the first stores the
    coefficient of the windowed capture, the second windows the buffer
    again and stores the coefficient of the twice-windowed capture over
    it. *)
Theorem response_slot_stored_on_every_wait :
  let tone := Example.buffer fft_size Example.loud_sample in
  let loud_frame := [Example.loud_sample] in
  let buffers := [Example.buffer 1024 F32.zero; tone] in
  stores true Example.start (buffers ++ [loud_frame; loud_frame]) = [0; 0] /\
  response (run true Example.start (buffers ++ [loud_frame])) !! 0%nat
  = Some (transform (apply_window cos tone) 0) /\
  response (run true Example.start (buffers ++ [loud_frame; loud_frame])) !! 0%nat
  = Some (transform (apply_window cos (apply_window cos tone)) 0).
Proof.
  intros tone loud_frame buffers.
  destruct capture_of_bin_0_complete as [Hfull Hnone].
  fold tone buffers in Hfull, Hnone.
  set (full := {| fft_in := tone |}) in Hfull.
  assert (HN : fft_nbins = 1025) by reflexivity.
  assert (Hlen : length (response full) = Z.to_nat fft_nbins)
    by apply length_replicate.
  assert (Hb : current_bin full = 0) by reflexivity.
  assert (Hin : fft_in full = tone) by reflexivity.
  destruct (waiting_twice full loud_frame loud_frame) as (Hs & H1 & H2).
  - rewrite Hb. lia.
  - reflexivity.
  - rewrite Hb, Hlen. lia.
  - reflexivity.
  - reflexivity.
  - rewrite Hb in Hs, H1, H2. rewrite Hin in H1, H2.
    change (Z.to_nat 0) with 0%nat in H1, H2.
    split; [|split].
    + rewrite stores_app, Hnone, Hfull, app_nil_l. exact Hs.
    + rewrite run_app, Hfull. exact H1.
    + rewrite run_app, Hfull. exact H2.
Qed.

End Callback_cases.

(** * The report *)

Section Report_file.
Variable cabs : cfloat -> float.
Variable carg : cfloat -> float.

Lemma report_loop_lines (fs : float) (resp : list cfloat) (n : nat) (i : Z)
    (file : list Line) :
  report_loop cabs carg fs resp n i file
  = file ++ (report_line cabs carg fs resp <$> seqZ i (Z.of_nat n)).
Proof.
  revert i file. induction n as [|n IH]; intros i file.
  - cbn [report_loop]. now rewrite app_nil_r.
  - cbn [report_loop]. rewrite IH, <- app_assoc. f_equal.
    rewrite (seqZ_cons i (Z.of_nat (S n))) by lia. cbn [fmap list_fmap app].
    do 3 f_equal; lia.
Qed.

Lemma report_lookup (rate : Z) (resp : list cfloat) (i : nat) :
  (i < Z.to_nat fft_nbins)%nat ->
  report cabs carg rate resp !! i
  = Some (report_line cabs carg (F32.of_Z rate) resp (Z.of_nat i)).
Proof.
  intros Hi. unfold report. rewrite report_loop_lines. cbn [app].
  rewrite list_lookup_fmap, lookup_seqZ_lt by lia. reflexivity.
Qed.

Lemma report_length (rate : Z) (resp : list cfloat) :
  length (report cabs carg rate resp) = Z.to_nat fft_nbins.
Proof.
  unfold report. rewrite report_loop_lines. cbn [app].
  rewrite length_fmap, length_seqZ. lia.
Qed.

(** C6.  The file has one line per bin, [fft_nbins] = 1025 in all, in
    increasing bin order; line [i] holds the frequency
    [i * (fs / fft_size)], the amplitude [|response[i]| / fft_size] and the
    phase [arg(response[i])], in this order.  The frequency column is
    strictly increasing, starts at 0 and ends at half the sample rate. *)
Theorem response_file (rate : Z) (resp : list cfloat) :
  0 < rate < 2 ^ 24 ->
  let file := report cabs carg rate resp in
  let fs := F32.of_Z rate in
  length file = 1025%nat /\
  (forall i : nat, (i < 1025)%nat ->
     exists line,
       file !! i = Some line /\
       freq line = F32.mul (F32.of_Z (Z.of_nat i)) (F32.div fs (F32.of_Z fft_size)) /\
       forall c, resp !! i = Some c ->
         amp line = F32.div (cabs c) (F32.of_Z fft_size) /\ phase line = carg c) /\
  (forall (i j : nat) (li lj : Line),
     (i < j)%nat -> file !! i = Some li -> file !! j = Some lj ->
     F32.ltb (freq li) (freq lj) = true) /\
  freq <$> file !! 0%nat = Some F32.zero /\
  freq <$> file !! 1024%nat = Some (F32.mul (F32.literal 5 10) fs) /\
  F32.mul (F32.literal 5 10) fs
  = binary_normalize F32.prec F32.emax rate (- 1) false.
Proof.
  intros Hrate file fs.
  assert (HN : Z.to_nat fft_nbins = 1025%nat) by reflexivity.
  destruct (report_freq_nyquist rate Hrate) as [Hny Hhalf]. fold fs in Hny, Hhalf.
  split; [|split; [|split; [|split; [|split]]]].
  - unfold file. now rewrite report_length.
  - intros i Hi. eexists. split; [apply report_lookup; lia|].
    split; [reflexivity|]. intros c Hc. unfold report_line.
    rewrite Nat2Z.id, Hc. cbn [amp phase default]. auto.
  - intros i j li lj Hij Hli Hlj.
    assert (Hj : (j < 1025)%nat).
    { apply lookup_lt_Some in Hlj. unfold file in Hlj.
      rewrite report_length in Hlj. lia. }
    unfold file in Hli, Hlj.
    rewrite report_lookup in Hli, Hlj by lia.
    injection Hli as <-. injection Hlj as <-.
    cbn [freq report_line]. apply report_freq_increasing; [assumption|lia|lia].
  - unfold file. rewrite report_lookup by lia. cbn [fmap option_fmap option_map].
    cbn [freq report_line]. fold fs. unfold fs.
    rewrite F32_div_fft_size by assumption. reflexivity.
  - unfold file. rewrite report_lookup by lia. cbn [fmap option_fmap option_map].
    cbn [freq report_line]. fold fs. f_equal. exact Hny.
  - exact Hhalf.
Qed.

End Report_file.

(** * The sweep as a whole *)

(** ** The silence counter as a run length *)

Lemma silence_loop_quiet (c : Z) (input : list float) :
  0 <= c < 2 ^ 32 ->
  Forall quiet input ->
  silence_loop c input = (c + Z.of_nat (length input)) mod 2 ^ 32.
Proof.
  intros Hc H. revert c Hc. induction H as [|x rest Hx _ IH]; intros c Hc.
  - cbn [silence_loop fold_left length]. rewrite Z.add_0_r, Z.mod_small; lia.
  - cbn [silence_loop fold_left length]. unfold silence_step at 2.
    rewrite Hx. fold (silence_loop (incr32 c) rest).
    rewrite IH by apply incr32_range.
    unfold incr32. rewrite Zplus_mod_idemp_l. f_equal. lia.
Qed.

(** X1.  Lines 51-53 count the quiet frames that end the stream, modulo
    [2 ^ 32]: over quiet frames only the counter advances by their number,
    and after a loud frame followed by quiet frames it is the number of
    these, whatever came before. *)
Theorem silence_counter_run_length (c : Z) (pre : list float) (x : float)
    (input : list float) :
  0 <= c < 2 ^ 32 ->
  Forall quiet input ->
  silence_loop c input = (c + Z.of_nat (length input)) mod 2 ^ 32 /\
  (loud x ->
   silence_loop c (pre ++ x :: input) = Z.of_nat (length input) mod 2 ^ 32).
Proof.
  intros Hc Hq. split; [now apply silence_loop_quiet|].
  intros Hx. rewrite silence_loop_app. cbn [silence_loop fold_left].
  unfold silence_step at 2. rewrite Hx.
  fold (silence_loop 0 input). now rewrite silence_loop_quiet by (assumption || lia).
Qed.

Section Sweep.
Variable cos : double -> double.
Variable sinf : float -> float.
Variable transform : list float -> Z -> cfloat.

Ltac unfold_store_response := unfold store_response.

#[local] Abbreviation process := (process cos sinf transform).
#[local] Abbreviation run := (run cos sinf transform).
#[local] Abbreviation stores := (stores cos sinf transform).
#[local] Abbreviation store_response := (store_response cos transform).
#[local] Abbreviation after_transform ctx :=
  (if transform_due ctx then store_response ctx else ctx).

Ltac sweep_cases ctx input :=
  let Hfin := fresh "Hfin" in
  let Hch := fresh "Hch" in
  let Hgate := fresh "Hgate" in
  destruct (Z.eq_dec (current_bin ctx) fft_nbins) as [Hfin|Hfin];
  [rewrite (process_finished cos sinf transform ctx input Hfin)
  |destruct (change_pending ctx) eqn:Hch;
   [destruct (Z.lt_ge_cases (silence_loop (silence_frames_count ctx) input)
                (silence_frames_needed ctx)) as [Hgate|Hgate];
    [rewrite (process_gated cos sinf transform ctx input Hfin Hch Hgate)
    |rewrite (process_advance cos sinf transform ctx input Hfin Hch Hgate)]
   |rewrite (process_capture cos sinf transform ctx input Hfin Hch)]].

(** ** The contexts the callback reaches *)

Lemma silence_loop_range (c : Z) (input : list float) :
  0 <= c < 2 ^ 32 -> 0 <= silence_loop c input < 2 ^ 32.
Proof.
  revert c. induction input as [|x rest IH]; intros c Hc; [exact Hc|].
  apply IH. unfold silence_step. destruct (is_silent x); [apply incr32_range|lia].
Qed.

Lemma after_transform_phase (ctx : Measure_Context) :
  oscillator_phase (after_transform ctx) = oscillator_phase ctx.
Proof. now destruct (transform_due ctx). Qed.

Lemma after_transform_fft_in_length (ctx : Measure_Context) :
  length (fft_in (after_transform ctx)) = length (fft_in ctx).
Proof.
  destruct (transform_due ctx); [|reflexivity].
  change (fft_in (store_response ctx)) with (apply_window cos (fft_in ctx)).
  apply apply_window_length.
Qed.

Lemma after_transform_response_length (ctx : Measure_Context) :
  length (response (after_transform ctx)) = length (response ctx).
Proof.
  destruct (transform_due ctx); [|reflexivity].
  apply store_response_length.
Qed.

Lemma fresh_phase_normalized : normalized_phase F32.zero.
Proof. exists 0. split; [unfold fft_size; lia|reflexivity]. Qed.

Lemma process_well_formed (started : bool) (ctx : Measure_Context)
    (input : list float) :
  well_formed ctx -> well_formed (cb_ctx (process started ctx input)).
Proof.
  intros Hwf. destruct started; [|exact Hwf].
  assert (HN : fft_nbins = 1025) by reflexivity.
  assert (HS : fft_size = 2048) by reflexivity.
  destruct Hwf as (Hb & Hf & Hin & Hresp & Hc & Hp).
  pose proof (silence_loop_range (silence_frames_count ctx) input Hc) as Hcount.
  unfold well_formed.
  sweep_cases ctx input; cbn [cb_ctx].
  - cbn [current_bin fft_in_fill fft_in response silence_frames_count
         oscillator_phase with_silence_frames_count].
    split; [|split; [|split; [|split; [|split]]]]; assumption.
  - cbn [current_bin fft_in_fill fft_in response silence_frames_count
         oscillator_phase with_silence_frames_count].
    rewrite after_transform_bin, after_transform_fill, after_transform_phase,
      after_transform_fft_in_length, after_transform_response_length.
    split; [|split; [|split; [|split; [|split]]]]; assumption.
  - cbn [current_bin fft_in_fill fft_in response silence_frames_count
         oscillator_phase].
    rewrite after_transform_fft_in_length, after_transform_response_length.
    assert (Hb' : 0 <= incr32 (current_bin ctx) <= fft_nbins).
    { destruct Hb as [->|Hb]; [vm_compute; split; discriminate|].
      rewrite incr32_small by lia. lia. }
    split; [|split; [|split; [|split; [|split]]]];
      [right; exact Hb'|lia|assumption|assumption|assumption|].
    rewrite oscillator_loop_phase by lia.
    rewrite oscillator_freq_exact by lia.
    apply phase_iter_normalized; [lia|apply fresh_phase_normalized].
  - cbn [current_bin fft_in_fill fft_in response silence_frames_count
         oscillator_phase].
    destruct (change_pending_false ctx Hch) as [Hnb Hnf].
    destruct Hb as [Hb|Hb]; [contradiction|].
    rewrite record_loop_length, record_loop_fill by assumption.
    split; [|split; [|split; [|split; [|split]]]];
      [right; exact Hb|lia|assumption|assumption|assumption|].
    rewrite oscillator_loop_phase by lia.
    rewrite oscillator_freq_exact by lia.
    now apply phase_iter_normalized; [lia|].
Qed.

Lemma run_well_formed (started : bool) (ctx : Measure_Context)
    (buffers : list (list float)) :
  well_formed ctx -> well_formed (run started ctx buffers).
Proof.
  revert ctx. induction buffers as [|b rest IH]; intros ctx Hwf; [exact Hwf|].
  rewrite run_cons. now apply IH, process_well_formed.
Qed.

Lemma initial_context_well_formed (mem_in : list float) (mem_out : list cfloat)
    (rate : Z) :
  length mem_in = Z.to_nat fft_size ->
  well_formed (initial_context mem_in mem_out rate).
Proof.
  intros Hlen. unfold well_formed, initial_context.
  cbn [current_bin fft_in_fill fft_in response silence_frames_count
       oscillator_phase].
  split; [|split; [|split; [|split; [|split]]]].
  - now left.
  - unfold fft_size. lia.
  - exact Hlen.
  - apply length_replicate.
  - lia.
  - apply fresh_phase_normalized.
Qed.

(** X2.  Every context the callbacks reach from the one [main] sets up is
    well formed: the bin index is [~0u] or at most [fft_nbins], the fill
    count is at most [fft_size], the capture buffer and the response table
    keep their allocated sizes, and the phase stays in [0, 1) on the grid
    of multiples of [1 / fft_size]. *)
Theorem reachable_contexts_well_formed (mem_in : list float)
    (mem_out : list cfloat) (rate : Z) (started : bool)
    (buffers : list (list float)) :
  length mem_in = Z.to_nat fft_size ->
  well_formed (run started (initial_context mem_in mem_out rate) buffers).
Proof.
  intros Hlen. now apply run_well_formed, initial_context_well_formed.
Qed.

(** ** The bin index only moves forward *)

Lemma bins_begun_no_bin (ctx : Measure_Context) :
  current_bin ctx = no_bin -> bins_begun ctx = 0.
Proof. intros H. unfold bins_begun, progress. now rewrite H. Qed.

Lemma bins_begun_bin (ctx : Measure_Context) :
  0 <= current_bin ctx <= fft_nbins -> bins_begun ctx = current_bin ctx + 1.
Proof.
  intros H. assert (HN : fft_nbins = 1025) by reflexivity.
  unfold bins_begun, progress.
  destruct (Z.eqb_spec (current_bin ctx) no_bin) as [E|_].
  - unfold no_bin in E. lia.
  - apply incr32_small. unfold fft_size. lia.
Qed.

Lemma process_bins_begun (started : bool) (ctx : Measure_Context)
    (input : list float) :
  well_formed ctx ->
  bins_begun ctx <= bins_begun (cb_ctx (process started ctx input))
                 <= bins_begun ctx + 1.
Proof.
  intros Hwf. destruct started;
    [|rewrite process_not_started; cbn [cb_ctx]; lia].
  assert (HN : fft_nbins = 1025) by reflexivity.
  pose proof (process_well_formed true ctx input Hwf) as (Hb' & _).
  destruct Hwf as (Hb & _).
  pose proof (process_bin cos sinf transform ctx input) as E.
  destruct (negb (current_bin ctx =? fft_nbins) && change_pending ctx
            && (silence_frames_needed ctx
                <=? silence_loop (silence_frames_count ctx) input)) eqn:Hc.
  - cbv iota in E.
    apply andb_prop in Hc as [Hc _]. apply andb_prop in Hc as [Hc _].
    apply negb_true_iff, Z.eqb_neq in Hc.
    destruct Hb as [Hb|Hb].
    + rewrite (bins_begun_no_bin ctx Hb).
      rewrite bins_begun_bin; rewrite E, Hb; vm_compute; split; discriminate.
    + rewrite (bins_begun_bin ctx Hb).
      rewrite incr32_small in E by (unfold fft_size; lia).
      rewrite bins_begun_bin; rewrite E; lia.
  - cbv iota in E. destruct Hb as [Hb|Hb].
    + rewrite (bins_begun_no_bin ctx Hb), bins_begun_no_bin; [lia|].
      now rewrite E.
    + rewrite (bins_begun_bin ctx Hb), bins_begun_bin; rewrite E; lia.
Qed.

Lemma bins_begun_range (ctx : Measure_Context) :
  well_formed ctx -> 0 <= bins_begun ctx <= fft_nbins + 1.
Proof.
  assert (HN : fft_nbins = 1025) by reflexivity.
  intros ([Hb|Hb] & _).
  - rewrite bins_begun_no_bin by assumption. lia.
  - rewrite bins_begun_bin by assumption. lia.
Qed.

Lemma run_bins_begun (started : bool) (ctx : Measure_Context)
    (buffers : list (list float)) :
  well_formed ctx ->
  bins_begun ctx <= bins_begun (run started ctx buffers)
                 <= bins_begun ctx + Z.of_nat (length buffers).
Proof.
  revert ctx. induction buffers as [|b rest IH]; intros ctx Hwf.
  - cbn. lia.
  - rewrite run_cons. cbn [length].
    pose proof (process_bins_begun started ctx b Hwf).
    pose proof (IH _ (process_well_formed started ctx b Hwf)). lia.
Qed.

(** X3.  The count that [main] prints as progress, [current_bin + 1] once a
    bin is selected, never goes down during a series of callbacks and goes
    up by at most one per callback; it is at most [fft_nbins + 1]. *)
Theorem sweep_moves_forward (started : bool) (ctx : Measure_Context)
    (done more : list (list float)) :
  well_formed ctx ->
  let before := bins_begun (run started ctx done) in
  let after := bins_begun (run started ctx (done ++ more)) in
  before <= after <= before + Z.of_nat (length more) /\
  after <= fft_nbins + 1 /\
  (progress (run started ctx done) <> None ->
   progress (run started ctx done) = Some before /\
   progress (run started ctx (done ++ more)) = Some after).
Proof.
  intros Hwf before after. subst before after. rewrite run_app.
  pose proof (run_well_formed started ctx done Hwf) as Hwf'.
  pose proof (run_well_formed started _ more Hwf') as Hwf''.
  split; [now apply run_bins_begun|].
  split; [now apply bins_begun_range|].
  intros Hp.
  pose proof (proj1 (run_bins_begun started _ more Hwf')) as Hle.
  unfold bins_begun in *.
  destruct (progress (run started ctx done)) as [p|] eqn:E1; [|contradiction].
  split; [reflexivity|].
  destruct (progress (run started (run started ctx done) more)) as [q|] eqn:E2;
    [reflexivity|].
  exfalso.
  unfold progress in E1.
  destruct (Z.eqb_spec (current_bin (run started ctx done)) no_bin) as [|Hne];
    [discriminate|].
  injection E1 as <-.
  destruct Hwf' as ([Hb|Hb] & _); [contradiction|].
  assert (HN : fft_nbins = 1025) by reflexivity.
  rewrite incr32_small in Hle by (unfold fft_size; lia). lia.
Qed.

(** ** The end of the sweep (lines 55-59) *)

Lemma with_silence_frames_count_same (ctx : Measure_Context) :
  with_silence_frames_count ctx (silence_frames_count ctx) = ctx.
Proof. now destruct ctx. Qed.

Lemma run_finished (ctx : Measure_Context) (buffers : list (list float)) :
  current_bin ctx = fft_nbins ->
  run true ctx buffers
  = with_silence_frames_count ctx
      (silence_loop (silence_frames_count ctx) (concat buffers)) /\
  stores true ctx buffers = [].
Proof.
  revert ctx. induction buffers as [|b rest IH]; intros ctx Hfin.
  - split; [|reflexivity]. cbn [concat silence_loop fold_left].
    symmetry. apply with_silence_frames_count_same.
  - rewrite run_cons. cbn [stores concat].
    rewrite (process_finished cos sinf transform ctx b Hfin).
    cbn [cb_ctx cb_stored].
    destruct (IH (with_silence_frames_count ctx
                    (silence_loop (silence_frames_count ctx) b)) Hfin)
      as [E1 E2].
    rewrite E1, E2. split; [|reflexivity].
    cbn [silence_frames_count with_silence_frames_count].
    now rewrite silence_loop_app.
Qed.

Lemma process_finished_iff (started : bool) (ctx : Measure_Context)
    (input : list float) :
  cb_finished (process started ctx input) = true
  <-> started = true /\ current_bin ctx = fft_nbins.
Proof.
  destruct started.
  - sweep_cases ctx input; cbn [cb_finished]; split;
      solve [intros; split; [reflexivity|assumption]
            |discriminate
            |intros [_ H]; contradiction
            |reflexivity].
  - rewrite process_not_started. cbn [cb_finished].
    split; [discriminate|intros [H _]; discriminate].
Qed.

(** X4.  [measure_finished] is stored by exactly the calls that come after
    the start signal and find [current_bin == fft_nbins]; once that is so
    it stays so: every later call stores the flag again, leaves the output
    silent, stores no response, and changes nothing in the context except
    the silence counter. *)
Theorem finished_sweep_is_final (started : bool) (ctx : Measure_Context)
    (buffers : list (list float)) (input : list float) :
  (cb_finished (process started ctx input) = true
   <-> started = true /\ current_bin ctx = fft_nbins) /\
  (current_bin ctx = fft_nbins ->
   run true ctx buffers
   = with_silence_frames_count ctx
       (silence_loop (silence_frames_count ctx) (concat buffers)) /\
   stores true ctx buffers = [] /\
   cb_finished (process true (run true ctx buffers) input) = true /\
   cb_output (process true (run true ctx buffers) input) = silence input).
Proof.
  split; [apply process_finished_iff|].
  intros Hfin. destruct (run_finished ctx buffers Hfin) as [E1 E2].
  split; [exact E1|]. split; [exact E2|].
  rewrite E1. now rewrite process_finished.
Qed.

(** ** The output buffer *)

Lemma process_output_length (started : bool) (ctx : Measure_Context)
    (input : list float) :
  length (cb_output (process started ctx input)) = length input.
Proof.
  destruct started.
  - sweep_cases ctx input; cbn [cb_output];
      rewrite ?oscillator_loop_length; apply silence_length.
  - rewrite process_not_started. apply silence_length.
Qed.

Lemma process_output_silent (started : bool) (ctx : Measure_Context)
    (input : list float) :
  started = false \/ current_bin ctx = fft_nbins
  \/ (change_pending ctx = true
      /\ silence_loop (silence_frames_count ctx) input
         < silence_frames_needed ctx) ->
  cb_output (process started ctx input) = silence input.
Proof.
  intros Hcase. destruct started; [|now rewrite process_not_started].
  sweep_cases ctx input; cbn [cb_output]; try reflexivity.
  - destruct Hcase as [|[|[_ ?]]]; [discriminate|contradiction|lia].
  - destruct Hcase as [|[|[? _]]]; [discriminate|contradiction|discriminate].
Qed.

(** X5.  Every call writes exactly [nframes] output samples, and they are
    all zero when the start signal has not come, when the sweep is over,
    and when a bin change is pending with the gate closed. *)
Theorem callback_output (started : bool) (ctx : Measure_Context)
    (input : list float) :
  length (cb_output (process started ctx input)) = length input /\
  (started = false \/ current_bin ctx = fft_nbins
   \/ (change_pending ctx = true
       /\ silence_loop (silence_frames_count ctx) input
          < silence_frames_needed ctx) ->
   cb_output (process started ctx input) = silence input).
Proof.
  split; [apply process_output_length|apply process_output_silent].
Qed.

(** ** The response table *)

Lemma process_stored (started : bool) (ctx : Measure_Context)
    (input : list float) (bin : Z) :
  cb_stored (process started ctx input) = Some bin ->
  started = true /\ bin = current_bin ctx /\ current_bin ctx <> fft_nbins
  /\ transform_due ctx = true.
Proof.
  destruct started; [|rewrite process_not_started; discriminate].
  destruct (Z.eq_dec (current_bin ctx) fft_nbins) as [Hfin|Hfin].
  - rewrite process_finished by assumption. discriminate.
  - destruct (process_transform cos sinf transform ctx input Hfin)
      as (_ & _ & _ & ->).
    destruct (transform_due ctx); [|discriminate].
    intros [= <-]. now repeat split.
Qed.

Lemma process_response_frame (started : bool) (ctx : Measure_Context)
    (input : list float) (k : nat) :
  (forall bin, cb_stored (process started ctx input) = Some bin ->
               Z.to_nat bin <> k) ->
  response (cb_ctx (process started ctx input)) !! k = response ctx !! k.
Proof.
  destruct started; [|now rewrite process_not_started].
  destruct (Z.eq_dec (current_bin ctx) fft_nbins) as [Hfin|Hfin].
  - now rewrite process_finished by assumption.
  - destruct (process_transform cos sinf transform ctx input Hfin)
      as (_ & _ & -> & ->).
    destruct (transform_due ctx); [|reflexivity].
    intros Hk. specialize (Hk _ eq_refl).
    unfold_store_response. cbn [response with_transform].
    destruct (fftwf_execute transform _ !! _); [|reflexivity].
    now apply list_lookup_insert_ne.
Qed.

Lemma process_response_length (started : bool) (ctx : Measure_Context)
    (input : list float) :
  length (response (cb_ctx (process started ctx input)))
  = length (response ctx).
Proof.
  destruct started; [|now rewrite process_not_started].
  destruct (Z.eq_dec (current_bin ctx) fft_nbins) as [Hfin|Hfin].
  - now rewrite process_finished by assumption.
  - destruct (process_transform cos sinf transform ctx input Hfin)
      as (_ & _ & -> & _).
    apply after_transform_response_length.
Qed.

Lemma run_response_frame (started : bool) (ctx : Measure_Context)
    (buffers : list (list float)) (k : nat) :
  length (response (run started ctx buffers)) = length (response ctx) /\
  (Forall (fun bin => Z.to_nat bin <> k) (stores started ctx buffers) ->
   response (run started ctx buffers) !! k = response ctx !! k).
Proof.
  revert ctx. induction buffers as [|b rest IH]; intros ctx.
  - split; reflexivity.
  - rewrite run_cons. cbn [stores].
    destruct (IH (cb_ctx (process started ctx b))) as [IHlen IHk].
    split; [now rewrite IHlen, process_response_length|].
    intros H.
    destruct (cb_stored (process started ctx b)) as [bin|] eqn:E.
    + apply Forall_cons in H as [Hbin Hrest].
      rewrite IHk by assumption.
      apply process_response_frame. intros bin' E'.
      rewrite E in E'. now injection E' as <-.
    + rewrite IHk by assumption.
      apply process_response_frame. intros bin' E'.
      rewrite E in E'. discriminate.
Qed.

Lemma stores_bounds (ctx : Measure_Context) (buffers : list (list float)) :
  well_formed ctx ->
  Forall (fun bin => 0 <= bin < fft_nbins
                     /\ bins_begun ctx <= bin + 1
                        <= bins_begun (run true ctx buffers))
    (stores true ctx buffers).
Proof.
  revert ctx. induction buffers as [|b rest IH]; intros ctx Hwf; [constructor|].
  rewrite run_cons. cbn [stores].
  pose proof (process_well_formed true ctx b Hwf) as Hwf'.
  pose proof (process_bins_begun true ctx b Hwf) as Hstep.
  pose proof (run_bins_begun true _ rest Hwf') as Hrest.
  assert (Htail : Forall (fun bin => 0 <= bin < fft_nbins
                     /\ bins_begun ctx <= bin + 1
                        <= bins_begun (run true (cb_ctx (process true ctx b)) rest))
                    (stores true (cb_ctx (process true ctx b)) rest)).
  { eapply Forall_impl; [apply (IH _ Hwf')|]. cbn beta. intros bin. lia. }
  destruct (cb_stored (process true ctx b)) as [bin|] eqn:E; [|exact Htail].
  constructor; [|exact Htail].
  apply process_stored in E as (_ & -> & Hfin & Hdue).
  destruct (transform_due_pending ctx Hdue) as (_ & Hnb & _).
  destruct Hwf as ([Hb|Hb] & _); [contradiction|].
  rewrite (bins_begun_bin ctx Hb) in *. lia.
Qed.

(** X6.  The calls change the response table only in the slots they store
    into: the table keeps its length, and a slot that no call of a series
    has stored into holds what it held before. *)
Theorem response_frame (ctx : Measure_Context) (buffers : list (list float))
    (k : nat) :
  length (response (run true ctx buffers)) = length (response ctx) /\
  (Forall (fun bin => Z.to_nat bin <> k) (stores true ctx buffers) ->
   response (run true ctx buffers) !! k = response ctx !! k) /\
  (well_formed ctx ->
   ~ In (Z.of_nat k) (stores true ctx buffers) ->
   response (run true ctx buffers) !! k = response ctx !! k).
Proof.
  destruct (run_response_frame true ctx buffers k) as [Hlen Hk].
  split; [exact Hlen|]. split; [exact Hk|].
  intros Hwf Hnot. apply Hk. apply List.Forall_forall. intros bin Hin Habs.
  pose proof (stores_bounds ctx buffers Hwf) as Hb.
  rewrite List.Forall_forall in Hb. destruct (Hb bin Hin) as [[Hpos _] _].
  apply Hnot. replace (Z.of_nat k) with bin by lia. exact Hin.
Qed.

(** X7.  The response table is written inside its bounds and in the order
    of the bins: the slots stored into during a series of calls, taken in
    the order of the calls, never decrease, and each of them is the index of
    a bin, below [fft_nbins]. *)
Theorem stores_in_bin_order (ctx : Measure_Context)
    (buffers : list (list float)) :
  well_formed ctx ->
  StronglySorted Z.le (stores true ctx buffers) /\
  Forall (fun bin => 0 <= bin < fft_nbins
                     /\ (Z.to_nat bin < length (response ctx))%nat)
    (stores true ctx buffers).
Proof.
  intros Hwf. split.
  - revert ctx Hwf. induction buffers as [|b rest IH]; intros ctx Hwf;
      [constructor|].
    cbn [stores].
    pose proof (process_well_formed true ctx b Hwf) as Hwf'.
    destruct (cb_stored (process true ctx b)) as [bin|] eqn:E; [|now apply IH].
    constructor; [now apply IH|].
    apply process_stored in E as (_ & -> & Hfin & Hdue).
    destruct (transform_due_pending ctx Hdue) as (_ & Hnb & _).
    pose proof (process_bins_begun true ctx b Hwf) as Hstep.
    destruct Hwf as ([Hb|Hb] & _); [contradiction|].
    rewrite (bins_begun_bin ctx Hb) in Hstep.
    eapply Forall_impl; [apply (stores_bounds _ rest Hwf')|].
    cbn beta. intros bin. lia.
  - assert (HN : fft_nbins = 1025) by reflexivity.
    eapply Forall_impl; [apply (stores_bounds ctx buffers Hwf)|].
    cbn beta. intros bin [Hbin _]. split; [exact Hbin|].
    destruct Hwf as (_ & _ & _ & -> & _). lia.
Qed.

(** ** The capture of one bin over several calls *)

Lemma capture_pending (ctx : Measure_Context) :
  0 <= current_bin ctx < fft_nbins -> 0 <= fft_in_fill ctx < fft_size ->
  change_pending ctx = false.
Proof.
  intros Hbin Hfill. assert (HN : fft_nbins = 1025) by reflexivity.
  unfold change_pending. apply orb_false_iff.
  split; apply Z.eqb_neq; [unfold no_bin|]; lia.
Qed.

Lemma capture_call (ctx : Measure_Context) (input : list float) :
  0 <= current_bin ctx < fft_nbins -> 0 <= fft_in_fill ctx < fft_size ->
  let r := process true ctx input in
  current_bin (cb_ctx r) = current_bin ctx /\
  fft_in_fill (cb_ctx r)
  = Z.min (fft_in_fill ctx + Z.of_nat (length input)) fft_size /\
  fft_in (cb_ctx r) = fst (record_loop (fft_in ctx) (fft_in_fill ctx) input) /\
  response (cb_ctx r) = response ctx /\
  silence_frames_needed (cb_ctx r) = silence_frames_needed ctx /\
  cb_stored r = None.
Proof.
  intros Hbin Hfill r. subst r.
  rewrite process_capture by (try apply capture_pending; lia).
  cbn [cb_ctx cb_stored current_bin fft_in_fill fft_in response
       silence_frames_needed].
  rewrite record_loop_fill by lia. now repeat split.
Qed.

Lemma run_in_capture (ctx : Measure_Context) (buffers : list (list float))
    (last : list float) :
  0 <= current_bin ctx < fft_nbins ->
  0 <= fft_in_fill ctx ->
  fft_in_fill ctx + Z.of_nat (length (concat buffers)) < fft_size ->
  run true ctx (buffers ++ [last])
  = cb_ctx (process true ctx (concat buffers ++ last)) /\
  stores true ctx (buffers ++ [last]) = [].
Proof.
  revert ctx. induction buffers as [|a rest IH]; intros ctx Hbin Hfill Hlen.
  - cbn [concat length] in Hlen. cbn [app concat stores].
    destruct (capture_call ctx last Hbin ltac:(lia)) as (_ & _ & _ & _ & _ & ->).
    split; reflexivity.
  - cbn [concat] in *. rewrite length_app in Hlen.
    rewrite <- app_comm_cons, run_cons. cbn [stores].
    destruct (capture_call ctx a Hbin ltac:(lia)) as (Eb & Ef & _ & _ & _ & ->).
    rewrite Z.min_l in Ef by lia.
    destruct (IH (cb_ctx (process true ctx a))) as [E1 E2];
      [rewrite Eb; exact Hbin|rewrite Ef; lia|rewrite Ef; lia|].
    rewrite E1, E2. split; [|reflexivity].
    rewrite <- app_assoc.
    apply (split_in_capture cos sinf transform ctx a (concat rest ++ last));
      lia.
Qed.

(** X8.  While a bin is being captured the contents of [fft_in] do not
    depend on how the input arrives: after a series of calls that starts
    inside the capture, the context is the one a single call on the
    concatenated input leaves; the frames stand in [fft_in] from the old
    fill count on, in the order of arrival, the rest of the buffer is
    untouched, whatever exceeds [fft_size] is dropped, and the response
    table is not written. *)
Theorem capture_is_stream_prefix (ctx : Measure_Context)
    (buffers : list (list float)) (last : list float) :
  0 <= current_bin ctx < fft_nbins ->
  0 <= fft_in_fill ctx ->
  fft_in_fill ctx + Z.of_nat (length (concat buffers)) < fft_size ->
  let stream := concat buffers ++ last in
  let ctx' := run true ctx (buffers ++ [last]) in
  ctx' = cb_ctx (process true ctx stream) /\
  current_bin ctx' = current_bin ctx /\
  fft_in_fill ctx'
  = Z.min (fft_in_fill ctx + Z.of_nat (length stream)) fft_size /\
  (forall j : nat,
     fft_in ctx' !! j
     = if decide (Z.to_nat (fft_in_fill ctx) <= j
                  < Z.to_nat (fft_in_fill ctx) + length stream
                  /\ j < Z.to_nat fft_size /\ j < length (fft_in ctx))%nat
       then stream !! (j - Z.to_nat (fft_in_fill ctx))%nat
       else fft_in ctx !! j) /\
  response ctx' = response ctx /\
  stores true ctx (buffers ++ [last]) = [].
Proof.
  intros Hbin Hfill Hlen stream ctx'. subst ctx'.
  destruct (run_in_capture ctx buffers last Hbin Hfill Hlen) as [-> E].
  fold stream.
  destruct (capture_call ctx stream Hbin ltac:(lia))
    as (Eb & Ef & Ein & Er & _ & _).
  split; [reflexivity|]. split; [exact Eb|]. split; [exact Ef|].
  split; [|split; [exact Er|exact E]].
  intros j. rewrite Ein.
  rewrite <- (Z2Nat.id (fft_in_fill ctx)) at 1 by lia.
  apply record_loop_lookup. lia.
Qed.

(** ** Waiting for silence after a complete capture *)

Lemma store_response_bin (ctx : Measure_Context) :
  current_bin (store_response ctx) = current_bin ctx.
Proof. reflexivity. Qed.

Lemma store_response_fill (ctx : Measure_Context) :
  fft_in_fill (store_response ctx) = fft_in_fill ctx.
Proof. reflexivity. Qed.

Lemma store_response_fft_in (ctx : Measure_Context) :
  fft_in (store_response ctx) = apply_window cos (fft_in ctx).
Proof. reflexivity. Qed.

Lemma waiting_run (ctx : Measure_Context) (buffers : list (list float)) :
  0 <= current_bin ctx < fft_nbins ->
  fft_in_fill ctx = fft_size ->
  (forall i, (i < length buffers)%nat ->
     silence_loop (silence_frames_count ctx) (concat (take (S i) buffers))
     < silence_frames_needed ctx) ->
  let ctx' := run true ctx buffers in
  current_bin ctx' = current_bin ctx /\
  fft_in_fill ctx' = fft_size /\
  fft_in ctx' = Nat.iter (length buffers) (apply_window cos) (fft_in ctx) /\
  length (response ctx') = length (response ctx) /\
  stores true ctx buffers = replicate (length buffers) (current_bin ctx) /\
  (buffers <> [] ->
   (Z.to_nat (current_bin ctx) < length (response ctx))%nat ->
   response ctx' !! Z.to_nat (current_bin ctx)
   = Some (transform (Nat.iter (length buffers) (apply_window cos) (fft_in ctx))
             (current_bin ctx))).
Proof.
  intros Hbin Hfill. induction buffers as [|b done IH] using rev_ind;
    intros Hgate ctx'; subst ctx'.
  - cbn [length Nat.iter replicate stores]. now repeat split.
  - destruct IH as (Eb & Ef & Ein & Elen & Est & _).
    { intros i Hi. specialize (Hgate i).
      rewrite length_app, take_app_le in Hgate by lia. apply Hgate.
      cbn [length]. lia. }
    pose proof (Hgate (length done)) as Hlast.
    rewrite length_app, take_ge in Hlast
      by (rewrite length_app; cbn [length]; lia).
    specialize (Hlast ltac:(cbn [length]; lia)).
    rewrite concat_app, silence_loop_app in Hlast.
    cbn [concat] in Hlast. rewrite app_nil_r in Hlast.
    rewrite <- (run_count cos sinf transform ctx done),
      <- (run_needed cos sinf transform true ctx done) in Hlast.
    pose proof (waiting_call cos sinf transform (run true ctx done) b
                  ltac:(rewrite Eb; exact Hbin) Ef Hlast) as E.
    rewrite run_snoc, stores_app, E, Est. cbn [stores]. rewrite E.
    cbn [cb_ctx cb_stored current_bin fft_in_fill fft_in response
         with_silence_frames_count].
    rewrite store_response_bin, store_response_fill, store_response_fft_in,
      store_response_length, Elen, Eb, length_app.
    cbn [length]. rewrite Nat.add_1_r, Nat.iter_succ, Ein.
    split; [reflexivity|]. split; [exact Ef|]. split; [reflexivity|].
    split; [reflexivity|]. split.
    + cbn [replicate]. now rewrite replicate_cons_app.
    + intros _ Hin. rewrite <- Eb, <- Ein.
      apply store_response_slot; rewrite Eb; [exact Hbin|].
      now rewrite Elen.
Qed.

(** X9.  After the capture of a bin is complete, every call that finds the
    gate closed runs lines 61-69 again: a series of [n] such calls applies
    the window [n] times to the capture buffer in place and stores into the
    slot of the bin [n] times, the last time the coefficient of the buffer
    windowed [n] times; the bin and the fill count stay as they are. *)
Theorem waiting_calls_window_again (ctx : Measure_Context)
    (buffers : list (list float)) :
  0 <= current_bin ctx < fft_nbins ->
  fft_in_fill ctx = fft_size ->
  (Z.to_nat (current_bin ctx) < length (response ctx))%nat ->
  buffers <> [] ->
  (forall i, (i < length buffers)%nat ->
     silence_loop (silence_frames_count ctx) (concat (take (S i) buffers))
     < silence_frames_needed ctx) ->
  let n := length buffers in
  let ctx' := run true ctx buffers in
  current_bin ctx' = current_bin ctx /\
  fft_in_fill ctx' = fft_size /\
  fft_in ctx' = Nat.iter n (apply_window cos) (fft_in ctx) /\
  stores true ctx buffers = replicate n (current_bin ctx) /\
  response ctx' !! Z.to_nat (current_bin ctx)
  = Some (transform (Nat.iter n (apply_window cos) (fft_in ctx))
            (current_bin ctx)).
Proof.
  intros Hbin Hfill Hin Hne Hgate n ctx'.
  destruct (waiting_run ctx buffers Hbin Hfill Hgate)
    as (Eb & Ef & Ein & _ & Est & Eslot).
  split; [exact Eb|]. split; [exact Ef|]. split; [exact Ein|].
  split; [exact Est|]. exact (Eslot Hne Hin).
Qed.

(** ** Before the first bin *)

Lemma silence_loop_le (c : Z) (input : list float) :
  0 <= c -> silence_loop c input <= c + Z.of_nat (length input).
Proof.
  revert c. induction input as [|x rest IH]; intros c Hc.
  - cbn [silence_loop fold_left length]. lia.
  - cbn [silence_loop fold_left length].
    fold (silence_loop (silence_step c x) rest).
    pose proof (IH _ (silence_step_nonneg c x)) as H.
    assert (silence_step c x <= c + 1); [|lia].
    unfold silence_step. destruct (is_silent x); [now apply incr32_le|lia].
Qed.

Lemma run_not_selected (ctx : Measure_Context) (buffers : list (list float)) :
  current_bin ctx = no_bin ->
  0 <= silence_frames_count ctx ->
  silence_frames_count ctx + Z.of_nat (length (concat buffers))
  < silence_frames_needed ctx ->
  run true ctx buffers
  = with_silence_frames_count ctx
      (silence_loop (silence_frames_count ctx) (concat buffers)) /\
  stores true ctx buffers = [].
Proof.
  revert ctx. induction buffers as [|b rest IH]; intros ctx Hbin Hc Hlen.
  - split; [|reflexivity]. cbn [concat silence_loop fold_left].
    symmetry. apply with_silence_frames_count_same.
  - cbn [concat] in *. rewrite length_app in Hlen.
    pose proof (silence_loop_le (silence_frames_count ctx) b Hc) as Hle.
    assert (Hfin : current_bin ctx <> fft_nbins)
      by (rewrite Hbin; vm_compute; discriminate).
    assert (Hch : change_pending ctx = true)
      by (unfold change_pending; now rewrite Hbin).
    assert (Hdue : transform_due ctx = false)
      by (unfold transform_due; now rewrite Hbin).
    rewrite run_cons. cbn [stores].
    rewrite (process_gated cos sinf transform ctx b Hfin Hch ltac:(lia)).
    rewrite Hdue. cbn [cb_ctx cb_stored].
    destruct (IH (with_silence_frames_count ctx
                    (silence_loop (silence_frames_count ctx) b)))
      as [E1 E2]; cbn [current_bin silence_frames_count silence_frames_needed
                       with_silence_frames_count];
      [exact Hbin|now apply silence_loop_nonneg|lia|].
    rewrite E1, E2. split; [|reflexivity].
    cbn [silence_frames_count with_silence_frames_count].
    now rewrite silence_loop_app.
Qed.

(** X10.  No bin is selected before [silence_frames_needed] frames have
    come in: as long as the frames heard since the start signal are fewer
    than that, loud or quiet, the calls change nothing in the context except
    the silence counter, store no response, and leave the output silent. *)
Theorem no_bin_before_settling (mem_in : list float) (mem_out : list cfloat)
    (rate : Z) (buffers : list (list float)) (input : list float) :
  let ctx := initial_context mem_in mem_out rate in
  Z.of_nat (length (concat buffers)) + Z.of_nat (length input)
  < silence_frames_needed ctx ->
  let ctx' := run true ctx buffers in
  ctx' = with_silence_frames_count ctx (silence_loop 0 (concat buffers)) /\
  stores true ctx buffers = [] /\
  current_bin (cb_ctx (process true ctx' input)) = no_bin /\
  cb_output (process true ctx' input) = silence input.
Proof.
  intros ctx Hlen ctx'. subst ctx'.
  destruct (run_not_selected ctx buffers eq_refl) as [E1 E2];
    [cbn; lia|cbn [silence_frames_count ctx initial_context]; lia|].
  split; [exact E1|]. split; [exact E2|].
  destruct (run_not_selected ctx (buffers ++ [input]) eq_refl) as [E3 _];
    [cbn; lia
    |rewrite concat_app, length_app; cbn [concat]; rewrite app_nil_r;
     cbn [silence_frames_count ctx initial_context]; lia|].
  rewrite run_snoc in E3. split; [now rewrite E3|].
  apply process_output_silent. right. right.
  rewrite E1.
  cbn [silence_frames_count with_silence_frames_count silence_frames_needed].
  split; [reflexivity|].
  rewrite <- silence_loop_app.
  pose proof (silence_loop_le 0 (concat buffers ++ input) ltac:(lia)) as Hle.
  rewrite length_app in Hle.
  change (silence_frames_needed ctx) with (main_silence_frames_needed rate) in *.
  change (silence_frames_count ctx) with 0.
  lia.
Qed.

(** ** The silence threshold of [main] (line 136) *)

(** X11.  For the sample rates that a [float] holds exactly, line 136 sets
    [silence_frames_needed] to the number of frames in 10 ms, rounded up:
    it is [(rate + 99) / 100], at least 1, it does not decrease when the
    rate goes up, and [needed - 1] frames last less than 10 ms. *)
Theorem silence_frames_needed_bounds (rate rate' : Z) :
  0 < rate < 2 ^ 24 ->
  main_silence_frames_needed rate = (rate + 99) / 100 /\
  1 <= main_silence_frames_needed rate /\
  100 * (main_silence_frames_needed rate - 1) < rate
  <= 100 * main_silence_frames_needed rate /\
  (rate <= rate' < 2 ^ 24 ->
   main_silence_frames_needed rate <= main_silence_frames_needed rate').
Proof.
  intros Hr. rewrite main_silence_frames_needed_exact by assumption.
  pose proof (Z.div_mod (rate + 99) 100 ltac:(lia)) as Hdm.
  pose proof (Z.mod_pos_bound (rate + 99) 100 ltac:(lia)) as Hm.
  split; [reflexivity|]. split; [lia|]. split; [lia|].
  intros Hr'. rewrite main_silence_frames_needed_exact by lia.
  apply Z.div_le_mono; lia.
Qed.

(** ** The excitation in closed form *)

Lemma phase_iter_closed (b k : Z) (n : nat) :
  0 <= b < 2 ^ 23 -> 0 <= k < fft_size ->
  Nat.iter n (phase_step (phase_of b)) (phase_of k)
  = phase_of ((k + Z.of_nat n * b) mod fft_size).
Proof.
  intros Hb Hk. induction n as [|n IH].
  - cbn [Nat.iter Z.of_nat]. rewrite Z.mul_0_l, Z.add_0_r.
    now rewrite Z.mod_small.
  - rewrite Nat.iter_succ, IH.
    rewrite phase_step_phase_of
      by (try apply Z.mod_pos_bound; unfold fft_size; lia).
    rewrite Zplus_mod_idemp_l. do 2 f_equal. lia.
Qed.

(** X12.  The oscillator does not drift.  With the phase on the grid at
    [k0 / fft_size] (the callbacks keep it there), a call that excites bin
    [bin] writes [sin] of the phase [((k + i * bin) mod fft_size) /
    fft_size] as output sample [i], where [k] is 0 if the call selects the
    bin and [k0] otherwise, and leaves the phase at
    [((k + nframes * bin) mod fft_size) / fft_size]: after [fft_size]
    frames the phase is back where it was. *)
Theorem excitation_closed_form (ctx : Measure_Context) (input : list float)
    (k0 : Z) :
  well_formed ctx ->
  current_bin ctx <> fft_nbins ->
  (change_pending ctx = true ->
   silence_frames_needed ctx <= silence_loop (silence_frames_count ctx) input) ->
  0 <= k0 < fft_size ->
  oscillator_phase ctx = phase_of k0 ->
  let r := process true ctx input in
  let bin := current_bin (cb_ctx r) in
  let k := if change_pending ctx then 0 else k0 in
  0 <= bin <= fft_nbins /\
  (forall i, (i < length input)%nat ->
     cb_output r !! i
     = Some (sinf (phase_of ((k + Z.of_nat i * bin) mod fft_size)))) /\
  oscillator_phase (cb_ctx r)
  = phase_of ((k + Z.of_nat (length input) * bin) mod fft_size) /\
  (Z.of_nat (length input) = fft_size ->
   oscillator_phase (cb_ctx r) = phase_of k).
Proof.
  intros Hwf Hfin Hgate Hk0 Hp0 r bin k.
  assert (HN : fft_nbins = 1025) by reflexivity.
  assert (HS : fft_size = 2048) by reflexivity.
  pose proof (process_well_formed true ctx input Hwf) as (Hb' & _).
  fold r bin in Hb'.
  destruct Hwf as (Hb & Hf & _).
  destruct (excitation cos sinf transform ctx input Hfin ltac:(lia) Hgate)
    as (Ebin & _ & Eout & Ephase).
  fold r in Ebin, Eout, Ephase. fold bin in Ebin. rewrite <- Ebin in *.
  assert (Hbin : 0 <= bin <= fft_nbins).
  { destruct Hb' as [Hb'|Hb']; [|exact Hb']. exfalso.
    rewrite Ebin in Hb'. destruct (change_pending ctx) eqn:Hch.
    - destruct Hb as [Hb|Hb].
      + rewrite Hb in Hb'. revert Hb'. vm_compute. discriminate.
      + rewrite incr32_small in Hb' by lia. unfold no_bin in Hb'. lia.
    - now destruct (change_pending_false ctx Hch). }
  assert (Hk : 0 <= k < fft_size) by (subst k; destruct (change_pending ctx); lia).
  assert (Ep : (if change_pending ctx then F32.zero else oscillator_phase ctx)
               = phase_of k).
  { subst k. destruct (change_pending ctx); [reflexivity|exact Hp0]. }
  rewrite Ep in *. rewrite oscillator_freq_exact in * by lia.
  split; [exact Hbin|]. split; [|split].
  - intros i Hi. rewrite (Eout i Hi). now rewrite phase_iter_closed by lia.
  - rewrite Ephase. now rewrite phase_iter_closed by lia.
  - intros Hlen. rewrite Ephase, phase_iter_closed, Hlen by lia.
    rewrite (Z.mul_comm fft_size bin), Z.mod_add by lia.
    now rewrite Z.mod_small.
Qed.

(** ** The measurement of one bin *)

Lemma record_loop_take (buf input : list float) :
  length buf = Z.to_nat fft_size ->
  fft_size <= Z.of_nat (length input) ->
  fst (record_loop buf 0 input) = take (Z.to_nat fft_size) input.
Proof.
  intros Hbuf Hlen. apply list_eq. intros j.
  pose proof (record_loop_lookup buf 0 input j ltac:(unfold fft_size; lia)) as E.
  change (Z.of_nat 0) with 0 in E. rewrite E, Nat.sub_0_r.
  destruct (decide (j < Z.to_nat fft_size)%nat) as [Hj|Hj].
  - rewrite lookup_take_lt by assumption.
    apply decide_True. lia.
  - rewrite lookup_take_ge by lia.
    rewrite decide_False by lia. apply lookup_ge_None_2. lia.
Qed.

Lemma pending_when_full (ctx : Measure_Context) :
  0 <= current_bin ctx < fft_nbins -> fft_in_fill ctx = fft_size ->
  change_pending ctx = true /\ transform_due ctx = true.
Proof.
  intros Hbin Hfill. assert (HN : fft_nbins = 1025) by reflexivity.
  unfold change_pending, transform_due. rewrite Hfill, Z.eqb_refl.
  split; [apply orb_true_r|]. rewrite andb_true_r.
  apply negb_true_iff, Z.eqb_neq. unfold no_bin. lia.
Qed.

Lemma advance_when_full (ctx : Measure_Context) (input : list float) :
  0 <= current_bin ctx < fft_nbins ->
  fft_in_fill ctx = fft_size ->
  silence_frames_needed ctx <= silence_loop (silence_frames_count ctx) input ->
  let r := process true ctx input in
  current_bin (cb_ctx r) = current_bin ctx + 1 /\
  fft_in_fill (cb_ctx r) = 0 /\
  fft_in (cb_ctx r) = apply_window cos (fft_in ctx) /\
  response (cb_ctx r) = response (store_response ctx) /\
  cb_stored r = Some (current_bin ctx).
Proof.
  intros Hbin Hfill Hgate r. subst r.
  assert (HN : fft_nbins = 1025) by reflexivity.
  destruct (pending_when_full ctx Hbin Hfill) as [Hch Hdue].
  rewrite (process_advance cos sinf transform ctx input ltac:(lia) Hch Hgate).
  rewrite Hdue.
  cbn [cb_ctx cb_stored current_bin fft_in_fill fft_in response].
  rewrite incr32_small by (unfold fft_size; lia). now repeat split.
Qed.

Lemma bin_measured (ctx : Measure_Context) (capture : list (list float))
    (last : list float) (waiting : list (list float)) (next : list float) :
  well_formed ctx ->
  0 <= current_bin ctx < fft_nbins ->
  fft_in_fill ctx = 0 ->
  Z.of_nat (length (concat capture)) < fft_size
  <= Z.of_nat (length (concat capture ++ last)) ->
  (forall i, (i < length waiting)%nat ->
     silence_loop (silence_frames_count ctx)
       (concat ((capture ++ [last]) ++ take (S i) waiting))
     < silence_frames_needed ctx) ->
  silence_frames_needed ctx
  <= silence_loop (silence_frames_count ctx)
       (concat (((capture ++ [last]) ++ waiting) ++ [next])) ->
  let buffers := ((capture ++ [last]) ++ waiting) ++ [next] in
  let frames := take (Z.to_nat fft_size) (concat capture ++ last) in
  let windowed := Nat.iter (S (length waiting)) (apply_window cos) frames in
  let ctx' := run true ctx buffers in
  current_bin ctx' = current_bin ctx + 1 /\
  fft_in_fill ctx' = 0 /\
  fft_in ctx' = windowed /\
  response ctx' !! Z.to_nat (current_bin ctx)
  = Some (transform windowed (current_bin ctx)) /\
  stores true ctx buffers
  = replicate (S (length waiting)) (current_bin ctx).
Proof.
  intros Hwf Hbin Hfill Hcap Hwait Hnext buffers frames windowed ctx'.
  subst buffers ctx'.
  assert (HN : fft_nbins = 1025) by reflexivity.
  destruct Hwf as (_ & _ & Hin & Hresp & _).
  (* the capture *)
  destruct (run_in_capture ctx capture last Hbin ltac:(lia) ltac:(lia))
    as [E1 S1].
  destruct (capture_call ctx (concat capture ++ last) Hbin
              ltac:(unfold fft_size; lia))
    as (Eb1 & Ef1 & Ein1 & Er1 & _ & _).
  rewrite <- E1 in Eb1, Ef1, Ein1, Er1.
  rewrite Hfill, Z.add_0_l, Z.min_r in Ef1 by lia.
  rewrite Hfill, record_loop_take in Ein1 by (assumption || lia).
  fold frames in Ein1.
  set (ctx1 := run true ctx (capture ++ [last])) in *.
  (* the calls that wait *)
  destruct (waiting_run ctx1 waiting) as (Eb2 & Ef2 & Ein2 & Elen2 & S2 & _).
  { rewrite Eb1. exact Hbin. }
  { exact Ef1. }
  { intros i Hi. specialize (Hwait i Hi). unfold ctx1.
    rewrite (run_count cos sinf transform), (run_needed cos sinf transform).
    rewrite ?concat_app in *. cbn [concat] in *.
    rewrite ?app_nil_r, ?silence_loop_app in *. exact Hwait. }
  set (ctx2 := run true ctx1 waiting) in *.
  (* the call that changes bin *)
  destruct (advance_when_full ctx2 next) as (Eb3 & Ef3 & Ein3 & Er3 & S3).
  { rewrite Eb2, Eb1. exact Hbin. }
  { exact Ef2. }
  { unfold ctx2, ctx1.
    rewrite !(run_count cos sinf transform), !(run_needed cos sinf transform).
    rewrite ?concat_app in *. cbn [concat] in *.
    rewrite ?app_nil_r, ?silence_loop_app in *. exact Hnext. }
  rewrite run_snoc, (run_app cos sinf transform true ctx (capture ++ [last])).
  rewrite (stores_app cos sinf transform true ctx
             ((capture ++ [last]) ++ waiting)),
    (stores_app cos sinf transform true ctx (capture ++ [last])),
    (run_app cos sinf transform true ctx (capture ++ [last])).
  fold ctx1. fold ctx2. rewrite S1, S2. cbn [stores].
  rewrite S3, Eb3, Ef3, Ein3, Er3, Ein2, Ein1, Eb2, Eb1, app_nil_l.
  subst windowed. rewrite Nat.iter_succ.
  split; [reflexivity|]. split; [reflexivity|]. split; [reflexivity|].
  split.
  - rewrite <- Ein1, <- Ein2.
    rewrite <- Eb1, <- Eb2.
    apply store_response_slot; rewrite Eb2, Eb1; [exact Hbin|].
    rewrite Elen2, Er1, Hresp. lia.
  - cbn [replicate]. now rewrite replicate_cons_app.
Qed.

(** X13.  What the sweep stores for a bin.  From a context in which bin [k]
    has just been selected, let the capture fill up during some calls, let
    [n] further calls find the gate closed, and let the next call find it
    open.  Then the sweep is at bin [k + 1] with an empty capture, the calls
    have stored into slot [k] only, [n + 1] times, and [response[k]] is
    coefficient [k] of the transform of the first [fft_size] frames that
    came in, in their order of arrival, with the window applied [n + 1]
    times; the other slots hold what they held. *)
Theorem bin_measurement (ctx : Measure_Context) (capture : list (list float))
    (last : list float) (waiting : list (list float)) (next : list float)
    (j : nat) :
  well_formed ctx ->
  0 <= current_bin ctx < fft_nbins ->
  fft_in_fill ctx = 0 ->
  Z.of_nat (length (concat capture)) < fft_size
  <= Z.of_nat (length (concat capture ++ last)) ->
  (forall i, (i < length waiting)%nat ->
     silence_loop (silence_frames_count ctx)
       (concat ((capture ++ [last]) ++ take (S i) waiting))
     < silence_frames_needed ctx) ->
  silence_frames_needed ctx
  <= silence_loop (silence_frames_count ctx)
       (concat (((capture ++ [last]) ++ waiting) ++ [next])) ->
  let buffers := ((capture ++ [last]) ++ waiting) ++ [next] in
  let frames := take (Z.to_nat fft_size) (concat capture ++ last) in
  let windowed := Nat.iter (S (length waiting)) (apply_window cos) frames in
  let ctx' := run true ctx buffers in
  current_bin ctx' = current_bin ctx + 1 /\
  fft_in_fill ctx' = 0 /\
  response ctx' !! Z.to_nat (current_bin ctx)
  = Some (transform windowed (current_bin ctx)) /\
  (j <> Z.to_nat (current_bin ctx) -> response ctx' !! j = response ctx !! j) /\
  stores true ctx buffers
  = replicate (S (length waiting)) (current_bin ctx).
Proof.
  intros Hwf Hbin Hfill Hcap Hwait Hnext buffers frames windowed ctx'.
  destruct (bin_measured ctx capture last waiting next
              Hwf Hbin Hfill Hcap Hwait Hnext)
    as (Eb & Ef & _ & Er & Es).
  fold buffers frames windowed ctx' in Eb, Ef, Er, Es.
  split; [exact Eb|]. split; [exact Ef|]. split; [exact Er|].
  split; [|exact Es].
  intros Hj. apply run_response_frame. fold buffers. rewrite Es.
  apply Forall_replicate. congruence.
Qed.

(** ** The measurement of all bins *)

Lemma sweep_measured (ctx : Measure_Context) (rounds : list Round) :
  well_formed ctx ->
  0 <= current_bin ctx ->
  fft_in_fill ctx = 0 ->
  current_bin ctx + Z.of_nat (length rounds) <= fft_nbins ->
  sweep_on_time (silence_frames_needed ctx) (silence_frames_count ctx) rounds ->
  let ctx' := run true ctx (concat (map round_buffers rounds)) in
  current_bin ctx' = current_bin ctx + Z.of_nat (length rounds) /\
  fft_in_fill ctx' = 0 /\
  (forall (i : nat) (r : Round),
     rounds !! i = Some r ->
     response ctx' !! Z.to_nat (current_bin ctx + Z.of_nat i)
     = Some (transform
               (Nat.iter (S (length (round_waiting r))) (apply_window cos)
                  (round_frames r))
               (current_bin ctx + Z.of_nat i))) /\
  stores true ctx (concat (map round_buffers rounds))
  = round_stores (current_bin ctx) rounds.
Proof.
  revert ctx. induction rounds as [|r rest IH];
    intros ctx Hwf Hbin Hfill Hlen Hok ctx'; subst ctx'.
  - cbn [map concat length Z.of_nat]. rewrite Z.add_0_r.
    split; [reflexivity|]. split; [exact Hfill|].
    split; [|reflexivity]. intros i r' Hr'.
    now rewrite lookup_nil in Hr'.
  - cbn [map concat length round_stores] in *.
    destruct Hok as [(Hcap & Hwait & Hnext) Hrest].
    rewrite run_app, stores_app.
    destruct (bin_measured ctx (round_capture r) (round_last r)
                (round_waiting r) (round_next r) Hwf ltac:(lia) Hfill
                Hcap Hwait Hnext)
      as (Eb & Ef & _ & Er & Es).
    fold (round_buffers r) in Eb, Ef, Er, Es. fold (round_frames r) in Er.
    pose proof (run_well_formed true ctx (round_buffers r) Hwf) as Hwf1.
    set (ctx1 := run true ctx (round_buffers r)) in *.
    destruct (IH ctx1 Hwf1) as (Eb' & Ef' & Er' & Es').
    { rewrite Eb. lia. }
    { exact Ef. }
    { rewrite Eb. lia. }
    { unfold ctx1.
      rewrite (run_count cos sinf transform), (run_needed cos sinf transform).
      exact Hrest. }
    split; [rewrite Eb', Eb; lia|]. split; [exact Ef'|].
    split; [|now rewrite Es, Es', Eb].
    intros [|i] r' Hr'.
    + cbn in Hr'. injection Hr' as <-.
      cbn [Z.of_nat]. rewrite Z.add_0_r, <- Er.
      apply run_response_frame.
      eapply Forall_impl; [apply (stores_bounds ctx1 _ Hwf1)|].
      cbn beta. intros bin [_ [Hlow _]].
      rewrite bins_begun_bin in Hlow by (rewrite Eb; lia).
      rewrite Eb in Hlow. lia.
    + cbn in Hr'. specialize (Er' i r' Hr'). rewrite Eb in Er'.
      replace (current_bin ctx + Z.of_nat (S i))
        with (current_bin ctx + 1 + Z.of_nat i) by lia.
      exact Er'.
Qed.

(** X14.  What a whole sweep leaves in the response table.  From a context
    in which a bin has just been selected, let the calls come in rounds,
    one per bin: calls that fill the capture, then [n] calls that find the
    gate closed, then a call that finds it open.  After the rounds the
    sweep has advanced by one bin per round, the slot of each bin holds the
    coefficient of its bin in the transform of the frames captured in its
    round, windowed [n + 1] times, and the calls have stored into the slots
    in the order of the bins, [n + 1] times into each.  When the rounds
    reach [fft_nbins], the next call stores [measure_finished]. *)
Theorem sweep_measures_each_bin (ctx : Measure_Context) (rounds : list Round)
    (input : list float) :
  well_formed ctx ->
  0 <= current_bin ctx ->
  fft_in_fill ctx = 0 ->
  current_bin ctx + Z.of_nat (length rounds) <= fft_nbins ->
  sweep_on_time (silence_frames_needed ctx) (silence_frames_count ctx) rounds ->
  let ctx' := run true ctx (concat (map round_buffers rounds)) in
  current_bin ctx' = current_bin ctx + Z.of_nat (length rounds) /\
  fft_in_fill ctx' = 0 /\
  (forall (i : nat) (r : Round),
     rounds !! i = Some r ->
     response ctx' !! Z.to_nat (current_bin ctx + Z.of_nat i)
     = Some (transform
               (Nat.iter (S (length (round_waiting r))) (apply_window cos)
                  (round_frames r))
               (current_bin ctx + Z.of_nat i))) /\
  stores true ctx (concat (map round_buffers rounds))
  = round_stores (current_bin ctx) rounds /\
  (current_bin ctx + Z.of_nat (length rounds) = fft_nbins ->
   cb_finished (process true ctx' input) = true).
Proof.
  intros Hwf Hbin Hfill Hlen Hok ctx'.
  destruct (sweep_measured ctx rounds Hwf Hbin Hfill Hlen Hok)
    as (Eb & Ef & Er & Es).
  fold ctx' in Eb, Ef, Er.
  split; [exact Eb|]. split; [exact Ef|]. split; [exact Er|].
  split; [exact Es|].
  intros Hend. apply process_finished_iff. split; [reflexivity|].
  now rewrite Eb.
Qed.

(** ** A sweep over quiet input *)

Lemma first_bin_selected (ctx : Measure_Context) (input : list float) :
  current_bin ctx = no_bin ->
  silence_frames_needed ctx <= silence_loop (silence_frames_count ctx) input ->
  let r := process true ctx input in
  current_bin (cb_ctx r) = 0 /\ fft_in_fill (cb_ctx r) = 0 /\
  response (cb_ctx r) = response ctx /\ cb_stored r = None.
Proof.
  intros Hbin Hgate r. subst r.
  assert (Hfin : current_bin ctx <> fft_nbins)
    by (rewrite Hbin; vm_compute; discriminate).
  assert (Hch : change_pending ctx = true)
    by (unfold change_pending; now rewrite Hbin).
  assert (Hdue : transform_due ctx = false)
    by (unfold transform_due; now rewrite Hbin).
  rewrite (process_advance cos sinf transform ctx input Hfin Hch Hgate).
  rewrite Hdue, Hbin.
  cbn [cb_ctx cb_stored current_bin fft_in_fill response].
  now repeat split.
Qed.

Lemma same_buffer_rounds (b : list float) (n : nat) :
  concat (map round_buffers (replicate n (same_buffer_round b)))
  = replicate (2 * n) b.
Proof.
  induction n as [|n IH]; [reflexivity|].
  replace (2 * S n)%nat with (S (S (2 * n))) by lia.
  cbn [replicate map concat]. now rewrite IH.
Qed.

Lemma same_buffer_stores (b : list float) (bin : Z) (n : nat) :
  round_stores bin (replicate n (same_buffer_round b)) = seqZ bin (Z.of_nat n).
Proof.
  revert bin. induction n as [|n IH]; intros bin; [reflexivity|].
  cbn [replicate round_stores same_buffer_round round_waiting length app].
  rewrite IH, (seqZ_cons bin (Z.of_nat (S n))) by lia.
  do 2 f_equal; lia.
Qed.

Lemma same_buffer_on_time (needed c : Z) (b : list float) (n : nat) :
  Forall quiet b ->
  fft_size <= Z.of_nat (length b) ->
  needed <= Z.of_nat (length b) ->
  0 <= c ->
  c + 2 * Z.of_nat n * Z.of_nat (length b) < 2 ^ 32 ->
  sweep_on_time needed c (replicate n (same_buffer_round b)).
Proof.
  intros Hq Hsize Hneed. revert c. induction n as [|n IH]; intros c Hc Hwrap;
    [exact I|].
  assert (HS : fft_size = 2048) by reflexivity.
  assert (E : silence_loop c (concat (round_buffers (same_buffer_round b)))
              = c + 2 * Z.of_nat (length b)).
  { cbn [round_buffers same_buffer_round round_capture round_last
         round_waiting round_next app concat].
    rewrite app_nil_r, silence_loop_quiet
      by (try apply Forall_app; try split; assumption || lia).
    rewrite length_app, Z.mod_small; lia. }
  cbn [replicate sweep_on_time]. split; [split; [|split]|].
  - cbn [same_buffer_round round_capture round_last concat length app]. lia.
  - cbn [same_buffer_round round_waiting length]. lia.
  - rewrite E. lia.
  - rewrite E. apply IH; lia.
Qed.

Lemma quiet_sweep (mem_in : list float) (mem_out : list cfloat)
    (rate : Z) (b input : list float) (k : nat) :
  let ctx := initial_context mem_in mem_out rate in
  let calls := (2 * Z.to_nat fft_nbins + 1)%nat in
  length mem_in = Z.to_nat fft_size ->
  Forall quiet b ->
  fft_size <= Z.of_nat (length b) ->
  silence_frames_needed ctx <= Z.of_nat (length b) ->
  Z.of_nat calls * Z.of_nat (length b) < 2 ^ 32 ->
  let ctx' := run true ctx (replicate calls b) in
  current_bin ctx' = fft_nbins /\
  progress ctx' = Some (fft_nbins + 1) /\
  cb_finished (process true ctx' input) = true /\
  stores true ctx (replicate calls b) = seqZ 0 fft_nbins /\
  ((k < Z.to_nat fft_nbins)%nat ->
   response ctx' !! k
   = Some (transform (apply_window cos (take (Z.to_nat fft_size) b))
             (Z.of_nat k))).
Proof.
  intros ctx calls Hmem Hq Hsize Hneed Hwrap ctx'.
  assert (HN : fft_nbins = 1025) by reflexivity.
  assert (HS : fft_size = 2048) by reflexivity.
  assert (Hcalls : calls = S (2 * Z.to_nat fft_nbins)) by (unfold calls; lia).
  assert (Hcount : silence_loop 0 b = Z.of_nat (length b)).
  { rewrite silence_loop_quiet by (assumption || lia).
    apply Z.mod_small. unfold calls in Hwrap. lia. }
  pose proof (initial_context_well_formed mem_in mem_out rate Hmem) as Hwf.
  fold ctx in Hwf.
  destruct (first_bin_selected ctx b eq_refl) as (Eb & Ef & _ & Es).
  { change (silence_frames_count ctx) with 0. rewrite Hcount. exact Hneed. }
  pose proof (process_well_formed true ctx b Hwf) as Hwf1.
  pose proof (process_count cos sinf transform ctx b) as Ec.
  pose proof (process_needed cos sinf transform true ctx b) as En.
  change (silence_frames_count ctx) with 0 in Ec. rewrite Hcount in Ec.
  set (ctx1 := cb_ctx (process true ctx b)) in *.
  destruct (sweep_measured ctx1
              (replicate (Z.to_nat fft_nbins) (same_buffer_round b)) Hwf1)
    as (Eb' & _ & Er & Es').
  { rewrite Eb. lia. }
  { exact Ef. }
  { rewrite Eb, length_replicate. lia. }
  { rewrite En, Ec. apply same_buffer_on_time; try assumption; lia. }
  rewrite same_buffer_rounds, length_replicate, Eb in *.
  rewrite same_buffer_stores in Es'.
  assert (E : ctx' = run true ctx1 (replicate (2 * Z.to_nat fft_nbins) b)).
  { unfold ctx'. rewrite Hcalls. cbn [replicate]. apply run_cons. }
  rewrite <- E in *.
  assert (Hend : current_bin ctx' = fft_nbins) by (rewrite Eb'; lia).
  split; [exact Hend|]. split; [|split; [|split]].
  - unfold progress. rewrite Hend.
    now rewrite incr32_small by (unfold fft_size; lia).
  - apply process_finished_iff. now split.
  - rewrite Hcalls. cbn [replicate stores]. fold ctx1. rewrite Es, Es'.
    now rewrite Z2Nat.id by lia.
  - intros Hk.
    specialize (Er k (same_buffer_round b) (lookup_replicate_2 _ _ _ Hk)).
    rewrite Z.add_0_l, Nat2Z.id, Nat.iter_succ in Er. exact Er.
Qed.

(** X15.  The sweep comes to its end on quiet input, and [main] prints its
    result.  With buffers of at least [fft_size] and [silence_frames_needed]
    frames, all of them quiet, and fewer than [2 ^ 32] frames in all, the
    first call selects bin 0 and every bin then takes two calls: after
    [2 * fft_nbins + 1] calls every slot of the response table holds the
    coefficient of its bin for the frames of its capture, windowed once,
    every slot has been stored into exactly once, in the order of the bins,
    the bin index is [fft_nbins], the progress count of [main] stands at
    [fft_nbins + 1], the next call stores [measure_finished], and line [k]
    of the file that [main] then writes holds the modulus of that
    coefficient divided by [fft_size], and its argument. *)
Theorem quiet_sweep_finishes (cabs carg : cfloat -> float)
    (mem_in : list float) (mem_out : list cfloat)
    (rate : Z) (b input : list float) (k : nat) :
  let ctx := initial_context mem_in mem_out rate in
  let calls := (2 * Z.to_nat fft_nbins + 1)%nat in
  length mem_in = Z.to_nat fft_size ->
  Forall quiet b ->
  fft_size <= Z.of_nat (length b) ->
  silence_frames_needed ctx <= Z.of_nat (length b) ->
  Z.of_nat calls * Z.of_nat (length b) < 2 ^ 32 ->
  let ctx' := run true ctx (replicate calls b) in
  let c := transform (apply_window cos (take (Z.to_nat fft_size) b))
             (Z.of_nat k) in
  current_bin ctx' = fft_nbins /\
  progress ctx' = Some (fft_nbins + 1) /\
  cb_finished (process true ctx' input) = true /\
  stores true ctx (replicate calls b) = seqZ 0 fft_nbins /\
  ((k < Z.to_nat fft_nbins)%nat ->
   response ctx' !! k = Some c /\
   report cabs carg rate (response ctx') !! k
   = Some {| freq := F32.mul (F32.of_Z (Z.of_nat k))
                       (F32.div (F32.of_Z rate) (F32.of_Z fft_size));
             amp := F32.div (cabs c) (F32.of_Z fft_size);
             phase := carg c |}).
Proof.
  intros ctx calls Hmem Hq Hsize Hneed Hwrap ctx' c.
  destruct (quiet_sweep mem_in mem_out rate b input k Hmem Hq Hsize Hneed Hwrap)
    as (Eb & Ep & Efin & Es & Er).
  fold ctx calls ctx' c in Eb, Ep, Efin, Es, Er.
  split; [exact Eb|]. split; [exact Ep|]. split; [exact Efin|].
  split; [exact Es|].
  intros Hk. specialize (Er Hk). split; [exact Er|].
  rewrite report_lookup by exact Hk. unfold report_line.
  rewrite Nat2Z.id, Er. reflexivity.
Qed.

End Sweep.

(** ** The silence test on the bits of a sample *)

Lemma silence_threshold_bits :
  silence_threshold = S754_finite false 10737418 (- 30).
Proof. reflexivity. Qed.

Lemma abs_ltb_finite (s : bool) (m t : positive) (e et : Z) :
  F32.ltb (F32.abs (S754_finite s m e)) (S754_finite false t et) = true
  <-> e < et \/ (e = et /\ Z.pos m < Z.pos t).
Proof.
  unfold F32.ltb, F32.abs, SFltb, SFabs, SFcompare.
  fold (Pos.compare m t).
  destruct (Z.compare_spec e et) as [He|He|He].
  - destruct (Pos.compare_spec m t) as [Hm|Hm|Hm].
    + split; [discriminate|]. intros [?|[_ ?]]; lia.
    + split; [intros _; right; split; [exact He|lia]|reflexivity].
    + split; [discriminate|]. intros [?|[_ ?]]; lia.
  - split; [intros _; now left|reflexivity].
  - split; [discriminate|]. intros [?|[? _]]; lia.
Qed.

(** X16.  Line 52 on the representation of a sample.  [1e-2f] is the
    [float] 10737418 * 2 ^ -30, just below 0.01; a NaN and the infinities
    are loud, the zeros are quiet, and a finite sample of mantissa [m] and
    exponent [e] is quiet exactly when [e < -30], or [e = -30] and
    [m < 10737418], whatever its sign. *)
Theorem silence_test_in_bits (s : bool) (m : positive) (e : Z) :
  silence_threshold = S754_finite false 10737418 (- 30) /\
  is_silent (S754_zero s) = true /\
  is_silent (S754_infinity s) = false /\
  is_silent S754_nan = false /\
  (is_silent (S754_finite s m e) = true
   <-> e < - 30 \/ (e = - 30 /\ Z.pos m < 10737418)).
Proof.
  unfold is_silent. rewrite silence_threshold_bits.
  split; [reflexivity|].
  split; [reflexivity|]. split; [reflexivity|]. split; [reflexivity|].
  apply abs_ltb_finite.
Qed.

(** * Examples *)

(** C1 fails on the code.  One stream of 6144 quiet frames is replayed from
    the start signal at 48 kHz, once in buffers of 1024 frames and once in
    buffers of [fft_size] = 2048 frames.  The gate and the bin change act
    once per call, and the call that changes bin records nothing: with
    buffers of 1024 the capture of bin 0 is frames 1024 to 3071 of the
    stream, with buffers of 2048 it is frames 2048 to 4095.  Both runs have
    stored [response[0]] and moved to bin 1, and the two values differ. *)
Lemma chunk_size_changes_response :
  ~ (forall (cos : double -> double) (sinf : float -> float)
       (transform : list float -> Z -> cfloat)
       (mem_in : list float) (mem_out : list cfloat) (rate : Z)
       (buffers buffers' : list (list float)) (bin : nat),
       concat buffers = concat buffers' ->
       response (run cos sinf transform true
                   (initial_context mem_in mem_out rate) buffers) !! bin
       = response (run cos sinf transform true
                     (initial_context mem_in mem_out rate) buffers') !! bin).
Proof.
  intros H.
  specialize (H Example.cos Example.sinf Example.transform
                (Example.buffer fft_size F32.zero)
                (replicate (Z.to_nat fft_nbins) czero) 48000
                Example.in_buffers_of_1024 Example.in_buffers_of_2048 0%nat).
  assert (E : concat Example.in_buffers_of_1024
              = concat Example.in_buffers_of_2048)
    by (vm_compute; reflexivity).
  specialize (H E). revert H. vm_compute. discriminate.
Qed.

(** The theorem of C1 as the code has it, on the context in the middle of
    the capture of bin 3. *)
Lemma chunking_inside_capture_witness :
  let process := process Example.cos Example.sinf Example.transform true in
  let a := Example.buffer 5 Example.loud_sample in
  let b := Example.buffer 3 Example.quiet_sample in
  (0 <= current_bin Example.capturing < fft_nbins /\
   0 <= fft_in_fill Example.capturing /\
   fft_in_fill Example.capturing + Z.of_nat (length a) < fft_size) /\
  cb_ctx (process (cb_ctx (process Example.capturing a)) b)
  = cb_ctx (process Example.capturing (a ++ b)).
Proof.
  intros process a b.
  assert (H : 0 <= current_bin Example.capturing < fft_nbins /\
              0 <= fft_in_fill Example.capturing /\
              fft_in_fill Example.capturing + Z.of_nat (length a) < fft_size)
    by (vm_compute; repeat split; discriminate).
  split; [exact H|]. destruct H as (H1 & H2 & H3).
  exact (proj1 (proj1 (chunking_inside_capture Example.cos Example.sinf
                         Example.transform Example.capturing a b [] [])
                  H1 H2 H3)).
Defined.

(** The theorem of C4 at 48 kHz: two buffers of loud frames leave the bin
    unselected, and the call that selects bin 0 comes after 480 quiet
    frames. *)
Lemma loud_input_stalls_the_sweep_witness :
  let run := run Example.cos Example.sinf Example.transform true in
  let process := process Example.cos Example.sinf Example.transform true in
  let loud_buffers := [Example.buffer 3 Example.loud_sample;
                       Example.buffer 2 Example.loud_sample] in
  let quiet := Example.buffer 480 F32.zero in
  (0 < silence_frames_needed Example.start /\
   silence_frames_count Example.start = 0 /\
   Forall (Forall loud) loud_buffers /\
   current_bin (cb_ctx (process (run Example.start []) quiet))
   <> current_bin (run Example.start [])) /\
  current_bin (run Example.start loud_buffers) = current_bin Example.start /\
  exists pre quiet',
    concat [] ++ quiet = pre ++ quiet' /\
    Forall (fun x => is_silent x = true) quiet' /\
    silence_frames_needed Example.start <= Z.of_nat (length quiet').
Proof.
  intros run process loud_buffers quiet.
  assert (Hpos : 0 < silence_frames_needed Example.start) by reflexivity.
  assert (Hzero : silence_frames_count Example.start = 0) by reflexivity.
  assert (Hloud : Forall (Forall loud) loud_buffers)
    by (repeat constructor).
  assert (Hmove : current_bin (cb_ctx (process (run Example.start []) quiet))
                  <> current_bin (run Example.start []))
    by (vm_compute; discriminate).
  split; [repeat split; assumption|].
  destruct (loud_input_stalls_the_sweep Example.cos Example.sinf
              Example.transform Example.start loud_buffers [] quiet)
    as [Hstall Hquiet].
  split.
  - apply Hstall; [exact Hpos|left; rewrite Hzero; exact Hpos|exact Hloud].
  - apply Hquiet; [exact Hzero|exact Hmove].
Defined.

(** The theorem of C7 on the context in the middle of the capture of bin 3:
    after five frames the phase is [15 / 2048]. *)
Lemma oscillator_phase_accumulator_witness :
  let input := Example.buffer 5 Example.loud_sample in
  (current_bin Example.capturing <> fft_nbins /\
   fft_in_fill Example.capturing <= fft_size /\
   (change_pending Example.capturing = true ->
    silence_frames_needed Example.capturing
    <= silence_loop (silence_frames_count Example.capturing) input)) /\
  oscillator_phase
    (cb_ctx (process Example.cos Example.sinf Example.transform true
               Example.capturing input))
  = Nat.iter 5 (phase_step (oscillator_freq 3)) F32.zero.
Proof.
  intros input.
  assert (H1 : current_bin Example.capturing <> fft_nbins)
    by (vm_compute; discriminate).
  assert (H2 : fft_in_fill Example.capturing <= fft_size)
    by (vm_compute; discriminate).
  assert (H3 : change_pending Example.capturing = true ->
               silence_frames_needed Example.capturing
               <= silence_loop (silence_frames_count Example.capturing) input)
    by (vm_compute; discriminate).
  split; [repeat split; assumption|].
  exact (proj1 (proj2 (oscillator_phase_accumulator Example.cos Example.sinf
                         Example.transform Example.capturing input H1 H2 H3))).
Defined.

(** The theorem of C8 on the context whose capture of bin 0 is complete:
    the buffer after the call, the transform, and sample 5 with its
    window coefficient. *)
Lemma window_before_transform_witness :
  let r := process Example.cos Example.sinf Example.transform true
             Example.captured [Example.loud_sample] in
  let w := apply_window Example.cos (fft_in Example.captured) in
  let k := F64.div (F64.of_Z (Z.of_nat 5)) (F64.of_Z (fft_size - 1)) in
  (current_bin Example.captured <> fft_nbins /\
   transform_due Example.captured = true /\
   (5 < Z.to_nat fft_size)%nat /\
   fft_in Example.captured !! 5%nat = Some Example.loud_sample) /\
  fft_in (cb_ctx r) = w /\
  fft_out (cb_ctx r) = fftwf_execute Example.transform w /\
  w !! 5%nat
  = Some (F64.to_float
            (F64.mul (F64.of_float Example.loud_sample)
               (F64.add
                  (F64.sub (F64.literal 42 100)
                     (F64.mul (F64.literal 5 10)
                        (Example.cos
                           (F64.mul (F64.mul (F64.of_Z 2) M_PI) k))))
                  (F64.mul (F64.literal 8 100)
                     (Example.cos
                        (F64.mul (F64.mul (F64.of_Z 4) M_PI) k)))))).
Proof.
  intros r w k.
  assert (H1 : current_bin Example.captured <> fft_nbins)
    by (vm_compute; discriminate).
  assert (H2 : transform_due Example.captured = true) by reflexivity.
  assert (H3 : (5 < Z.to_nat fft_size)%nat) by (vm_compute; lia).
  assert (H4 : fft_in Example.captured !! 5%nat = Some Example.loud_sample)
    by reflexivity.
  split; [split; [|split; [|split]]; assumption|].
  destruct (window_before_transform Example.cos Example.sinf Example.transform
              Example.captured [Example.loud_sample] H1 H2)
    as (Hin & Hout & _ & Hw & _).
  split; [exact Hin|]. split; [exact Hout|].
  exact (Hw 5%nat Example.loud_sample H3 H4).
Defined.

(** The theorem of C10 at the call that selects bin 0. *)
Lemma bin_change_skips_capture_witness :
  let r := process Example.cos Example.sinf Example.transform true
             Example.start (Example.buffer 480 F32.zero) in
  current_bin (cb_ctx r) <> current_bin Example.start /\
  current_bin (cb_ctx r) = incr32 (current_bin Example.start) /\
  fft_in_fill (cb_ctx r) = 0.
Proof.
  intros r.
  assert (H : current_bin (cb_ctx r) <> current_bin Example.start)
    by (vm_compute; discriminate).
  split; [exact H|].
  destruct (bin_change_skips_capture Example.cos Example.sinf Example.transform
              Example.start (Example.buffer 480 F32.zero) [] H)
    as (Hbin & Hfill & _).
  split; [exact Hbin|exact Hfill].
Defined.

(** The theorem of C5 at 48 kHz, at the call that selects bin 0. *)
Lemma silence_gate_threshold_witness :
  let quiet := Example.buffer 480 F32.zero in
  (0 < 48000 < 2 ^ 24 /\
   current_bin Example.start <> fft_nbins /\
   (current_bin Example.start = no_bin
    \/ fft_in_fill Example.start = fft_size)) /\
  silence_frames_needed Example.start = spec_silence_frames_needed 48000 /\
  (current_bin (cb_ctx (process Example.cos Example.sinf Example.transform
                          true Example.start quiet))
   <> current_bin Example.start
   <-> silence_frames_needed Example.start
       <= silence_loop (silence_frames_count Example.start) quiet).
Proof.
  intros quiet.
  assert (H1 : 0 < 48000 < 2 ^ 24) by (vm_compute; split; reflexivity).
  assert (H2 : current_bin Example.start <> fft_nbins)
    by (vm_compute; discriminate).
  assert (H3 : current_bin Example.start = no_bin
               \/ fft_in_fill Example.start = fft_size)
    by (left; reflexivity).
  split; [repeat split; assumption|].
  destruct (silence_gate_threshold Example.cos Example.sinf Example.transform
              48000 (Example.buffer fft_size F32.zero)
              (replicate (Z.to_nat fft_nbins) czero) true Example.start quiet [])
    as (Hneeded & _ & _ & Hgate).
  split; [exact (Hneeded H1)|exact (Hgate H2 H3)].
Defined.

(** The theorem of C6 at 48 kHz, on the response table of the start. *)
Lemma response_file_witness :
  let file := report Example.cabs Example.carg 48000
                (response Example.start) in
  0 < 48000 < 2 ^ 24 /\
  length file = 1025%nat /\
  freq <$> file !! 1024%nat
  = Some (F32.mul (F32.literal 5 10) (F32.of_Z 48000)).
Proof.
  intros file.
  assert (H : 0 < 48000 < 2 ^ 24) by (vm_compute; split; reflexivity).
  split; [exact H|].
  destruct (response_file Example.cabs Example.carg 48000
              (response Example.start) H)
    as (Hlen & _ & _ & _ & Hlast & _).
  split; [exact Hlen|exact Hlast].
Defined.

(** * Examples for the sweep as a whole *)

Ltac well_formed_by_evaluation :=
  unfold well_formed;
  split; [first [left; reflexivity|right; vm_compute; split; discriminate]|];
  split; [vm_compute; split; discriminate|];
  split; [vm_compute; reflexivity|];
  split; [vm_compute; reflexivity|];
  split; [vm_compute; split; [discriminate|reflexivity]|];
  exists 0; split; [vm_compute; split; [discriminate|reflexivity]|reflexivity].

(** The counter after a quiet frame, a loud frame and three quiet frames. *)
Lemma silence_counter_run_length_witness :
  let input := Example.buffer 3 F32.zero in
  (0 <= 7 < 2 ^ 32 /\ Forall quiet input /\ loud Example.loud_sample) /\
  silence_loop 7 input = 10 /\
  silence_loop 7 ([Example.quiet_sample] ++ Example.loud_sample :: input) = 3.
Proof.
  intros input.
  assert (H1 : 0 <= 7 < 2 ^ 32) by lia.
  assert (H2 : Forall quiet input) by (repeat constructor).
  assert (H3 : loud Example.loud_sample) by reflexivity.
  split; [split; [|split]; assumption|].
  destruct (silence_counter_run_length 7 [Example.quiet_sample]
              Example.loud_sample input H1 H2) as [Ha Hb].
  split; [exact Ha|exact (Hb H3)].
Defined.

(** The invariant after the call that selects bin 0 at 48 kHz and a call
    that captures five frames. *)
Lemma reachable_contexts_well_formed_witness :
  let mem_in := Example.buffer fft_size F32.zero in
  length mem_in = Z.to_nat fft_size /\
  well_formed
    (run Example.cos Example.sinf Example.transform true
       (initial_context mem_in [] 48000)
       [Example.buffer 480 F32.zero; Example.buffer 5 Example.loud_sample]).
Proof.
  intros mem_in.
  assert (H : length mem_in = Z.to_nat fft_size) by (vm_compute; reflexivity).
  split; [exact H|].
  exact (reachable_contexts_well_formed Example.cos Example.sinf
           Example.transform mem_in [] 48000 true
           [Example.buffer 480 F32.zero; Example.buffer 5 Example.loud_sample]
           H).
Defined.

(** The progress count over the call that selects bin 0 and the next. *)
Lemma sweep_moves_forward_witness :
  let run := run Example.cos Example.sinf Example.transform true in
  let done := [Example.buffer 480 F32.zero] in
  let more := [Example.buffer 5 Example.loud_sample] in
  well_formed Example.start /\
  bins_begun (run Example.start done)
  <= bins_begun (run Example.start (done ++ more))
  <= bins_begun (run Example.start done) + 1.
Proof.
  intros run done more.
  assert (H : well_formed Example.start) by well_formed_by_evaluation.
  split; [exact H|].
  exact (proj1 (sweep_moves_forward Example.cos Example.sinf Example.transform
                  true Example.start done more H)).
Defined.

(** Two calls at the end of the sweep. *)
Lemma finished_sweep_is_final_witness :
  let process := process Example.cos Example.sinf Example.transform true in
  let run := run Example.cos Example.sinf Example.transform true in
  let buffers := [[Example.loud_sample]] in
  current_bin Sweep_example.finished = fft_nbins /\
  stores Example.cos Example.sinf Example.transform true
    Sweep_example.finished buffers = [] /\
  cb_finished (process (run Sweep_example.finished buffers) [F32.zero]) = true.
Proof.
  intros process run buffers.
  assert (H : current_bin Sweep_example.finished = fft_nbins) by reflexivity.
  split; [exact H|].
  destruct (proj2 (finished_sweep_is_final Example.cos Example.sinf
                     Example.transform true Sweep_example.finished buffers
                     [F32.zero]) H)
    as (_ & Hs & Hf & _).
  split; [exact Hs|exact Hf].
Defined.

(** A loud buffer before the first bin. *)
Lemma callback_output_witness :
  let input := Example.buffer 3 Example.loud_sample in
  (change_pending Example.start = true /\
   silence_loop (silence_frames_count Example.start) input
   < silence_frames_needed Example.start) /\
  cb_output (process Example.cos Example.sinf Example.transform true
               Example.start input)
  = silence input.
Proof.
  intros input.
  assert (H : change_pending Example.start = true /\
              silence_loop (silence_frames_count Example.start) input
              < silence_frames_needed Example.start)
    by (split; vm_compute; reflexivity).
  split; [exact H|].
  exact (proj2 (callback_output Example.cos Example.sinf Example.transform
                  true Example.start input)
           (or_intror (or_intror H))).
Defined.

(** Slot 0 over the call that selects bin 0. *)
Lemma response_frame_witness :
  let buffers := [Example.buffer 480 F32.zero] in
  Forall (fun bin => Z.to_nat bin <> 0%nat)
    (stores Example.cos Example.sinf Example.transform true
       Example.start buffers) /\
  response (run Example.cos Example.sinf Example.transform true
              Example.start buffers) !! 0%nat
  = response Example.start !! 0%nat.
Proof.
  intros buffers.
  assert (H : Forall (fun bin => Z.to_nat bin <> 0%nat)
                (stores Example.cos Example.sinf Example.transform true
                   Example.start buffers))
    by (vm_compute; constructor).
  split; [exact H|].
  exact (proj1 (proj2 (response_frame Example.cos Example.sinf
                         Example.transform Example.start buffers 0)) H).
Defined.

(** The stores of two calls from the start at 48 kHz. *)
Lemma stores_in_bin_order_witness :
  let buffers := [Example.buffer 480 F32.zero;
                  Example.buffer 5 Example.loud_sample] in
  well_formed Example.start /\
  StronglySorted Z.le
    (stores Example.cos Example.sinf Example.transform true
       Example.start buffers).
Proof.
  intros buffers.
  assert (H : well_formed Example.start) by well_formed_by_evaluation.
  split; [exact H|].
  exact (proj1 (stores_in_bin_order Example.cos Example.sinf
                  Example.transform Example.start buffers H)).
Defined.

(** Eight frames in two calls in the middle of the capture of bin 3. *)
Lemma capture_is_stream_prefix_witness :
  let run := run Example.cos Example.sinf Example.transform true in
  let buffers := [Example.buffer 5 Example.loud_sample] in
  let last := Example.buffer 3 Example.quiet_sample in
  (0 <= current_bin Example.capturing < fft_nbins /\
   0 <= fft_in_fill Example.capturing /\
   fft_in_fill Example.capturing + Z.of_nat (length (concat buffers))
   < fft_size) /\
  run Example.capturing (buffers ++ [last])
  = cb_ctx (process Example.cos Example.sinf Example.transform true
              Example.capturing (concat buffers ++ last)).
Proof.
  intros run buffers last.
  assert (H1 : 0 <= current_bin Example.capturing < fft_nbins)
    by (vm_compute; split; [discriminate|reflexivity]).
  assert (H2 : 0 <= fft_in_fill Example.capturing)
    by (vm_compute; discriminate).
  assert (H3 : fft_in_fill Example.capturing
               + Z.of_nat (length (concat buffers)) < fft_size)
    by (vm_compute; reflexivity).
  split; [split; [|split]; assumption|].
  exact (proj1 (capture_is_stream_prefix Example.cos Example.sinf
                  Example.transform Example.capturing buffers last
                  H1 H2 H3)).
Defined.

(** Two loud calls after the capture of bin 0 is complete. *)
Lemma waiting_calls_window_again_witness :
  let buffers := [[Example.loud_sample]; [Example.loud_sample]] in
  (0 <= current_bin Example.captured < fft_nbins /\
   fft_in_fill Example.captured = fft_size /\
   (Z.to_nat (current_bin Example.captured)
    < length (response Example.captured))%nat /\
   buffers <> [] /\
   forall i, (i < length buffers)%nat ->
     silence_loop (silence_frames_count Example.captured)
       (concat (take (S i) buffers))
     < silence_frames_needed Example.captured) /\
  stores Example.cos Example.sinf Example.transform true
    Example.captured buffers = [0; 0] /\
  fft_in_fill (run Example.cos Example.sinf Example.transform true
                 Example.captured buffers)
  = fft_size.
Proof.
  intros buffers.
  assert (H1 : 0 <= current_bin Example.captured < fft_nbins)
    by (vm_compute; split; [discriminate|reflexivity]).
  assert (H2 : fft_in_fill Example.captured = fft_size) by reflexivity.
  assert (H3 : (Z.to_nat (current_bin Example.captured)
                < length (response Example.captured))%nat)
    by (vm_compute; lia).
  assert (H4 : buffers <> []) by discriminate.
  assert (H5 : forall i, (i < length buffers)%nat ->
                 silence_loop (silence_frames_count Example.captured)
                   (concat (take (S i) buffers))
                 < silence_frames_needed Example.captured).
  { intros [|[|i]] Hi; [reflexivity|reflexivity|cbn in Hi; lia]. }
  split; [split; [|split; [|split; [|split]]]; assumption|].
  destruct (waiting_calls_window_again Example.cos Example.sinf
              Example.transform Example.captured buffers H1 H2 H3 H4 H5)
    as (_ & Hf & _ & Hs & _).
  split; [exact Hs|exact Hf].
Defined.

(** 300 frames after the start signal at 48 kHz, where 480 are needed. *)
Lemma no_bin_before_settling_witness :
  let mem_in := Example.buffer fft_size F32.zero in
  let ctx := initial_context mem_in [] 48000 in
  let buffers := [Example.buffer 100 F32.zero] in
  let input := Example.buffer 200 F32.zero in
  Z.of_nat (length (concat buffers)) + Z.of_nat (length input)
  < silence_frames_needed ctx /\
  current_bin
    (cb_ctx (process Example.cos Example.sinf Example.transform true
               (run Example.cos Example.sinf Example.transform true
                  ctx buffers) input))
  = no_bin.
Proof.
  intros mem_in ctx buffers input.
  assert (H : Z.of_nat (length (concat buffers)) + Z.of_nat (length input)
              < silence_frames_needed ctx) by (vm_compute; reflexivity).
  split; [exact H|].
  destruct (no_bin_before_settling Example.cos Example.sinf Example.transform
              mem_in [] 48000 buffers input H)
    as (_ & _ & Hb & _).
  exact Hb.
Defined.

(** The threshold at 44.1 kHz and at 48 kHz. *)
Lemma silence_frames_needed_bounds_witness :
  (0 < 44100 < 2 ^ 24 /\ 44100 <= 48000 < 2 ^ 24) /\
  main_silence_frames_needed 44100 = 441 /\
  main_silence_frames_needed 44100 <= main_silence_frames_needed 48000.
Proof.
  assert (H1 : 0 < 44100 < 2 ^ 24) by lia.
  assert (H2 : 44100 <= 48000 < 2 ^ 24) by lia.
  split; [split; assumption|].
  destruct (silence_frames_needed_bounds 44100 48000 H1)
    as (He & _ & _ & Hm).
  split; [exact He|exact (Hm H2)].
Defined.

(** Five frames in the middle of the capture of bin 3: the phase goes from
    0 to [15 / 2048]. *)
Lemma excitation_closed_form_witness :
  let input := Example.buffer 5 Example.loud_sample in
  (well_formed Example.capturing /\
   current_bin Example.capturing <> fft_nbins /\
   (change_pending Example.capturing = true ->
    silence_frames_needed Example.capturing
    <= silence_loop (silence_frames_count Example.capturing) input) /\
   0 <= 0 < fft_size /\
   oscillator_phase Example.capturing = phase_of 0) /\
  oscillator_phase
    (cb_ctx (process Example.cos Example.sinf Example.transform true
               Example.capturing input))
  = phase_of 15.
Proof.
  intros input.
  assert (H1 : well_formed Example.capturing) by well_formed_by_evaluation.
  assert (H2 : current_bin Example.capturing <> fft_nbins)
    by (vm_compute; discriminate).
  assert (H3 : change_pending Example.capturing = true ->
               silence_frames_needed Example.capturing
               <= silence_loop (silence_frames_count Example.capturing) input)
    by (vm_compute; discriminate).
  assert (H4 : 0 <= 0 < fft_size) by (vm_compute; split; [discriminate|reflexivity]).
  assert (H5 : oscillator_phase Example.capturing = phase_of 0) by reflexivity.
  split; [split; [|split; [|split; [|split]]]; assumption|].
  destruct (excitation_closed_form Example.cos Example.sinf Example.transform
              Example.capturing input 0 H1 H2 H3 H4 H5)
    as (_ & _ & Hp & _).
  exact Hp.
Defined.

(** The round of bin 3: one call waits, so the window is applied twice. *)
Lemma bin_measurement_witness :
  let r := Sweep_example.round in
  let ctx := Sweep_example.selected in
  let buffers := round_buffers r in
  (well_formed ctx /\
   0 <= current_bin ctx < fft_nbins /\
   fft_in_fill ctx = 0 /\
   round_on_time (silence_frames_needed ctx) (silence_frames_count ctx) r) /\
  current_bin (run Example.cos Example.sinf Example.transform true ctx buffers)
  = 4 /\
  stores Example.cos Example.sinf Example.transform true ctx buffers = [3; 3].
Proof.
  intros r ctx buffers.
  assert (H1 : well_formed ctx) by well_formed_by_evaluation.
  assert (H2 : 0 <= current_bin ctx < fft_nbins)
    by (vm_compute; split; [discriminate|reflexivity]).
  assert (H3 : fft_in_fill ctx = 0) by reflexivity.
  assert (H4 : round_on_time (silence_frames_needed ctx)
                 (silence_frames_count ctx) r).
  { split; [vm_compute; split; [reflexivity|discriminate]|]. split.
    - intros [|i] Hi; [vm_compute; reflexivity|cbn in Hi; lia].
    - vm_compute. discriminate. }
  split; [split; [|split; [|split]]; assumption|].
  destruct H4 as (Hcap & Hwait & Hnext).
  destruct (bin_measurement Example.cos Example.sinf Example.transform ctx
              (round_capture r) (round_last r) (round_waiting r)
              (round_next r) 0 H1 H2 H3 Hcap Hwait Hnext)
    as (Hb & _ & _ & _ & Hs).
  split; [exact Hb|exact Hs].
Defined.

(** A sweep of one round, over bin 3. *)
Lemma sweep_measures_each_bin_witness :
  let ctx := Sweep_example.selected in
  let rounds := [Sweep_example.round] in
  (well_formed ctx /\
   0 <= current_bin ctx /\
   fft_in_fill ctx = 0 /\
   current_bin ctx + Z.of_nat (length rounds) <= fft_nbins /\
   sweep_on_time (silence_frames_needed ctx) (silence_frames_count ctx)
     rounds) /\
  current_bin (run Example.cos Example.sinf Example.transform true ctx
                 (concat (map round_buffers rounds)))
  = 4.
Proof.
  intros ctx rounds.
  assert (H1 : well_formed ctx) by well_formed_by_evaluation.
  assert (H2 : 0 <= current_bin ctx) by (vm_compute; discriminate).
  assert (H3 : fft_in_fill ctx = 0) by reflexivity.
  assert (H4 : current_bin ctx + Z.of_nat (length rounds) <= fft_nbins)
    by (vm_compute; discriminate).
  assert (H5 : sweep_on_time (silence_frames_needed ctx)
                 (silence_frames_count ctx) rounds).
  { split; [|exact I].
    split; [vm_compute; split; [reflexivity|discriminate]|]. split.
    - intros [|i] Hi; [vm_compute; reflexivity|cbn in Hi; lia].
    - vm_compute. discriminate. }
  split; [split; [|split; [|split; [|split]]]; assumption|].
  destruct (sweep_measures_each_bin Example.cos Example.sinf Example.transform
              ctx rounds [] H1 H2 H3 H4 H5)
    as (Hb & _).
  exact Hb.
Defined.

(** A sweep over buffers of 2048 zeros at 48 kHz. *)
Lemma quiet_sweep_finishes_witness :
  let mem_in := Example.buffer fft_size F32.zero in
  let ctx := initial_context mem_in [] 48000 in
  let b := Example.buffer fft_size F32.zero in
  (length mem_in = Z.to_nat fft_size /\
   Forall quiet b /\
   fft_size <= Z.of_nat (length b) /\
   silence_frames_needed ctx <= Z.of_nat (length b) /\
   Z.of_nat (2 * Z.to_nat fft_nbins + 1) * Z.of_nat (length b) < 2 ^ 32) /\
  current_bin (run Example.cos Example.sinf Example.transform true ctx
                 (replicate (2 * Z.to_nat fft_nbins + 1) b))
  = fft_nbins.
Proof.
  intros mem_in ctx b.
  assert (H1 : length mem_in = Z.to_nat fft_size) by (vm_compute; reflexivity).
  assert (H2 : Forall quiet b).
  { apply (@bool_decide_unpack _
             (@Forall_dec _ quiet
                (fun x => bool_eq_dec (is_silent x) true) b)).
    vm_compute. exact I. }
  assert (H3 : fft_size <= Z.of_nat (length b)) by (vm_compute; discriminate).
  assert (H4 : silence_frames_needed ctx <= Z.of_nat (length b))
    by (vm_compute; discriminate).
  assert (H5 : Z.of_nat (2 * Z.to_nat fft_nbins + 1) * Z.of_nat (length b)
               < 2 ^ 32) by (vm_compute; reflexivity).
  split; [split; [|split; [|split; [|split]]]; assumption|].
  destruct (quiet_sweep_finishes Example.cos Example.sinf Example.transform
              Example.cabs Example.carg mem_in [] 48000 b [] 0
              H1 H2 H3 H4 H5)
    as (Hb & _).
  exact Hb.
Defined.
